(** * EULA document pipeline: a shallow embedding of the validation core

    The development follows the Python sources module by module:
    [models] (domain/models.py), [hashing] (domain/hashing.py),
    [validation] (domain/validation.py), [engine], [normalize], [extractor]
    and [table] (services/ocr).  Definitions come first, the theorems about
    them afterwards.

    Conventions of the embedding.
    - A Python [float] (confidences, page coordinates) and a finite
      [Decimal] (amounts, quantities) are exact rationals [Q]; comparisons
      are the boolean comparisons of [Q].
    - A Python [str] is a [string] of bytes holding its UTF-8 encoding; the
      character classes of [str] methods and of [re] ([\d], [\s], case
      folding) act on the ASCII range.
    - A function that can raise returns a [result]: [Ok v] or [Raise e]. *)

From Stdlib Require Import ZArith QArith Qabs Qpower List String Ascii Bool Lia Lqa.
From Stdlib Require Import Permutation Sorted.
From stdpp Require Import gmap.
Import ListNotations.

Local Open Scope string_scope.

(** ** The Python runtime: exceptions, numbers, strings *)

Module py.

Inductive exn : Type :=
| ValueError (msg : string)
| InvalidOperation
| IndexError.

Inductive result (A : Type) : Type :=
| Ok (a : A)
| Raise (e : exn).
Arguments Ok {A} a.
Arguments Raise {A} e.

Definition bind {A B : Type} (m : result A) (k : A -> result B) : result B :=
  match m with
  | Ok a => k a
  | Raise e => Raise e
  end.

(** [try: body except ...: handler], for a handler that catches whatever the
    body of the model can raise. *)
Definition try_except {A : Type} (body : result A) (handler : exn -> result A) : result A :=
  match body with
  | Ok a => Ok a
  | Raise e => handler e
  end.

Definition is_ok {A : Type} (m : result A) : bool :=
  match m with Ok _ => true | Raise _ => false end.

(** Comparisons of floats and decimals. *)
Definition Qltb (x y : Q) : bool := negb (Qle_bool y x).
Definition Qgtb (x y : Q) : bool := Qltb y x.
Definition Qleb (x y : Q) : bool := Qle_bool x y.

(** *** Characters *)

Definition code (a : ascii) : nat := nat_of_ascii a.

Definition in_range (lo hi : nat) (a : ascii) : bool :=
  (lo <=? code a)%nat && (code a <=? hi)%nat.

Definition is_digit (a : ascii) : bool := in_range 48 57 a.
Definition is_upper (a : ascii) : bool := in_range 65 90 a.
Definition is_lower (a : ascii) : bool := in_range 97 122 a.

(** [str.isspace] on the ASCII range: tab to carriage return, the four
    separators 0x1c-0x1f, and the space. *)
Definition is_space (a : ascii) : bool :=
  in_range 9 13 a || in_range 28 31 a || (code a =? 32)%nat.

Definition lower_ascii (a : ascii) : ascii :=
  if is_upper a then ascii_of_nat (code a + 32) else a.

Definition eqb_nocase (a b : ascii) : bool :=
  Ascii.eqb (lower_ascii a) (lower_ascii b).

(** *** Strings *)

Fixpoint lower (s : string) : string :=
  match s with
  | EmptyString => EmptyString
  | String a s' => String (lower_ascii a) (lower s')
  end.

Fixpoint lstrip (s : string) : string :=
  match s with
  | EmptyString => EmptyString
  | String a s' => if is_space a then lstrip s' else s
  end.

Fixpoint rstrip (s : string) : string :=
  match s with
  | EmptyString => EmptyString
  | String a s' =>
      match rstrip s' with
      | EmptyString => if is_space a then EmptyString else String a EmptyString
      | t => String a t
      end
  end.

Definition strip (s : string) : string := rstrip (lstrip s).

Fixpoint startswith (s p : string) : bool :=
  match p, s with
  | EmptyString, _ => true
  | String b p', String a s' => Ascii.eqb a b && startswith s' p'
  | String _ _, EmptyString => false
  end.

Fixpoint drop (n : nat) (s : string) : string :=
  match n, s with
  | O, _ => s
  | S n', String _ s' => drop n' s'
  | S _, EmptyString => EmptyString
  end.

Fixpoint take (n : nat) (s : string) : string :=
  match n, s with
  | S n', String a s' => String a (take n' s')
  | _, _ => EmptyString
  end.

(** [s[i:j]] for [0 <= i]. *)
Definition slice (s : string) (i j : nat) : string := take (j - i) (drop i s).

(** [s.find(sub)]: the least index where [sub] occurs, [-1] when none. *)
Fixpoint find_from (sub s : string) (i : Z) : Z :=
  if startswith s sub then i
  else match s with
       | EmptyString => (-1)%Z
       | String _ s' => find_from sub s' (i + 1)%Z
       end.

Definition find (s sub : string) : Z := find_from sub s 0%Z.

(** [sub in s] *)
Definition contains (s sub : string) : bool := (0 <=? find s sub)%Z.

(** [s.rindex(sub)] for a [sub] that occurs in [s]: the greatest index. *)
Fixpoint rfind_from (sub s : string) (i : Z) (best : Z) : Z :=
  let best' := if startswith s sub then i else best in
  match s with
  | EmptyString => best'
  | String _ s' => rfind_from sub s' (i + 1)%Z best'
  end.

Definition rindex (s sub : string) : Z := rfind_from sub s 0%Z (-1)%Z.

(** [s.replace(old, new)] for a non-empty [old]: the occurrences of [old]
    are taken left to right and do not overlap; [skip] counts the characters
    of an occurrence still to be passed over. *)
Fixpoint replace_from (old new : string) (skip : nat) (s : string) : string :=
  match s with
  | EmptyString => EmptyString
  | String a s' =>
      match skip with
      | S k => replace_from old new k s'
      | O =>
          if startswith s old
          then new ++ replace_from old new (String.length old - 1) s'
          else String a (replace_from old new O s')
      end
  end.

(** With an empty [old], Python puts [new] before every character and at
    the end. *)
Fixpoint interleave (new s : string) : string :=
  match s with
  | EmptyString => new
  | String a s' => new ++ String a (interleave new s')
  end.

Definition replace (s old new : string) : string :=
  match old with
  | EmptyString => interleave new s
  | String _ _ => replace_from old new O s
  end.

(** [sep.join(parts)] *)
Fixpoint join (sep : string) (parts : list string) : string :=
  match parts with
  | [] => EmptyString
  | [p] => p
  | p :: rest => p ++ sep ++ join sep rest
  end.

(** [s.split()]: the maximal runs of non-space characters. *)
Fixpoint split_ws_from (cur : string) (s : string) : list string :=
  let flush := match cur with EmptyString => [] | _ => [cur] end in
  match s with
  | EmptyString => flush
  | String a s' =>
      if is_space a then flush ++ split_ws_from EmptyString s'
      else split_ws_from (cur ++ String a EmptyString) s'
  end.

Definition split_ws (s : string) : list string := split_ws_from EmptyString s.

(** [s.split(sep)] for a one-character [sep]. *)
Fixpoint split_chr_from (sep : ascii) (cur : string) (s : string) : list string :=
  match s with
  | EmptyString => [cur]
  | String a s' =>
      if Ascii.eqb a sep then cur :: split_chr_from sep EmptyString s'
      else split_chr_from sep (cur ++ String a EmptyString) s'
  end.

Definition split_chr (s : string) (sep : ascii) : list string :=
  split_chr_from sep EmptyString s.

(** [not s] *)
Definition is_empty (s : string) : bool :=
  match s with EmptyString => true | _ => false end.

(** [filter] on the characters of a string. *)
Fixpoint filter_chars (p : ascii -> bool) (s : string) : string :=
  match s with
  | EmptyString => EmptyString
  | String a s' => if p a then String a (filter_chars p s') else filter_chars p s'
  end.

(** The string of the images of the characters of [s]. *)
Fixpoint map_chars (f : ascii -> ascii) (s : string) : string :=
  match s with
  | EmptyString => EmptyString
  | String a s' => String (f a) (map_chars f s')
  end.

Fixpoint forall_chars (p : ascii -> bool) (s : string) : bool :=
  match s with
  | EmptyString => true
  | String a s' => p a && forall_chars p s'
  end.

(** [str(n)] for a natural number. *)
Definition digit_char (d : nat) : ascii := ascii_of_nat (48 + d).

Fixpoint str_nat_fuel (fuel n : nat) (acc : string) : string :=
  match fuel with
  | O => acc
  | S f =>
      let acc' := String (digit_char (n mod 10)) acc in
      if (n <? 10)%nat then acc' else str_nat_fuel f (n / 10) acc'
  end.

Definition str_nat (n : nat) : string := str_nat_fuel (S n) n EmptyString.

(** [enumerate(l)] *)
Definition enumerate {A : Type} (l : list A) : list (nat * A) :=
  combine (seq 0 (length l)) l.


(** [sorted(l, key=...)] and [list.sort]: a stable insertion sort, which
    returns what any stable sort returns. *)
Section Sorting.
Context {A : Type} (le : A -> A -> bool).

Fixpoint insert_sorted (x : A) (l : list A) : list A :=
  match l with
  | [] => [x]
  | y :: l' => if le y x then y :: insert_sorted x l' else x :: l
  end.

Definition sorted (l : list A) : list A :=
  fold_left (fun acc x => insert_sorted x acc) l [].

End Sorting.

(** Lexicographic order of strings, by character code. *)
Fixpoint str_le (s t : string) : bool :=
  match s, t with
  | EmptyString, _ => true
  | String _ _, EmptyString => false
  | String a s', String b t' =>
      if (code a <? code b)%nat then true
      else if (code b <? code a)%nat then false
      else str_le s' t'
  end.

End py.

(** ** [datetime.date] *)

Module datetime.
Import py.

Record date : Type := { year : Z; month : Z; day : Z }.

Definition is_leap (y : Z) : bool :=
  ((y mod 4 =? 0) && (negb (y mod 100 =? 0) || (y mod 400 =? 0)))%Z.

Definition days_in_month (y m : Z) : Z :=
  match m with
  | 1 | 3 | 5 | 7 | 8 | 10 | 12 => 31
  | 4 | 6 | 9 | 11 => 30
  | 2 => if is_leap y then 29 else 28
  | _ => 0
  end%Z.

(** [date(y, m, d)]: [ValueError] unless it is a day of the calendar. *)
Definition new_date (y m d : Z) : result date :=
  if ((1 <=? y) && (y <=? 9999) && (1 <=? m) && (m <=? 12)
      && (1 <=? d) && (d <=? days_in_month y m))%Z
  then Ok {| year := y; month := m; day := d |}
  else Raise (ValueError "date value out of range").

Definition days_before_year (y : Z) : Z :=
  let p := (y - 1)%Z in (p * 365 + p / 4 - p / 100 + p / 400)%Z.

Fixpoint days_before_month_aux (y : Z) (n : nat) : Z :=
  match n with
  | O => 0%Z
  | S k => (days_before_month_aux y k + days_in_month y (Z.of_nat n))%Z
  end.

Definition days_before_month (y m : Z) : Z :=
  days_before_month_aux y (Z.to_nat (m - 1)).

Definition toordinal (d : date) : Z :=
  (days_before_year (year d) + days_before_month (year d) (month d) + day d)%Z.

(** Dates compare as the triples (year, month, day). *)
Definition date_ltb (a b : date) : bool :=
  ((year a <? year b)
   || ((year a =? year b)
       && ((month a <? month b) || ((month a =? month b) && (day a <? day b)))))%Z.

Definition date_gtb (a b : date) : bool := date_ltb b a.

(** [(a - b).days] *)
Definition days_between (a b : date) : Z := (toordinal a - toordinal b)%Z.

(** The dates that [date(y, m, d)] can build. *)
Definition valid_date (d : date) : Prop :=
  is_ok (new_date (year d) (month d) (day d)) = true.

End datetime.

(** ** domain/models.py *)

Module models.
Import py datetime.
Local Open Scope Q_scope.

Inductive DocumentType : Type :=
| INVOICE | PURCHASE_ORDER | PROOF_OF_DELIVERY.

Inductive VerificationStatus : Type :=
| PENDING | PROCESSING | PASSED | FAILED | REQUIRES_REVIEW.

Module BoundingBox.
Record t : Type := { x_min : Q; y_min : Q; x_max : Q; y_max : Q; page : Z }.

Definition new (x0 y0 x1 y1 : Q) (p : Z) : result t :=
  if negb (Qleb 0 x0 && Qleb x0 x1 && Qleb x1 1)
  then Raise (ValueError "Invalid x coordinates")
  else if negb (Qleb 0 y0 && Qleb y0 y1 && Qleb y1 1)
  then Raise (ValueError "Invalid y coordinates")
  else Ok {| x_min := x0; y_min := y0; x_max := x1; y_max := y1; page := p |}.
End BoundingBox.

Module ExtractedField.
Record t (T : Type) : Type :=
  { value : T;
    confidence : Q;
    bounding_box : option BoundingBox.t;
    raw_text : option string }.
Arguments value {T} _.
Arguments confidence {T} _.
Arguments bounding_box {T} _.
Arguments raw_text {T} _.

(** The constructor of the frozen dataclass, with its [__post_init__]. *)
Definition new {T : Type} (v : T) (c : Q) (bb : option BoundingBox.t)
    (raw : option string) : result (t T) :=
  if negb (Qleb 0 c && Qleb c 1)
  then Raise (ValueError "Confidence must be 0-1")
  else Ok {| value := v; confidence := c; bounding_box := bb; raw_text := raw |}.

Definition requires_review {T : Type} (f : t T) : bool :=
  Qltb (confidence f) 0.7.
End ExtractedField.

Module LineItem.
Record t : Type :=
  { description : ExtractedField.t string;
    quantity : ExtractedField.t Q;
    unit_price : ExtractedField.t Q;
    total : ExtractedField.t Q }.

Definition calculated_total (it : t) : Q :=
  ExtractedField.value (quantity it) * ExtractedField.value (unit_price it).

Definition has_math_error (it : t) : bool :=
  let diff := Qabs (calculated_total it - ExtractedField.value (total it)) in
  Qgtb diff 0.01.
End LineItem.

(** [sum(gen, Decimal(0))] *)
Definition sum_decimal (l : list Q) : Q := fold_left Qplus l 0.

Module Invoice.
Record t : Type :=
  { invoice_number : ExtractedField.t string;
    total_amount : ExtractedField.t Q;
    currency : ExtractedField.t string;
    invoice_date : ExtractedField.t date;
    due_date : ExtractedField.t date;
    payee_name : ExtractedField.t string;
    payer_name : ExtractedField.t string;
    line_items : list LineItem.t }.

Definition total_quantity (inv : t) : Q :=
  sum_decimal (map (fun it => ExtractedField.value (LineItem.quantity it)) (line_items inv)).

Definition calculated_total (inv : t) : Q :=
  sum_decimal (map (fun it => ExtractedField.value (LineItem.total it)) (line_items inv)).

End Invoice.

Module PurchaseOrder.
Record t : Type :=
  { po_number : ExtractedField.t string;
    authorized_amount : ExtractedField.t Q;
    currency : ExtractedField.t string;
    po_date : ExtractedField.t date;
    buyer_name : ExtractedField.t string;
    vendor_name : ExtractedField.t string;
    line_items : list LineItem.t }.

Definition total_quantity (po : t) : Q :=
  sum_decimal (map (fun it => ExtractedField.value (LineItem.quantity it)) (line_items po)).
End PurchaseOrder.

Module ProofOfDelivery.
Record t : Type :=
  { delivery_reference : ExtractedField.t string;
    quantity_delivered : ExtractedField.t Q;
    delivery_date : ExtractedField.t date;
    recipient_name : ExtractedField.t string;
    recipient_signature : bool;
    po_reference : option (ExtractedField.t string) }.
End ProofOfDelivery.

Module DocumentBundle.
Record t : Type :=
  { invoice : Invoice.t;
    purchase_order : PurchaseOrder.t;
    proof_of_delivery : ProofOfDelivery.t;
    invoice_hash : option string;
    po_hash : option string;
    pod_hash : option string }.
End DocumentBundle.

(** An f-string is kept as its parts: the literal text and the values put
    into it, each with the conversion the source asks for. *)
Inductive fpart : Type :=
| Lit (s : string)
| FStr (s : string)
| FDec (q : Q)
| FDate (d : date)
| FInt (z : Z)
| FFmt (spec : string) (q : Q).

Definition fstring : Type := list fpart.

Inductive detail : Type :=
| DText (f : fstring)
| DInt (z : Z)
| DNone.

Module Anomaly.
Record t : Type :=
  { code : string;
    message : fstring;
    severity : string;
    field_path : string;
    expected_value : option fstring;
    actual_value : option fstring }.
End Anomaly.

Module ValidationCheck.
Record t : Type :=
  { rule_name : string;
    passed : bool;
    message : fstring;
    details : list (string * detail) }.
End ValidationCheck.

Module VerificationResult.
Record t : Type :=
  { status : VerificationStatus;
    checks : list ValidationCheck.t;
    anomalies : list Anomaly.t;
    review_flags : list string }.


Definition has_blocking_anomalies (r : t) : bool :=
  existsb (fun a => String.eqb (Anomaly.severity a) "error") (anomalies r).
End VerificationResult.

End models.

(** ** domain/validation.py *)

Module validation.
Import py datetime models.
Local Open Scope Q_scope.

Definition DECIMAL_TOLERANCE : Q := 0.01.
Definition ANOMALY_MULTIPLIER : Q := 5.0.
Definition AMOUNT_VARIANCE_TOLERANCE : Q := 0.20.

Definition validate_quantity_match (pod : ProofOfDelivery.t) (invoice : Invoice.t)
    : ValidationCheck.t :=
  let pod_qty := ExtractedField.value (ProofOfDelivery.quantity_delivered pod) in
  let invoice_qty := Invoice.total_quantity invoice in
  match Invoice.line_items invoice with
  | [] =>
      {| ValidationCheck.rule_name := "quantity_match";
         ValidationCheck.passed := true;
         ValidationCheck.message := [Lit "Quantity match: OK"];
         ValidationCheck.details := [] |}
  | _ =>
      let diff := Qabs (pod_qty - invoice_qty) in
      let passed := Qleb diff DECIMAL_TOLERANCE in
      {| ValidationCheck.rule_name := "quantity_match";
         ValidationCheck.passed := passed;
         ValidationCheck.message :=
           if passed then [Lit "Quantity matches"]
           else [Lit "Quantity mismatch: delivered "; FDec pod_qty;
                 Lit " vs billed "; FDec invoice_qty];
         ValidationCheck.details :=
           [("pod_quantity", DText [FDec pod_qty]);
            ("invoice_quantity", DText [FDec invoice_qty]);
            ("difference", DText [FDec diff])] |}
  end.

(** The three messages of the amount rule and the one of the currency test. *)
Definition msg_currency_mismatch (ic pc : string) : fstring :=
  [Lit "Currency mismatch: Invoice "; FStr ic; Lit " vs PO "; FStr pc].

Definition msg_exceeds_po (invoice_total authorized_amount : Q) : fstring :=
  [Lit "Invoice $"; FDec invoice_total; Lit " exceeds authorized PO $";
   FDec authorized_amount].

Definition msg_amount_mismatch (invoice_total authorized_amount variance : Q) : fstring :=
  [Lit "Amount mismatch: Invoice $"; FDec invoice_total; Lit " vs PO $";
   FDec authorized_amount; Lit " ("; FFmt ".1f" (variance * 100); Lit "% variance)"].

Definition msg_amount_matches (invoice_total authorized_amount : Q) : fstring :=
  [Lit "Invoice $"; FDec invoice_total; Lit " matches authorized PO $";
   FDec authorized_amount].

(** [abs(invoice_total - authorized_amount) / authorized_amount
     if authorized_amount > 0 else Decimal("0")] *)
Definition amount_variance (invoice_total authorized_amount : Q) : Q :=
  if Qgtb authorized_amount 0
  then Qabs (invoice_total - authorized_amount) / authorized_amount
  else 0.

Definition validate_amount_authorization (invoice : Invoice.t) (po : PurchaseOrder.t)
    : ValidationCheck.t :=
  let invoice_total := ExtractedField.value (Invoice.total_amount invoice) in
  let authorized_amount := ExtractedField.value (PurchaseOrder.authorized_amount po) in
  let inv_cur := ExtractedField.value (Invoice.currency invoice) in
  let po_cur := ExtractedField.value (PurchaseOrder.currency po) in
  if negb (String.eqb inv_cur po_cur) then
    {| ValidationCheck.rule_name := "amount_authorization";
       ValidationCheck.passed := false;
       ValidationCheck.message := msg_currency_mismatch inv_cur po_cur;
       ValidationCheck.details :=
         [("invoice_currency", DText [FStr inv_cur]);
          ("po_currency", DText [FStr po_cur])] |}
  else
    let exceeds_po := Qgtb invoice_total (authorized_amount + DECIMAL_TOLERANCE) in
    let variance := amount_variance invoice_total authorized_amount in
    let excessive_variance := Qgtb variance AMOUNT_VARIANCE_TOLERANCE in
    if exceeds_po then
      {| ValidationCheck.rule_name := "amount_authorization";
         ValidationCheck.passed := false;
         ValidationCheck.message := msg_exceeds_po invoice_total authorized_amount;
         ValidationCheck.details :=
           [("invoice_total", DText [FDec invoice_total]);
            ("authorized_amount", DText [FDec authorized_amount]);
            ("variance_pct", DText [FFmt ".1f" (variance * 100); Lit "%"])] |}
    else if excessive_variance then
      {| ValidationCheck.rule_name := "amount_authorization";
         ValidationCheck.passed := false;
         ValidationCheck.message :=
           msg_amount_mismatch invoice_total authorized_amount variance;
         ValidationCheck.details :=
           [("invoice_total", DText [FDec invoice_total]);
            ("authorized_amount", DText [FDec authorized_amount]);
            ("variance_pct", DText [FFmt ".1f" (variance * 100); Lit "%"]);
            ("max_allowed_variance",
             DText [FFmt ".0f" (AMOUNT_VARIANCE_TOLERANCE * 100); Lit "%"]);
            ("note", DText [Lit "Invoice and PO amounts should match within tolerance"])] |}
    else
      {| ValidationCheck.rule_name := "amount_authorization";
         ValidationCheck.passed := true;
         ValidationCheck.message := msg_amount_matches invoice_total authorized_amount;
         ValidationCheck.details :=
           [("invoice_total", DText [FDec invoice_total]);
            ("authorized_amount", DText [FDec authorized_amount]);
            ("variance_pct", DText [FFmt ".1f" (variance * 100); Lit "%"])] |}.

(** ["; ".join(errors)] over messages kept as f-strings. *)
Fixpoint join_messages (errors : list fstring) : fstring :=
  match errors with
  | [] => []
  | [e] => e
  | e :: rest => (e ++ [Lit "; "] ++ join_messages rest)%list
  end.

Definition validate_date_sequence (po : PurchaseOrder.t) (pod : ProofOfDelivery.t)
    (invoice : Invoice.t) : ValidationCheck.t :=
  let po_date := ExtractedField.value (PurchaseOrder.po_date po) in
  let pod_date := ExtractedField.value (ProofOfDelivery.delivery_date pod) in
  let invoice_date := ExtractedField.value (Invoice.invoice_date invoice) in
  let errors1 :=
    if date_gtb po_date pod_date
    then [[Lit "PO date ("; FDate po_date; Lit ") is after delivery date (";
           FDate pod_date; Lit ")"]]
    else [] in
  let errors :=
    if date_gtb pod_date invoice_date
    then (errors1 ++ [[Lit "Delivery date ("; FDate pod_date;
                       Lit ") is after invoice date ("; FDate invoice_date; Lit ")"]])%list
    else errors1 in
  let passed := (length errors =? 0)%nat in
  {| ValidationCheck.rule_name := "date_sequence";
     ValidationCheck.passed := passed;
     ValidationCheck.message :=
       if passed then [Lit "Date sequence valid"] else join_messages errors;
     ValidationCheck.details :=
       [("po_date", DText [FDate po_date]);
        ("pod_date", DText [FDate pod_date]);
        ("invoice_date", DText [FDate invoice_date])] |}.

Definition validate_line_item_sum (invoice : Invoice.t) : ValidationCheck.t :=
  match Invoice.line_items invoice with
  | [] =>
      {| ValidationCheck.rule_name := "line_item_sum";
         ValidationCheck.passed := true;
         ValidationCheck.message := [Lit "No line items to validate"];
         ValidationCheck.details :=
           [("note", DText [Lit "Skipped - no line items present"])] |}
  | _ =>
      let calculated := Invoice.calculated_total invoice in
      let stated := ExtractedField.value (Invoice.total_amount invoice) in
      let diff := Qabs (calculated - stated) in
      let passed := Qleb diff DECIMAL_TOLERANCE in
      {| ValidationCheck.rule_name := "line_item_sum";
         ValidationCheck.passed := passed;
         ValidationCheck.message :=
           if passed
           then [Lit "Line items sum to "; FDec calculated; Lit ", matches total ";
                 FDec stated]
           else [Lit "Sum mismatch: line items = "; FDec calculated;
                 Lit ", stated total = "; FDec stated];
         ValidationCheck.details :=
           [("calculated_sum", DText [FDec calculated]);
            ("stated_total", DText [FDec stated]);
            ("difference", DText [FDec diff]);
            ("line_item_count", DInt (Z.of_nat (length (Invoice.line_items invoice))))] |}
  end.

(** The two local functions of [validate_party_names]. *)
Definition normalize (name : string) : string :=
  let name := strip (lower name) in
  let name :=
    fold_left (fun n suffix => replace n suffix EmptyString)
      [" pte ltd"; " pte. ltd."; " pte"; " ltd"; " inc"; " corp"; " llc"; "."] name in
  let name :=
    fold_left (fun n artifact => replace n artifact EmptyString)
      ["p.o."; "po-"; "stamp"; "company"] name in
  strip name.

Definition fuzzy_match (name1 name2 : string) : bool :=
  let n1 := normalize name1 in
  let n2 := normalize name2 in
  if is_empty n1 || is_empty n2 || String.eqb n1 "unknown" || String.eqb n2 "unknown"
  then true
  else if String.eqb n1 n2 then true
  else if contains n2 n1 || contains n1 n2 then true
  else
    let words1 := split_ws n1 in
    let words2 := split_ws n2 in
    let common := List.filter (fun w => existsb (String.eqb w) words2) words1 in
    if existsb (fun w => (3 <? String.length w)%nat) common then true else false.

Definition validate_party_names (bundle : DocumentBundle.t) : ValidationCheck.t :=
  let invoice := DocumentBundle.invoice bundle in
  let po := DocumentBundle.purchase_order bundle in
  let invoice_payee := ExtractedField.value (Invoice.payee_name invoice) in
  let po_vendor := ExtractedField.value (PurchaseOrder.vendor_name po) in
  let invoice_payer := ExtractedField.value (Invoice.payer_name invoice) in
  let po_buyer := ExtractedField.value (PurchaseOrder.buyer_name po) in
  let warnings1 :=
    if negb (fuzzy_match invoice_payee po_vendor)
    then [[Lit "Payee mismatch: Invoice '"; FStr invoice_payee; Lit "' vs PO vendor '";
           FStr po_vendor; Lit "'"]]
    else [] in
  let warnings :=
    if negb (fuzzy_match invoice_payer po_buyer)
    then (warnings1 ++ [[Lit "Payer mismatch: Invoice '"; FStr invoice_payer;
                         Lit "' vs PO buyer '"; FStr po_buyer; Lit "'"]])%list
    else warnings1 in
  let passed := (length warnings =? 0)%nat in
  {| ValidationCheck.rule_name := "party_names";
     ValidationCheck.passed := passed;
     ValidationCheck.message :=
       if passed then [Lit "Party names consistent"] else join_messages warnings;
     ValidationCheck.details :=
       [("invoice_payee", DText [FStr invoice_payee]);
        ("po_vendor", DText [FStr po_vendor]);
        ("invoice_payer", DText [FStr invoice_payer]);
        ("po_buyer", DText [FStr po_buyer]);
        ("note", if negb passed
                 then DText [Lit "Fuzzy matching enabled for OCR tolerance"]
                 else DNone)] |}.

Definition amount_spike (invoice : Invoice.t) (historical_average : option Q)
    : list Anomaly.t :=
  let total := ExtractedField.value (Invoice.total_amount invoice) in
  match historical_average with
  | Some avg =>
      if Qgtb avg 0 then
        let ratio := total / avg in
        if Qgtb ratio ANOMALY_MULTIPLIER then
          [{| Anomaly.code := "AMOUNT_SPIKE";
              Anomaly.message :=
                [Lit "Invoice "; FFmt ".0%" ratio; Lit " larger than historical average"];
              Anomaly.severity := "warning";
              Anomaly.field_path := "invoice.total_amount";
              Anomaly.expected_value := Some [FDec avg];
              Anomaly.actual_value := Some [FDec total] |}]
        else []
      else []
  | None => []
  end.

Definition long_term (invoice : Invoice.t) : list Anomaly.t :=
  let due := ExtractedField.value (Invoice.due_date invoice) in
  let issued := ExtractedField.value (Invoice.invoice_date invoice) in
  if date_gtb due issued then
    let days_until_due := days_between due issued in
    if (180 <? days_until_due)%Z then
      [{| Anomaly.code := "LONG_TERM";
          Anomaly.message :=
            [Lit "Unusually long payment term: "; FInt days_until_due; Lit " days"];
          Anomaly.severity := "warning";
          Anomaly.field_path := "invoice.due_date";
          Anomaly.expected_value := Some [Lit "< 180 days"];
          Anomaly.actual_value := Some [FInt days_until_due; Lit " days"] |}]
    else []
  else [].

Definition line_item_math (invoice : Invoice.t) : list Anomaly.t :=
  flat_map
    (fun '(i, item) =>
       if LineItem.has_math_error item then
         [{| Anomaly.code := "LINE_ITEM_MATH";
             Anomaly.message :=
               [Lit "Line item "; FInt (Z.of_nat i + 1); Lit ": qty * price != total"];
             Anomaly.severity := "warning";
             Anomaly.field_path := "invoice.line_items[" ++ str_nat i ++ "]";
             Anomaly.expected_value := Some [FDec (LineItem.calculated_total item)];
             Anomaly.actual_value :=
               Some [FDec (ExtractedField.value (LineItem.total item))] |}]
       else [])
    (enumerate (Invoice.line_items invoice)).

(** The three tests of [detect_anomalies], each appending to [anomalies] in
    the order of the source. *)
Definition detect_anomalies (invoice : Invoice.t) (historical_average : option Q)
    : list Anomaly.t :=
  (amount_spike invoice historical_average ++ long_term invoice
   ++ line_item_math invoice)%list.

Definition flag_if {T : Type} (f : ExtractedField.t T) (confidence_threshold : Q)
    (path : string) : list string :=
  if Qltb (ExtractedField.confidence f) confidence_threshold then [path] else [].

Definition collect_review_flags (bundle : DocumentBundle.t) (confidence_threshold : Q)
    : list string :=
  let invoice := DocumentBundle.invoice bundle in
  let po := DocumentBundle.purchase_order bundle in
  let pod := DocumentBundle.proof_of_delivery bundle in
  (flag_if (Invoice.total_amount invoice) confidence_threshold "invoice.total_amount"
   ++ flag_if (Invoice.invoice_number invoice) confidence_threshold "invoice.invoice_number"
   ++ flag_if (PurchaseOrder.authorized_amount po) confidence_threshold
        "purchase_order.authorized_amount"
   ++ flag_if (PurchaseOrder.po_number po) confidence_threshold "purchase_order.po_number"
   ++ flag_if (ProofOfDelivery.quantity_delivered pod) confidence_threshold
        "proof_of_delivery.quantity_delivered"
   ++ flag_if (ProofOfDelivery.delivery_date pod) confidence_threshold
        "proof_of_delivery.delivery_date")%list.

Definition run_full_verification (bundle : DocumentBundle.t)
    (historical_average : option Q) (confidence_threshold : Q)
    : VerificationResult.t :=
  let checks :=
    [validate_quantity_match (DocumentBundle.proof_of_delivery bundle)
       (DocumentBundle.invoice bundle);
     validate_amount_authorization (DocumentBundle.invoice bundle)
       (DocumentBundle.purchase_order bundle);
     validate_date_sequence (DocumentBundle.purchase_order bundle)
       (DocumentBundle.proof_of_delivery bundle) (DocumentBundle.invoice bundle);
     validate_line_item_sum (DocumentBundle.invoice bundle);
     validate_party_names bundle] in
  let anomalies := detect_anomalies (DocumentBundle.invoice bundle) historical_average in
  let review_flags := collect_review_flags bundle confidence_threshold in
  let all_passed := forallb ValidationCheck.passed checks in
  let has_blocking_anomalies :=
    existsb (fun a => String.eqb (Anomaly.severity a) "error") anomalies in
  let needs_review := (0 <? length review_flags)%nat in
  let status :=
    if negb all_passed || has_blocking_anomalies then FAILED
    else if needs_review then REQUIRES_REVIEW
    else PASSED in
  {| VerificationResult.status := status;
     VerificationResult.checks := checks;
     VerificationResult.anomalies := anomalies;
     VerificationResult.review_flags := review_flags |}.

End validation.

(** ** [hashlib.sha256]

    FIPS 180-4 on 32-bit words kept as integers in [0, 2^32). *)

Module hashlib.
Local Open Scope Z_scope.

Definition w32 (x : Z) : Z := x mod 4294967296.
Definition add32 (x y : Z) : Z := w32 (x + y).
Definition rotr (n x : Z) : Z := Z.lor (Z.shiftr x n) (w32 (Z.shiftl x (32 - n))).
Definition shr (n x : Z) : Z := Z.shiftr x n.
Definition not32 (x : Z) : Z := Z.lxor x 4294967295.

Definition Ch (x y z : Z) : Z := Z.lxor (Z.land x y) (Z.land (not32 x) z).
Definition Maj (x y z : Z) : Z :=
  Z.lxor (Z.lxor (Z.land x y) (Z.land x z)) (Z.land y z).
Definition bsig0 (x : Z) : Z := Z.lxor (Z.lxor (rotr 2 x) (rotr 13 x)) (rotr 22 x).
Definition bsig1 (x : Z) : Z := Z.lxor (Z.lxor (rotr 6 x) (rotr 11 x)) (rotr 25 x).
Definition ssig0 (x : Z) : Z := Z.lxor (Z.lxor (rotr 7 x) (rotr 18 x)) (shr 3 x).
Definition ssig1 (x : Z) : Z := Z.lxor (Z.lxor (rotr 17 x) (rotr 19 x)) (shr 10 x).

(** The constants are the first 32 bits of the fractional parts of the cube
    roots of the first 64 primes, and the initial hash value those of the
    square roots of the first 8 primes (FIPS 180-4, 4.2.2 and 5.3.3). *)
Definition primes : list Z :=
  [2; 3; 5; 7; 11; 13; 17; 19; 23; 29; 31; 37; 41; 43; 47; 53; 59; 61; 67; 71;
   73; 79; 83; 89; 97; 101; 103; 107; 109; 113; 127; 131; 137; 139; 149; 151;
   157; 163; 167; 173; 179; 181; 191; 193; 197; 199; 211; 223; 227; 229; 233;
   239; 241; 251; 257; 263; 269; 271; 277; 281; 283; 293; 307; 311].

(** The integer cube root, by bisection between [lo] and [hi]. *)
Fixpoint cube_root_between (fuel : nat) (lo hi n : Z) : Z :=
  match fuel with
  | O => lo
  | S f =>
      let mid := (lo + hi) / 2 in
      if mid * mid * mid <=? n
      then cube_root_between f mid hi n
      else cube_root_between f lo mid n
  end.

Definition frac_cube_root (p : Z) : Z :=
  w32 (cube_root_between 40 0 (2 ^ 36) (p * 2 ^ 96)).

Definition frac_square_root (p : Z) : Z := w32 (Z.sqrt (p * 2 ^ 64)).

Definition K : list Z := Eval vm_compute in map frac_cube_root primes.

Definition H0 : list Z := Eval vm_compute in map frac_square_root (firstn 8 primes).

Definition bytes_of (s : string) : list Z :=
  map (fun a => Z.of_N (N_of_ascii a)) (list_ascii_of_string s).

(** The message, the byte 0x80, zeros, and the bit length on eight bytes. *)
Definition be_bytes (n : nat) (x : Z) : list Z :=
  map (fun i => (Z.shiftr x (8 * Z.of_nat i)) mod 256) (rev (seq 0 n)).

Definition pad (msg : list Z) : list Z :=
  let len := Z.of_nat (length msg) in
  let zeros := Z.to_nat ((55 - len) mod 64) in
  (msg ++ [128] ++ repeat 0 zeros ++ be_bytes 8 (8 * len))%list.

Fixpoint words_of (fuel : nat) (bs : list Z) : list Z :=
  match fuel, bs with
  | S f, b0 :: b1 :: b2 :: b3 :: rest =>
      (b0 * 16777216 + b1 * 65536 + b2 * 256 + b3) :: words_of f rest
  | _, _ => []
  end.

Fixpoint chunks (fuel : nat) (ws : list Z) : list (list Z) :=
  match fuel, ws with
  | _, [] => []
  | O, _ => []
  | S f, _ => firstn 16 ws :: chunks f (skipn 16 ws)
  end.

(** The message schedule, most recent word first. *)
Fixpoint extend (n : nat) (rw : list Z) : list Z :=
  match n with
  | O => rw
  | S k =>
      let w := add32 (add32 (ssig1 (nth 1 rw 0)) (nth 6 rw 0))
                     (add32 (ssig0 (nth 14 rw 0)) (nth 15 rw 0)) in
      extend k (w :: rw)
  end.

Definition schedule (block : list Z) : list Z := rev (extend 48 (rev block)).

Definition round (st : list Z) (kw : Z * Z) : list Z :=
  match st with
  | [a; b; c; d; e; f; g; h] =>
      let t1 := add32 (add32 (add32 h (bsig1 e)) (add32 (Ch e f g) (fst kw))) (snd kw) in
      let t2 := add32 (bsig0 a) (Maj a b c) in
      [add32 t1 t2; a; b; c; add32 d t1; e; f; g]
  | _ => st
  end.

Definition compress (h : list Z) (block : list Z) : list Z :=
  let st := fold_left round (combine K (schedule block)) h in
  map (fun p => add32 (fst p) (snd p)) (combine h st).

Definition sha256_words (msg : list Z) : list Z :=
  let ws := words_of (length (pad msg)) (pad msg) in
  fold_left compress (chunks (length ws) ws) H0.

Definition hex_digit (d : Z) : ascii :=
  if d <? 10 then ascii_of_nat (48 + Z.to_nat d) else ascii_of_nat (87 + Z.to_nat d).

Definition hex_word (w : Z) : string :=
  string_of_list_ascii
    (map (fun i => hex_digit ((Z.shiftr w (4 * Z.of_nat i)) mod 16)) (rev (seq 0 8))).

Definition is_lower_hex (a : ascii) : bool :=
  py.is_digit a || py.in_range 97 102 a.

(** [hashlib.sha256(data).hexdigest()] *)
Definition sha256_hexdigest (data : string) : string :=
  String.concat EmptyString (map hex_word (sha256_words (bytes_of data))).

End hashlib.

(** ** domain/hashing.py *)

Module hashing.
Import py.

Definition compute_document_hash (content : string) : result string :=
  match content with
  | EmptyString => Raise (ValueError "Cannot hash empty content")
  | _ => Ok ("sha256:" ++ hashlib.sha256_hexdigest content)
  end.

(** [compute_file_hash] reads the file, when it exists, in chunks and feeds
    them to the hash object; [update] appends to the data of the object and
    [hexdigest] digests the data fed so far. The loop ends at the first
    empty chunk. *)
Inductive os_error : Type :=
| FileNotFoundError (msg : string).

Definition chunk_size : nat := Z.to_nat 65536.

Fixpoint feed_chunks (fuel : nat) (hasher f : string) : string :=
  match fuel with
  | O => hasher
  | S k =>
      match take chunk_size f with
      | EmptyString => hasher
      | chunk => feed_chunks k (hasher ++ chunk) (drop chunk_size f)
      end
  end.

Definition compute_file_hash (file_path : string) (file : option string)
    : os_error + string :=
  match file with
  | None => inl (FileNotFoundError ("File not found: " ++ file_path))
  | Some content =>
      let hasher := feed_chunks (S (String.length content)) EmptyString content in
      inr ("sha256:" ++ hashlib.sha256_hexdigest hasher)
  end.

Definition verify_hash (content expected_hash : string) : result bool :=
  if negb (startswith expected_hash "sha256:")
  then Raise (ValueError "Invalid hash format, expected 'sha256:' prefix")
  else bind (compute_document_hash content)
            (fun actual_hash => Ok (String.eqb actual_hash expected_hash)).

(** The validation loop of [compute_bundle_hash]: the first hash without
    the prefix raises. *)
Fixpoint validate_format (hashes : list string) : result unit :=
  match hashes with
  | [] => Ok tt
  | hash_val :: rest =>
      if negb (startswith hash_val "sha256:")
      then Raise (ValueError ("Invalid hash format: " ++ hash_val))
      else validate_format rest
  end.

Definition compute_bundle_hash (invoice_hash po_hash pod_hash : string) : result string :=
  bind (validate_format [invoice_hash; po_hash; pod_hash]) (fun _ =>
  let sorted_hashes := sorted str_le [invoice_hash; po_hash; pod_hash] in
  let combined := join "|" sorted_hashes in
  let digest := hashlib.sha256_hexdigest combined in
  Ok ("sha256:" ++ digest)).

End hashing.

(** ** infrastructure/storage.py: retrieval with the integrity check

    [retrieved] is what [backend.retrieve(path)] gave: the content of the
    file, or the exception it raised. *)

Module storage.
Import py.

Definition get_document (retrieved : result string) (expected_hash : option string)
    : result string :=
  bind retrieved (fun content =>
  match expected_hash with
  | None => Ok content
  | Some h =>
      if is_empty h then Ok content
      else
        bind (hashing.verify_hash content h) (fun matches =>
        if negb matches
        then Raise (ValueError "Document integrity check failed")
        else Ok content)
  end).

End storage.

(** ** [re]: backtracking regular expressions

    The patterns of the program use literals, classes, concatenation,
    ordered alternation, greedy repetition and capture groups.  [run] is the
    backtracking matcher in continuation-passing style: an alternative or
    one more iteration is tried first, and given up when the rest of the
    pattern (the continuation) fails, as [re] does. *)

Module re.
Import py.

Inductive regex : Type :=
| Eps
| Chr (p : ascii -> bool)
| Cat (r1 r2 : regex)
| Alt (r1 r2 : regex)
| Star (r : regex)
| Grp (n : nat) (r : regex).

(** The groups matched so far, the most recent first. *)
Definition captures : Type := list (nat * string).

Fixpoint run {R : Type} (r : regex) (s : string) (c : captures)
    (k : string -> captures -> option R) {struct r} : option R :=
  match r with
  | Eps => k s c
  | Chr p =>
      match s with
      | String a s' => if p a then k s' c else None
      | EmptyString => None
      end
  | Cat r1 r2 => run r1 s c (fun s' c' => run r2 s' c' k)
  | Alt r1 r2 =>
      match run r1 s c k with
      | Some x => Some x
      | None => run r2 s c k
      end
  | Star r1 =>
      (fix loop (n : nat) (s : string) (c : captures) {struct n} : option R :=
         match n with
         | O => k s c
         | S n' =>
             match run r1 s c
                     (fun s' c' =>
                        if (String.length s' <? String.length s)%nat
                        then loop n' s' c' else None) with
             | Some x => Some x
             | None => k s c
             end
         end) (String.length s) s c
  | Grp g r1 =>
      run r1 s c
        (fun s' c' => k s' ((g, take (String.length s - String.length s') s) :: c'))
  end.

(** Derived forms. *)
Definition chr (a : ascii) : regex := Chr (Ascii.eqb a).
Definition chr_i (a : ascii) : regex := Chr (eqb_nocase a).
Definition Plus (r : regex) : regex := Cat r (Star r).
Definition Opt (r : regex) : regex := Alt r Eps.

Fixpoint lit (s : string) : regex :=
  match s with
  | EmptyString => Eps
  | String a s' => Cat (chr a) (lit s')
  end.

(** A literal under [re.IGNORECASE]. *)
Fixpoint lit_i (s : string) : regex :=
  match s with
  | EmptyString => Eps
  | String a s' => Cat (chr_i a) (lit_i s')
  end.

Fixpoint times (n : nat) (r : regex) : regex :=
  match n with
  | O => Eps
  | S k => Cat r (times k r)
  end.

Fixpoint upto (n : nat) (r : regex) : regex :=
  match n with
  | O => Eps
  | S k => Opt (Cat r (upto k r))
  end.

(** [r{lo,hi}] *)
Definition rep (lo hi : nat) (r : regex) : regex := Cat (times lo r) (upto (hi - lo) r).

Fixpoint alts (rs : list regex) : regex :=
  match rs with
  | [] => Eps
  | [r] => r
  | r :: rest => Alt r (alts rest)
  end.

Definition digit : regex := Chr is_digit.
Definition space : regex := Chr is_space.

(** A match object: [start()], [end()], [group(0)] and the groups. *)
Record Match : Type :=
  { start : nat; end_ : nat; text : string; groups : captures }.

Fixpoint lookup (g : nat) (c : captures) : option string :=
  match c with
  | [] => None
  | (g', v) :: rest => if (g =? g')%nat then Some v else lookup g rest
  end.

Definition group (m : Match) (g : nat) : option string :=
  match g with
  | O => Some (text m)
  | _ => lookup g (groups m)
  end.

(** A match of [r] that starts at the head of [s], itself at offset [pos]. *)
Definition match_here (r : regex) (s : string) (pos : nat) : option Match :=
  run r s []
    (fun s' c =>
       let n := (String.length s - String.length s')%nat in
       Some {| start := pos; end_ := (pos + n)%nat; text := take n s; groups := c |}).

(** [re.match(r, s)] *)
Definition match_ (r : regex) (s : string) : option Match := match_here r s 0.

Fixpoint search_from (r : regex) (s : string) (pos : nat) : option Match :=
  match match_here r s pos with
  | Some m => Some m
  | None =>
      match s with
      | EmptyString => None
      | String _ s' => search_from r s' (S pos)
      end
  end.

(** [re.search(r, s)] *)
Definition search (r : regex) (s : string) : option Match := search_from r s 0.

(** [re.finditer(r, s)]: the matches left to right, without overlap;
    [skip] counts the characters of the last match still to be passed. *)
Fixpoint finditer_from (r : regex) (skip : nat) (s : string) (pos : nat) : list Match :=
  match skip with
  | S k =>
      match s with
      | EmptyString => []
      | String _ s' => finditer_from r k s' (S pos)
      end
  | O =>
      match match_here r s pos with
      | Some m =>
          m :: match s with
               | EmptyString => []
               | String _ s' => finditer_from r (end_ m - pos - 1) s' (S pos)
               end
      | None =>
          match s with
          | EmptyString => []
          | String _ s' => finditer_from r O s' (S pos)
          end
      end
  end.

Definition finditer (r : regex) (s : string) : list Match := finditer_from r O s 0.

(** [re.sub(r, repl, s)] for a function [repl] of the match. *)
Fixpoint sub_from (r : regex) (repl : Match -> string) (skip : nat) (s : string)
    (pos : nat) : string :=
  match skip with
  | S k =>
      match s with
      | EmptyString => EmptyString
      | String _ s' => sub_from r repl k s' (S pos)
      end
  | O =>
      match match_here r s pos with
      | Some m =>
          repl m ++
          match s with
          | EmptyString => EmptyString
          | String a s' =>
              let rest := sub_from r repl (end_ m - pos - 1) s' (S pos) in
              if (end_ m =? pos)%nat then String a rest else rest
          end
      | None =>
          match s with
          | EmptyString => EmptyString
          | String a s' => String a (sub_from r repl O s' (S pos))
          end
      end
  end.

Definition sub (r : regex) (repl : Match -> string) (s : string) : string :=
  sub_from r repl O s 0.

End re.

(** ** The language of a pattern

    [Matches r s s' n]: [r] matches a prefix of [s], [s'] is what follows
    the match, and [n] holds the groups of the match, the most recent
    first.  An iteration of a star consumes at least one character. *)

Module re_language.
Import py re.
Local Open Scope list_scope.

Inductive Matches : regex -> string -> string -> captures -> Prop :=
| MEps (s : string) : Matches Eps s s []
| MChr (p : ascii -> bool) (a : ascii) (s : string) :
    p a = true -> Matches (Chr p) (String a s) s []
| MCat (r1 r2 : regex) (s s1 s2 : string) (n1 n2 : captures) :
    Matches r1 s s1 n1 -> Matches r2 s1 s2 n2 -> Matches (Cat r1 r2) s s2 (n2 ++ n1)
| MAltL (r1 r2 : regex) (s s' : string) (n : captures) :
    Matches r1 s s' n -> Matches (Alt r1 r2) s s' n
| MAltR (r1 r2 : regex) (s s' : string) (n : captures) :
    Matches r2 s s' n -> Matches (Alt r1 r2) s s' n
| MStar0 (r : regex) (s : string) : Matches (Star r) s s []
| MStarS (r : regex) (s s1 s2 : string) (n1 n2 : captures) :
    Matches r s s1 n1 ->
    (String.length s1 < String.length s)%nat ->
    Matches (Star r) s1 s2 n2 ->
    Matches (Star r) s s2 (n2 ++ n1)
| MGrp (g : nat) (r : regex) (s s' : string) (n : captures) :
    Matches r s s' n ->
    Matches (Grp g r) s s' ((g, take (String.length s - String.length s') s) :: n).

(** Every character class of the pattern lies within [P]. *)
Fixpoint chars_in (P : ascii -> bool) (r : regex) : Prop :=
  match r with
  | Eps => True
  | Chr p => forall a, p a = true -> P a = true
  | Cat r1 r2 | Alt r1 r2 => chars_in P r1 /\ chars_in P r2
  | Star r1 | Grp _ r1 => chars_in P r1
  end.



End re_language.

(** ** [decimal.Decimal]

    A decimal is finite (an exact rational here), an infinity or a NaN.
    [of_string] follows the grammar of the constructor: blanks stripped,
    underscores dropped, an optional sign, then digits with an optional
    fraction and exponent, or [Inf], [Infinity], [NaN], [sNaN]. *)

Module decimal.
Import py.
Local Open Scope Q_scope.

Inductive Decimal : Type :=
| Finite (q : Q)
| Infinity (negative : bool)
| NaN.

Fixpoint digits_value (s : string) (acc : Z) : Z :=
  match s with
  | EmptyString => acc
  | String a s' => digits_value s' (10 * acc + (Z.of_nat (code a) - 48))%Z
  end.

(** [int(s)] for a string of digits. *)
Definition int_of_digits (s : string) : Z := digits_value s 0%Z.

(** The longest prefix of digits, and what follows it. *)
Fixpoint span_digits (s : string) : string * string :=
  match s with
  | EmptyString => (EmptyString, EmptyString)
  | String a s' =>
      if is_digit a
      then let (d, r) := span_digits s' in (String a d, r)
      else (EmptyString, s)
  end.

Definition split_sign (s : string) : bool * string :=
  match s with
  | String "-" r => (true, r)
  | String "+" r => (false, r)
  | _ => (false, s)
  end.

(** The exponent part: nothing, or [E], an optional sign and digits. *)
Definition parse_exponent (s : string) : option Z :=
  match s with
  | EmptyString => Some 0%Z
  | String e r =>
      if eqb_nocase e "E" then
        let (neg, ds) := split_sign r in
        match ds with
        | EmptyString => None
        | _ =>
            if forall_chars is_digit ds
            then Some (if neg then (- int_of_digits ds)%Z else int_of_digits ds)
            else None
        end
      else None
  end.

Definition parse_number (body : string) : option Q :=
  let (int_part, rest1) := span_digits body in
  let '(has_digits, frac, rest2) :=
    match rest1 with
    | String "." r =>
        let (fr, r2) := span_digits r in
        (negb (is_empty int_part) || negb (is_empty fr), fr, r2)
    | _ => (negb (is_empty int_part), EmptyString, rest1)
    end in
  if has_digits then
    match parse_exponent rest2 with
    | Some e =>
        Some (inject_Z (int_of_digits (int_part ++ frac))
              * Qpower 10 (e - Z.of_nat (String.length frac)))
    | None => None
    end
  else None.

Definition is_nan_text (body : string) : bool :=
  (startswith body "nan" && forall_chars is_digit (drop 3 body))
  || (startswith body "snan" && forall_chars is_digit (drop 4 body)).

(** [Decimal(s)] *)
Definition of_string (s : string) : result Decimal :=
  let s := replace (strip s) "_" EmptyString in
  let (neg, body) := split_sign s in
  let low := lower body in
  if String.eqb low "inf" || String.eqb low "infinity" then Ok (Infinity neg)
  else if is_nan_text low then Ok NaN
  else
    match parse_number body with
    | Some q => Ok (Finite (if neg then - q else q))
    | None => Raise InvalidOperation
    end.

(** [a < b]: an ordering comparison with a NaN signals [InvalidOperation]. *)
Definition lt (a b : Decimal) : result bool :=
  match a, b with
  | NaN, _ | _, NaN => Raise InvalidOperation
  | Finite x, Finite y => Ok (Qltb x y)
  | Infinity n, Finite _ => Ok n
  | Finite _, Infinity n => Ok (negb n)
  | Infinity n1, Infinity n2 => Ok (n1 && negb n2)
  end.

Definition gt (a b : Decimal) : result bool := lt b a.

(** [abs(a)] *)
Definition abs (a : Decimal) : Decimal :=
  match a with
  | Finite q => Finite (Qabs q)
  | Infinity _ => Infinity false
  | NaN => NaN
  end.

End decimal.

(** ** [datetime.strptime]

    The format is turned into a pattern, directive by directive, and the
    pattern is matched from the start of the text under [re.IGNORECASE];
    text left over after the match, or a day that is not on the calendar,
    is a [ValueError]. *)

Module _strptime.
Import py datetime re.

Inductive directive : Type := dY | dm | dd | db | dB.

Inductive item : Type :=
| Dir (d : directive)
| Text (a : ascii).

Definition format : Type := list item.

(** [calendar.month_name] and [calendar.month_abbr], in lower case; the
    entry of index 0 is the empty string. *)
Definition f_month : list string :=
  [EmptyString; "january"; "february"; "march"; "april"; "may"; "june"; "july";
   "august"; "september"; "october"; "november"; "december"].

Definition a_month : list string :=
  [EmptyString; "jan"; "feb"; "mar"; "apr"; "may"; "jun"; "jul"; "aug"; "sep";
   "oct"; "nov"; "dec"].

(** Group numbers of the named groups Y, m, d, b, B. *)
Definition gY : nat := 1.
Definition gm : nat := 2.
Definition gd : nat := 3.
Definition gb : nat := 4.
Definition gB : nat := 5.

Definition code_of (s : string) : nat :=
  match s with
  | String a _ => code a
  | EmptyString => 0
  end.

Definition one_of (lo hi : string) : regex :=
  Chr (fun a => in_range (code_of lo) (code_of hi) a).

(** The alternation of the names, longest first (a stable sort on the
    length, in decreasing order). *)
Definition seqToRE (names : list string) : regex :=
  alts (map lit_i
          (sorted (fun x y => (String.length y <=? String.length x)%nat) names)).

Definition directive_regex (d : directive) : regex :=
  match d with
  | dY => Grp gY (times 4 digit)
  | dm => Grp gm (alts [Cat (chr "1") (one_of "0" "2");
                        Cat (chr "0") (one_of "1" "9");
                        one_of "1" "9"])
  | dd => Grp gd (alts [Cat (chr "3") (one_of "0" "1");
                        Cat (one_of "1" "2") digit;
                        Cat (chr "0") (one_of "1" "9");
                        one_of "1" "9";
                        Cat (chr " ") (one_of "1" "9")])
  | db => Grp gb (seqToRE a_month)
  | dB => Grp gB (seqToRE f_month)
  end.

Fixpoint pattern (fmt : format) : regex :=
  match fmt with
  | [] => Eps
  | Dir d :: rest => Cat (directive_regex d) (pattern rest)
  | Text a :: rest =>
      Cat (if is_space a then Plus space else chr_i a) (pattern rest)
  end.

(** [l.index(x)] for an [x] of the list. *)
Fixpoint index_of (x : string) (l : list string) : Z :=
  match l with
  | [] => 0%Z
  | y :: rest => if String.eqb x y then 0%Z else (1 + index_of x rest)%Z
  end.

Definition found_int (m : Match) (g : nat) (default : Z) : Z :=
  match group m g with
  | Some ds => decimal.int_of_digits (lstrip ds)
  | None => default
  end.

Definition found_month (m : Match) : Z :=
  match group m gB with
  | Some name => index_of (lower name) f_month
  | None =>
      match group m gb with
      | Some name => index_of (lower name) a_month
      | None => found_int m gm 1%Z
      end
  end.

(** [datetime.strptime(data_string, fmt).date()] *)
Definition strptime (data_string : string) (fmt : format) : result date :=
  match match_ (pattern fmt) data_string with
  | None => Raise (ValueError "time data does not match format")
  | Some found =>
      if negb (end_ found =? String.length data_string)%nat
      then Raise (ValueError "unconverted data remains")
      else new_date (found_int found gY 1900%Z) (found_month found)
                    (found_int found gd 1%Z)
  end.

End _strptime.

(** ** services/ocr/engine.py: the positioned text model *)

Module engine.
Import py.
Local Open Scope Q_scope.

Module TextBlock.
Record t : Type :=
  { text : string;
    confidence : Q;
    x_min : Q;
    y_min : Q;
    x_max : Q;
    y_max : Q;
    page : Z }.

Definition center_x (b : t) : Q := (x_min b + x_max b) / 2.
Definition center_y (b : t) : Q := (y_min b + y_max b) / 2.
Definition width (b : t) : Q := x_max b - x_min b.
Definition height (b : t) : Q := y_max b - y_min b.
End TextBlock.

Module OCRPage.
Record t : Type :=
  { page_number : Z; width : Z; height : Z; blocks : list TextBlock.t }.
End OCRPage.

Module OCRResult.
Record t : Type := { pages : list OCRPage.t; processing_time_ms : Q }.

Definition all_blocks (r : t) : list TextBlock.t :=
  flat_map OCRPage.blocks (pages r).

Definition newline : string := String (ascii_of_nat 10) EmptyString.

Definition full_text (r : t) : string :=
  join newline (map TextBlock.text (all_blocks r)).



End OCRResult.




End engine.

(** ** services/ocr/normalize.py *)

Module normalize.
Import py datetime models decimal.
Local Open Scope Q_scope.

Definition OCR_CHAR_FIXES : list (string * string) :=
  [("S", "5"); ("s", "5"); ("O", "0"); ("o", "0"); ("l", "1");
   ("I", "1"); ("B", "8"); ("Z", "2"); ("g", "9"); ("G", "6")].

Definition CURRENCY_SYMBOLS : list string :=
  ["$"; "€"; "£"; "¥"; "₹"; "CHF"; "USD"; "EUR"; "GBP"].

Import _strptime.

Definition DATE_FORMATS : list format :=
  [ [Dir dY; Text "-"; Dir dm; Text "-"; Dir dd];
    [Dir dd; Text "/"; Dir dm; Text "/"; Dir dY];
    [Dir dm; Text "/"; Dir dd; Text "/"; Dir dY];
    [Dir dd; Text "-"; Dir dm; Text "-"; Dir dY];
    [Dir dm; Text "-"; Dir dd; Text "-"; Dir dY];
    [Dir dd; Text " "; Dir db; Text " "; Dir dY];
    [Dir dd; Text " "; Dir dB; Text " "; Dir dY];
    [Dir db; Text " "; Dir dd; Text ","; Text " "; Dir dY];
    [Dir dB; Text " "; Dir dd; Text ","; Text " "; Dir dY] ].

(** [[\dSsOolIBZgG,.\-]+] *)
Definition numeric_char (a : ascii) : bool :=
  is_digit a || contains "SsOolIBZgG,.-" (String a EmptyString).

Definition numeric_section : re.regex := re.Plus (re.Chr numeric_char).

Definition fix_numeric_section (m : re.Match) : string :=
  fold_left (fun section wr => replace section (fst wr) (snd wr))
    OCR_CHAR_FIXES (re.text m).

Definition _fix_ocr_errors (text : string) : string :=
  re.sub numeric_section fix_numeric_section text.

(** What the replacements of [OCR_CHAR_FIXES], taken in their order, make of
    one character. *)
Definition fix_char (a : ascii) : ascii :=
  fold_left
    (fun c wr =>
       match fst wr, snd wr with
       | String wrong EmptyString, String fixed EmptyString =>
           if Ascii.eqb c wrong then fixed else c
       | _, _ => c
       end)
    OCR_CHAR_FIXES a.

(** The European or US reading of the separators. *)
Definition disambiguate_separators (cleaned : string) : string :=
  if contains cleaned "," && contains cleaned "." then
    if (rindex cleaned "." <? rindex cleaned ",")%Z
    then replace (replace cleaned "." EmptyString) "," "."
    else replace cleaned "," EmptyString
  else if contains cleaned "," then
    let parts := split_chr cleaned "," in
    if (length parts =? 2)%nat && (String.length (nth 1 parts EmptyString) =? 2)%nat
    then replace cleaned "," "."
    else replace cleaned "," EmptyString
  else cleaned.

(** [re.sub(r"[^\d.]", "", cleaned)] *)
Definition digit_or_point (a : ascii) : bool := is_digit a || Ascii.eqb a ".".

Definition not_numeric : re.regex := re.Chr (fun a => negb (digit_or_point a)).

Definition clean_amount (text : string) : string :=
  let cleaned := strip text in
  let cleaned :=
    fold_left (fun c symbol => replace c symbol EmptyString) CURRENCY_SYMBOLS cleaned in
  let cleaned := strip cleaned in
  let cleaned := _fix_ocr_errors cleaned in
  let cleaned := disambiguate_separators cleaned in
  re.sub not_numeric (fun _ => EmptyString) cleaned.

(** What [except (InvalidOperation, ValueError)] catches. *)
Definition caught (e : exn) : bool :=
  match e with
  | InvalidOperation | ValueError _ => true
  | IndexError => false
  end.

(** The [try] block of [normalize_amount] with its handler: the value kept
    and the soft errors appended to the local list [errors]. *)
Definition parse_amount (cleaned : string) : result (Decimal * list string) :=
  try_except
    (bind (of_string cleaned) (fun value =>
     bind (lt value (Finite 0)) (fun negative =>
     let errors := if negative then ["Negative amount detected"] else [] in
     bind (gt value (Finite 1000000000)) (fun large =>
     let errors :=
       if large then (errors ++ ["Unusually large amount"])%list else errors in
     Ok (value, errors)))))
    (fun e => if caught e then Ok (Finite 0, ["Parse error"]) else Raise e).

Definition normalize_amount (text : string) (confidence : Q)
    (bounding_box : option BoundingBox.t) : result (ExtractedField.t Decimal) :=
  let raw_text := text in
  bind (parse_amount (clean_amount text)) (fun '(value, _) =>
  ExtractedField.new value confidence bounding_box (Some raw_text)).

(** The list [errors] as it stands when [normalize_amount] returns. *)
Definition normalize_amount_errors (text : string) : list string :=
  match parse_amount (clean_amount text) with
  | Ok (_, errors) => errors
  | Raise _ => []
  end.

(** [(\d{1,2})[/\-.](\d{1,2})[/\-.](\d{2,4})] *)
Definition date_separator : re.regex :=
  re.Chr (fun a => contains "/-." (String a EmptyString)).

Definition loose_date : re.regex :=
  re.Cat (re.Grp 1 (re.rep 1 2 re.digit))
    (re.Cat date_separator
       (re.Cat (re.Grp 2 (re.rep 1 2 re.digit))
          (re.Cat date_separator (re.Grp 3 (re.rep 2 4 re.digit))))).

Definition group_int (m : re.Match) (g : nat) : Z :=
  match re.group m g with
  | Some ds => int_of_digits ds
  | None => 0%Z
  end.

(** The date of the fallback: day then month, else month then day. *)
Definition loose_date_value (date_match : re.Match) : result date :=
  let d := group_int date_match 1 in
  let m := group_int date_match 2 in
  let y := group_int date_match 3 in
  let year := if (y <? 100)%Z then (y + 2000)%Z else y in
  try_except (new_date year m d)
    (fun e => match e with
              | ValueError _ => new_date year d m
              | _ => Raise e
              end).

(** The loop over [DATE_FORMATS]: the first format that parses and whose
    field is accepted returns; a [ValueError] moves on to the next. *)
Fixpoint try_formats (formats : list format) (cleaned : string) (confidence : Q)
    (bounding_box : option BoundingBox.t) (raw_text : string)
    : option (result (ExtractedField.t date)) :=
  match formats with
  | [] => None
  | fmt :: rest =>
      match bind (strptime cleaned fmt) (fun parsed =>
              ExtractedField.new parsed confidence bounding_box (Some raw_text)) with
      | Ok f => Some (Ok f)
      | Raise (ValueError _) => try_formats rest cleaned confidence bounding_box raw_text
      | Raise e => Some (Raise e)
      end
  end.

Definition normalize_date (today : date) (text : string) (confidence : Q)
    (bounding_box : option BoundingBox.t) : result (ExtractedField.t date) :=
  let raw_text := text in
  let cleaned := _fix_ocr_errors (strip text) in
  match try_formats DATE_FORMATS cleaned confidence bounding_box raw_text with
  | Some r => r
  | None =>
      let sentinel := ExtractedField.new today 0.0 bounding_box (Some raw_text) in
      match re.search loose_date cleaned with
      | Some date_match =>
          match bind (loose_date_value date_match) (fun parsed_date =>
                  ExtractedField.new parsed_date (confidence * 0.8) bounding_box
                    (Some raw_text)) with
          | Ok f => Ok f
          | Raise (ValueError _) => sentinel
          | Raise e => Raise e
          end
      | None => sentinel
      end
  end.





(** [re.sub(r"[\x00-\x1f\x7f-\x9f]", "", text)], then the blanks normalised. *)
Definition control_char (a : ascii) : bool := in_range 0 31 a || (code a =? 127)%nat.

Definition normalize_string (text : string) (confidence : Q)
    (bounding_box : option BoundingBox.t) : result (ExtractedField.t string) :=
  let raw_text := text in
  let cleaned := re.sub (re.Chr control_char) (fun _ => EmptyString) text in
  let cleaned := join " " (split_ws cleaned) in
  ExtractedField.new cleaned confidence bounding_box (Some raw_text).





End normalize.

(** ** services/ocr/extractor.py: amount extraction *)

Module extractor.
Import py models decimal engine re.
Local Open Scope Q_scope.

(** [[\d,]+\.?\d{0,2}], the captured part of the first six patterns. *)
Definition number : regex :=
  Cat (Plus (Chr (fun a => is_digit a || Ascii.eqb a ",")))
    (Cat (Opt (chr ".")) (rep 0 2 digit)).

(** [([\d]{1,3}(?:,\d{3})*\.?\d{0,2})], the last pattern: a number on its own. *)
Definition plain_number : regex :=
  Grp 1 (Cat (rep 1 3 digit)
           (Cat (Star (Cat (chr ",") (times 3 digit)))
              (Cat (Opt (chr ".")) (rep 0 2 digit)))).

(** The patterns are compiled with [re.IGNORECASE]. *)
Definition AMOUNT_PATTERNS : list regex :=
  [ (* S\$\s*([\d,]+\.?\d{0,2}) *)
    Cat (chr_i "S") (Cat (chr "$") (Cat (Star space) (Grp 1 number)));
    (* SGD\s*([\d,]+\.?\d{0,2}) *)
    Cat (lit_i "SGD") (Cat (Star space) (Grp 1 number));
    (* SS([\d,]+\.?\d{0,2}) *)
    Cat (lit_i "SS") (Grp 1 number);
    (* [\$]\s*([\d,]+\.?\d{0,2}) *)
    Cat (chr "$") (Cat (Star space) (Grp 1 number));
    (* ([\d,]+\.?\d{0,2})\s*(?:USD|dollars?|SGD) *)
    Cat (Grp 1 number)
      (Cat (Star space)
         (alts [lit_i "USD"; Cat (lit_i "dollar") (Opt (chr_i "s")); lit_i "SGD"]));
    (* (?:Total|Amount|Due|Subtotal|Balance)[:\s]*[S\$]*\s*([\d,]+\.?\d{0,2}) *)
    Cat (alts [lit_i "Total"; lit_i "Amount"; lit_i "Due"; lit_i "Subtotal";
               lit_i "Balance"])
      (Cat (Star (Chr (fun a => Ascii.eqb a ":" || is_space a)))
         (Cat (Star (Chr (fun a => eqb_nocase a "S" || Ascii.eqb a "$")))
            (Cat (Star space) (Grp 1 number))));
    (* ([\d]{1,3}(?:,\d{3})*\.?\d{0,2}) *)
    plain_number ].

(** A candidate: (value, confidence, raw). *)
Definition candidate : Type := (Decimal * Q * string)%type.

Definition cand_value (c : candidate) : Decimal := fst (fst c).
Definition cand_confidence (c : candidate) : Q := snd (fst c).
Definition cand_raw (c : candidate) : string := snd c.

(** [raw_value.replace(',', '').replace('$', '').strip()] *)
Definition clean (raw_value : string) : string :=
  strip (replace (replace raw_value "," EmptyString) "$" EmptyString).

(** The body of the loop over the matches: the candidate appended for one
    match, none when the text is empty, not positive, or the [try] block
    raised (all three exceptions of the handler are caught). *)
Definition amount_of_match (conf : Q) (m : Match) : list candidate :=
  match group m 1 with
  | None => []
  | Some raw_value =>
      let cleaned := clean raw_value in
      if negb (is_empty cleaned) && negb (String.eqb cleaned ".") then
        match bind (of_string cleaned) (fun amount =>
              bind (gt amount (Finite 0)) (fun positive => Ok (amount, positive))) with
        | Ok (amount, true) => [(amount, conf, raw_value)]
        | Ok (_, false) => []
        | Raise _ => []
        end
      else []
  end.

(** The two nested loops: every pattern, every match of it. *)
Definition find_amounts (conf : Q) (text : string) : list candidate :=
  flat_map (fun pattern => flat_map (amount_of_match conf) (finditer pattern text))
    AMOUNT_PATTERNS.

(** [full_text[label_pos:label_pos + 200]] for the first occurrence of the
    label, the case ignored; none when the label does not occur. *)
Definition label_window (full_text label : string) (width : nat) : option string :=
  let label_pos := find (lower full_text) (lower label) in
  if (label_pos =? -1)%Z then None
  else Some (slice full_text (Z.to_nat label_pos) (Z.to_nat label_pos + width)).

Definition all_amounts (full_text : string) : list candidate :=
  find_amounts 0.85 full_text.

Definition scored_amounts (full_text : string) (labels : list string) : list candidate :=
  flat_map
    (fun label =>
       match label_window full_text label 200 with
       | None => []
       | Some window_text => find_amounts 0.95 window_text
       end)
    labels.

(** [max(l, key=...)]: the first of the greatest elements; a comparison
    that raises is not caught. *)
Fixpoint max_from {A : Type} (gt : A -> A -> result bool) (best : A) (l : list A)
    : result A :=
  match l with
  | [] => Ok best
  | x :: rest => bind (gt x best) (fun b => max_from gt (if b then x else best) rest)
  end.

Definition max_by {A : Type} (gt : A -> A -> result bool) (l : list A) : result A :=
  match l with
  | [] => Raise (ValueError "max() arg is an empty sequence")
  | x :: rest => max_from gt x rest
  end.

Definition by_value (x y : candidate) : result bool :=
  gt (cand_value x) (cand_value y).

Definition by_confidence (x y : candidate) : result bool :=
  Ok (Qgtb (cand_confidence x) (cand_confidence y)).

(** What the loop asks of a candidate before it appends it: a value that
    compares above zero. *)
Definition positive (c : candidate) : Prop := gt (cand_value c) (Finite 0) = Ok true.





Definition extract_amount (ocr_result : OCRResult.t) (labels : list string)
    (prefer_largest : bool) : result (ExtractedField.t Decimal) :=
  let full_text := OCRResult.full_text ocr_result in
  let all := all_amounts full_text in
  match all with
  | [] => ExtractedField.new (Finite 0) 0.0 None (Some EmptyString)
  | _ =>
      let scored := scored_amounts full_text labels in
      match scored with
      | _ :: _ =>
          bind (if prefer_largest then max_by by_value scored
                else max_by by_confidence scored) (fun best =>
          ExtractedField.new (cand_value best) (cand_confidence best) None
            (Some (cand_raw best)))
      | [] =>
          bind (max_by by_value all) (fun best =>
          ExtractedField.new (cand_value best) 0.6 None (Some (cand_raw best)))
      end
  end.

(** *** Reference numbers and quantities

    The patterns are compiled with [re.IGNORECASE]; where a pattern is
    quoted, a blank separates a star from a closing parenthesis. *)

Definition ref_char (a : ascii) : bool :=
  is_upper a || is_lower a || is_digit a || Ascii.eqb a "-".

Definition letter (a : ascii) : bool := is_upper a || is_lower a.

Definition colon_or_space (a : ascii) : bool := Ascii.eqb a ":" || is_space a.

Definition dash_or_space (a : ascii) : bool := Ascii.eqb a "-" || is_space a.

(** [[A-Z0-9\-]+] under [re.IGNORECASE] *)
Definition reference : regex := Plus (Chr ref_char).

(** [\d{n,}] *)
Definition at_least (n : nat) (r : regex) : regex := Cat (times n r) (Star r).

Definition INVOICE_NUMBER_PATTERNS : list regex :=
  [ (* (?:Invoice\s*No\s*[:\s]* )(\d{5,}) *)
    Cat (lit_i "Invoice")
      (Cat (Star space)
         (Cat (lit_i "No")
            (Cat (Star space)
               (Cat (Star (Chr colon_or_space)) (Grp 1 (at_least 5 digit))))));
    (* (?:Invoice\s*No\s*[:\s]* )([A-Z0-9\-]+) *)
    Cat (lit_i "Invoice")
      (Cat (Star space)
         (Cat (lit_i "No")
            (Cat (Star space) (Cat (Star (Chr colon_or_space)) (Grp 1 reference)))));
    (* (INV[-\s]?\d{4}[-\s]?\d{3,}) *)
    Grp 1 (Cat (lit_i "INV")
             (Cat (Opt (Chr dash_or_space))
                (Cat (times 4 digit)
                   (Cat (Opt (Chr dash_or_space)) (at_least 3 digit)))));
    (* (?:Invoice\s*#?\s* )([A-Z0-9\-]+) *)
    Cat (lit_i "Invoice")
      (Cat (Star space) (Cat (Opt (chr "#")) (Cat (Star space) (Grp 1 reference))));
    (* (?:Invoice\s+(?:No|Number)[:\s]* )([A-Z0-9\-]+) *)
    Cat (lit_i "Invoice")
      (Cat (Plus space)
         (Cat (Alt (lit_i "No") (lit_i "Number"))
            (Cat (Star (Chr colon_or_space)) (Grp 1 reference))));
    (* #\s*([A-Z]{2,4}\-?\d{4,}) *)
    Cat (chr "#")
      (Cat (Star space)
         (Grp 1 (Cat (rep 2 4 (Chr letter))
                   (Cat (Opt (chr "-")) (at_least 4 digit))))) ].

Module PatternMatch.
Record t : Type :=
  { value : string;
    pattern : regex;
    start : nat;
    end_ : nat;
    confidence : Q }.
End PatternMatch.

(** The body of the loop over the matches of one pattern: a match whose
    first group holds at least two characters is kept. *)
Definition pattern_match (pattern : regex) (m : Match) : list PatternMatch.t :=
  match group m 1 with
  | None => []
  | Some value =>
      if negb (is_empty value) && (2 <=? String.length value)%nat
      then [{| PatternMatch.value := value;
               PatternMatch.pattern := pattern;
               PatternMatch.start := re.start m;
               PatternMatch.end_ := re.end_ m;
               PatternMatch.confidence := 0.85 |}]
      else []
  end.

Definition find_matches (patterns : list regex) (full_text : string)
    : list PatternMatch.t :=
  flat_map (fun pattern => flat_map (pattern_match pattern) (finditer pattern full_text))
    patterns.

(** [abs(match.start - label_pos) < 100] *)
Definition near (label_pos : Z) (m : PatternMatch.t) : bool :=
  (Z.abs (Z.of_nat (PatternMatch.start m) - label_pos) <? 100)%Z.

(** [min(0.98, match.confidence + 0.1)] *)
Definition boosted (confidence : Q) : Q :=
  if Qltb (confidence + 0.1) 0.98 then confidence + 0.1 else 0.98.

(** One pass of the loop over the labels: the matches near the first
    occurrence of the label get their confidence raised. *)
Definition boost (full_text : string) (all_matches : list PatternMatch.t)
    (label : string) : list PatternMatch.t :=
  let label_pos := find (lower full_text) (lower label) in
  if (label_pos =? -1)%Z then all_matches
  else
    map (fun m =>
           if near label_pos m
           then {| PatternMatch.value := PatternMatch.value m;
                   PatternMatch.pattern := PatternMatch.pattern m;
                   PatternMatch.start := PatternMatch.start m;
                   PatternMatch.end_ := PatternMatch.end_ m;
                   PatternMatch.confidence := boosted (PatternMatch.confidence m) |}
           else m)
      all_matches.

Definition by_match_confidence (x y : PatternMatch.t) : result bool :=
  Ok (Qgtb (PatternMatch.confidence x) (PatternMatch.confidence y)).

Definition _extract_with_patterns (ocr_result : OCRResult.t) (patterns : list regex)
    (labels : list string) (field_name : string) : result (ExtractedField.t string) :=
  let full_text := OCRResult.full_text ocr_result in
  let all_matches := find_matches patterns full_text in
  match all_matches with
  | [] => ExtractedField.new "UNKNOWN" 0.0 None (Some EmptyString)
  | _ =>
      let all_matches := fold_left (boost full_text) labels all_matches in
      bind (max_by by_match_confidence all_matches) (fun best =>
      ExtractedField.new (PatternMatch.value best) (PatternMatch.confidence best) None
        (Some (PatternMatch.value best)))
  end.

(** [labels = labels or [...]] *)
Definition extract_invoice_number (ocr_result : OCRResult.t)
    (labels : option (list string)) : result (ExtractedField.t string) :=
  let labels :=
    match labels with
    | Some (label :: rest) => label :: rest
    | _ => ["invoice"; "inv"; "invoice no"; "invoice #"; "invoice number"]
    end in
  _extract_with_patterns ocr_result INVOICE_NUMBER_PATTERNS labels "invoice_number".








End extractor.

(** ** services/ocr/table.py: rows, column boundaries, cells *)

Module table.
Import py engine.
Local Open Scope Q_scope.

Definition ROW_TOLERANCE : Q := 0.015.
Definition COLUMN_TOLERANCE : Q := 0.05.
Definition MIN_TABLE_ROWS : nat := 2.

(** [min(gen)]: the first of the least elements. *)
Fixpoint min_from (best : Q) (l : list Q) : Q :=
  match l with
  | [] => best
  | x :: rest => min_from (if Qltb x best then x else best) rest
  end.

Module TableCell.
Record t : Type :=
  { text : string;
    confidence : Q;
    row : nat;
    column : nat;
    blocks : list TextBlock.t }.

Definition min_confidence (c : t) : Q :=
  match blocks c with
  | [] => confidence c
  | b :: rest => min_from (TextBlock.confidence b) (map TextBlock.confidence rest)
  end.
End TableCell.

Module TableRow.
Record t : Type := { index : nat; cells : gmap nat TableCell.t }.

Definition get_cell (r : t) (column : nat) : option TableCell.t := cells r !! column.
End TableRow.

(** The state of the loop of [_group_into_rows]. *)
Record row_state : Type :=
  { rows : list (list TextBlock.t);
    current_row : list TextBlock.t;
    current_y : Q }.

Definition row_step (row_tolerance : Q) (st : row_state) (block : TextBlock.t)
    : row_state :=
  if Qleb (Qabs (TextBlock.center_y block - current_y st)) row_tolerance
  then {| rows := rows st;
          current_row := (current_row st ++ [block])%list;
          current_y := current_y st |}
  else {| rows := (rows st ++ [current_row st])%list;
          current_row := [block];
          current_y := TextBlock.center_y block |}.

Definition by_center_x (a b : TextBlock.t) : bool :=
  Qleb (TextBlock.center_x a) (TextBlock.center_x b).

Definition by_center_y (a b : TextBlock.t) : bool :=
  Qleb (TextBlock.center_y a) (TextBlock.center_y b).

Definition _group_into_rows (row_tolerance : Q) (blocks : list TextBlock.t)
    : list (list TextBlock.t) :=
  match sorted by_center_y blocks with
  | [] => []
  | first :: rest =>
      let st :=
        fold_left (row_step row_tolerance) rest
          {| rows := []; current_row := [first];
             current_y := TextBlock.center_y first |} in
      let rows :=
        match current_row st with
        | [] => rows st
        | _ => (rows st ++ [current_row st])%list
        end in
      map (sorted by_center_x) rows
  end.

(** The state of the loop of [_detect_column_boundaries]. *)
Record cluster_state : Type :=
  { column_starts : list Q;
    cluster_start : Q;
    cluster_sum : Q;
    cluster_count : Z }.

Definition midpoint (a b : Q) : Q := (a + b) / 2.

Definition close_cluster (column_tolerance : Q) (st : cluster_state) : list Q :=
  let starts :=
    match column_starts st with
    | [] => []
    | _ =>
        let prev := List.last (column_starts st) 0 in
        let boundary := midpoint prev (cluster_start st) + column_tolerance in
        if Qgtb boundary prev
        then (column_starts st ++ [boundary])%list
        else column_starts st
    end in
  (starts ++ [cluster_sum st / inject_Z (cluster_count st)])%list.

Definition cluster_step (column_tolerance : Q) (st : cluster_state) (edge : Q)
    : cluster_state :=
  if Qleb (edge - cluster_start st) column_tolerance
  then {| column_starts := column_starts st;
          cluster_start := cluster_start st;
          cluster_sum := cluster_sum st + edge;
          cluster_count := (cluster_count st + 1)%Z |}
  else {| column_starts := close_cluster column_tolerance st;
          cluster_start := edge;
          cluster_sum := edge;
          cluster_count := 1%Z |}.

(** The midpoints of the successive entries of a list. *)
Fixpoint midpoints (l : list Q) : list Q :=
  match l with
  | a :: ((b :: _) as rest) => midpoint a b :: midpoints rest
  | _ => []
  end.

(** The entries of [column_starts] after the loop and the last cluster. *)
Definition final_column_starts (column_tolerance : Q) (left_edges : list Q) : list Q :=
  match left_edges with
  | [] => []
  | first :: rest =>
      let st :=
        fold_left (cluster_step column_tolerance) rest
          {| column_starts := []; cluster_start := first;
             cluster_sum := first; cluster_count := 1%Z |} in
      (column_starts st ++ [cluster_sum st / inject_Z (cluster_count st)])%list
  end.

Definition _detect_column_boundaries (column_tolerance : Q) (blocks : list TextBlock.t)
    : list Q :=
  match blocks with
  | [] => []
  | _ =>
      let left_edges := sorted Qleb (map TextBlock.x_min blocks) in
      midpoints (final_column_starts column_tolerance left_edges)
  end.

Fixpoint column_index_from (i : nat) (x_position : Q) (boundaries : list Q) : nat :=
  match boundaries with
  | [] => i
  | boundary :: rest =>
      if Qltb x_position boundary then i
      else column_index_from (S i) x_position rest
  end.

Definition _get_column_index (x_position : Q) (boundaries : list Q) : nat :=
  column_index_from 0 x_position boundaries.

(** [TableCell(text=block.text, confidence=block.confidence, ...)] *)
Definition new_cell (row_idx col_idx : nat) (block : TextBlock.t) : TableCell.t :=
  {| TableCell.text := TextBlock.text block;
     TableCell.confidence := TextBlock.confidence block;
     TableCell.row := row_idx;
     TableCell.column := col_idx;
     TableCell.blocks := [block] |}.

(** [cell.text += " " + block.text; cell.blocks.append(block)] *)
Definition extend_cell (cell : TableCell.t) (block : TextBlock.t) : TableCell.t :=
  {| TableCell.text := TableCell.text cell ++ " " ++ TextBlock.text block;
     TableCell.confidence := TableCell.confidence cell;
     TableCell.row := TableCell.row cell;
     TableCell.column := TableCell.column cell;
     TableCell.blocks := (TableCell.blocks cell ++ [block])%list |}.

(** One pass of the inner loop of [_build_table_rows]. *)
Definition add_block (row_idx : nat) (column_positions : list Q)
    (cells : gmap nat TableCell.t) (block : TextBlock.t) : gmap nat TableCell.t :=
  let col_idx := _get_column_index (TextBlock.center_x block) column_positions in
  match cells !! col_idx with
  | Some cell => <[col_idx := extend_cell cell block]> cells
  | None => <[col_idx := new_cell row_idx col_idx block]> cells
  end.

Definition build_row (column_positions : list Q) (row_idx : nat)
    (blocks : list TextBlock.t) : TableRow.t :=
  {| TableRow.index := row_idx;
     TableRow.cells := fold_left (add_block row_idx column_positions) blocks ∅ |}.

Definition _build_table_rows (text_rows : list (list TextBlock.t))
    (column_positions : list Q) : list TableRow.t :=
  map (fun '(row_idx, blocks) => build_row column_positions row_idx blocks)
    (enumerate text_rows).

(** *** Detected tables and their header *)

(** [max(gen)]: the first of the greatest elements. *)
Fixpoint max_among (best : Q) (l : list Q) : Q :=
  match l with
  | [] => best
  | x :: rest => max_among (if Qltb best x then x else best) rest
  end.

(** [column_names] is a dict: its items are kept in the order of their
    insertion, with one entry for a key. *)
Module DetectedTable.
Record t : Type :=
  { page : Z;
    rows : list TableRow.t;
    column_positions : list Q;
    column_names : list (nat * string);
    x_min : Q;
    y_min : Q;
    x_max : Q;
    y_max : Q }.

Definition num_columns (table : t) : nat := (length (column_positions table) + 1)%nat.

Definition num_rows (table : t) : nat := length (rows table).

Definition get_column_by_name (table : t) (name : string) : option nat :=
  let name_lower := lower name in
  match List.find (fun item => contains (lower (snd item)) name_lower)
          (column_names table) with
  | Some (col_idx, _) => Some col_idx
  | None => None
  end.

Definition iter_data_rows (table : t) : list TableRow.t :=
  match rows table with
  | [] => []
  | first :: rest =>
      match column_names table with
      | [] => rows table
      | _ => rest
      end
  end.
End DetectedTable.

Definition COLUMN_PATTERNS : list (string * list string) :=
  [("quantity", ["qty"; "quantity"; "units"; "count"; "pcs"]);
   ("description", ["description"; "item"; "product"; "service"; "particulars"]);
   ("unit_price", ["unit price"; "price"; "rate"; "unit cost"; "each"]);
   ("amount", ["amount"; "total"; "line total"; "ext."; "extension"])].

(** The name given to a header text: the first canonical name one of whose
    patterns occurs in it, else the text itself. *)
Definition header_name (text : string) : string :=
  match List.find (fun entry => existsb (fun p => contains text p) (snd entry))
          COLUMN_PATTERNS with
  | Some (canonical_name, _) => canonical_name
  | None => text
  end.

(** The keys of the dict [cells] of a row in the order in which the loop of
    [_build_table_rows] inserts them. *)
Definition insertion_order (column_positions : list Q) (blocks : list TextBlock.t)
    : list nat :=
  fold_left
    (fun order block =>
       let col_idx := _get_column_index (TextBlock.center_x block) column_positions in
       if existsb (Nat.eqb col_idx) order then order else (order ++ [col_idx])%list)
    blocks [].

(** [row.cells.items()] for the row built from [blocks]. *)
Definition items (column_positions : list Q) (row : TableRow.t)
    (blocks : list TextBlock.t) : list (nat * TableCell.t) :=
  flat_map
    (fun col_idx =>
       match TableRow.cells row !! col_idx with
       | Some cell => [(col_idx, cell)]
       | None => []
       end)
    (insertion_order column_positions blocks).

(** [_detect_header], given the items of the first row. *)
Definition _detect_header (first_row_items : list (nat * TableCell.t))
    (column_positions : list Q) : list (nat * string) :=
  map (fun item =>
         let text := strip (lower (TableCell.text (snd item))) in
         (fst item, header_name text))
    first_row_items.

Definition _detect_tables_on_page (row_tolerance column_tolerance : Q) (min_rows : Z)
    (blocks : list TextBlock.t) (page : Z) : list DetectedTable.t :=
  match blocks with
  | [] => []
  | first :: others =>
      let rows := _group_into_rows row_tolerance blocks in
      if (Z.of_nat (length rows) <? min_rows)%Z then []
      else
        let column_positions := _detect_column_boundaries column_tolerance blocks in
        let table_rows := _build_table_rows rows column_positions in
        match table_rows, rows with
        | first_row :: _, first_blocks :: _ =>
            let column_names :=
              _detect_header (items column_positions first_row first_blocks)
                column_positions in
            [{| DetectedTable.page := page;
                DetectedTable.rows := table_rows;
                DetectedTable.column_positions := column_positions;
                DetectedTable.column_names := column_names;
                DetectedTable.x_min :=
                  min_from (TextBlock.x_min first) (map TextBlock.x_min others);
                DetectedTable.y_min :=
                  min_from (TextBlock.y_min first) (map TextBlock.y_min others);
                DetectedTable.x_max :=
                  max_among (TextBlock.x_max first) (map TextBlock.x_max others);
                DetectedTable.y_max :=
                  max_among (TextBlock.y_max first) (map TextBlock.y_max others) |}]
        | _, _ => []
        end
  end.

Definition detect_tables (row_tolerance column_tolerance : Q) (min_rows : Z)
    (ocr_result : OCRResult.t) : list DetectedTable.t :=
  flat_map
    (fun page =>
       _detect_tables_on_page row_tolerance column_tolerance min_rows
         (OCRPage.blocks page) (OCRPage.page_number page))
    (OCRResult.pages ocr_result).

End table.

(** ** services/did.py: the result of a DID check *)

Module did.

Inductive DIDStatus : Type :=
| VERIFIED | NOT_FOUND | EXPIRED | REVOKED | INVALID | PENDING | SKIPPED.

Definition DIDStatus_eqb (a b : DIDStatus) : bool :=
  match a, b with
  | VERIFIED, VERIFIED | NOT_FOUND, NOT_FOUND | EXPIRED, EXPIRED
  | REVOKED, REVOKED | INVALID, INVALID | PENDING, PENDING | SKIPPED, SKIPPED => true
  | _, _ => false
  end.

(** The claims of a DID document that the service reads. *)
Module DIDDocument.
Record t : Type :=
  { did : string;
    controller : string;
    business_name : option string;
    registration_number : option string;
    country : option string }.
End DIDDocument.

Module DIDVerificationResult.
Record t : Type :=
  { wallet_address : string;
    status : DIDStatus;
    did_document : option DIDDocument.t;
    message : string }.

Definition is_verified (r : t) : bool := DIDStatus_eqb (status r) VERIFIED.
End DIDVerificationResult.

Definition create_skipped_result (wallet_address : string) : DIDVerificationResult.t :=
  {| DIDVerificationResult.wallet_address := wallet_address;
     DIDVerificationResult.status := SKIPPED;
     DIDVerificationResult.did_document := None;
     DIDVerificationResult.message := "DID verification skipped" |}.

End did.

(** ** services/xrpl.py: the duplicate check *)

Module xrpl.

Module DuplicateCheckResult.
Record t : Type :=
  { is_duplicate : bool;
    existing_nft_id : option string;
    existing_issuer : option string;
    message : string }.
End DuplicateCheckResult.

(** [XRPLService.check_duplicate] *)
Definition check_duplicate (invoice_hash : string) : DuplicateCheckResult.t :=
  {| DuplicateCheckResult.is_duplicate := false;
     DuplicateCheckResult.existing_nft_id := None;
     DuplicateCheckResult.existing_issuer := None;
     DuplicateCheckResult.message := "Hash not found in local index (simplified check)" |}.

End xrpl.

(** ** services/forensic.py: the audit of a bundle

    The services that a [ForensicService] holds are fields of the record:
    the duplicate check and the DID check when they are configured, and the
    three extraction methods, which run the OCR model. *)

Module forensic.
Import py models.

Module DocumentInput.
Record t : Type :=
  { content : string; filename : string; document_type : DocumentType }.
End DocumentInput.

Definition status_is (s expected : VerificationStatus) : bool :=
  match s, expected with
  | models.PENDING, models.PENDING | PROCESSING, PROCESSING | PASSED, PASSED
  | FAILED, FAILED | REQUIRES_REVIEW, REQUIRES_REVIEW => true
  | _, _ => false
  end.

Module ForensicAuditResult.
Record t : Type :=
  { verification : VerificationResult.t;
    duplicate_check : option xrpl.DuplicateCheckResult.t;
    did_verification : option did.DIDVerificationResult.t;
    bundle : option DocumentBundle.t;
    invoice_hash : option string;
    po_hash : option string;
    pod_hash : option string }.

Definition passed (r : t) : bool :=
  if negb (status_is (VerificationResult.status (verification r)) PASSED) then false
  else if match duplicate_check r with
          | Some d => xrpl.DuplicateCheckResult.is_duplicate d
          | None => false
          end then false
  else if match did_verification r with
          | Some d => negb (did.DIDVerificationResult.is_verified d)
          | None => false
          end then false
  else true.

Definition can_mint (r : t) : bool :=
  passed r || status_is (VerificationResult.status (verification r)) REQUIRES_REVIEW.
End ForensicAuditResult.

Module ForensicService.
Record t : Type :=
  { xrpl_check_duplicate : option (string -> result xrpl.DuplicateCheckResult.t);
    did_verify_wallet : option (string -> result did.DIDVerificationResult.t);
    confidence_threshold : Q;
    _extract_invoice : DocumentInput.t -> result Invoice.t;
    _extract_purchase_order : DocumentInput.t -> result PurchaseOrder.t;
    _extract_proof_of_delivery : DocumentInput.t -> result ProofOfDelivery.t }.
End ForensicService.

(** [VerificationResult(status=FAILED, checks=[], anomalies=[])] inside the
    result that [verify_documents] returns early. *)
Definition failed_result (duplicate_result : option xrpl.DuplicateCheckResult.t)
    (did_result : option did.DIDVerificationResult.t)
    (invoice_hash po_hash pod_hash : string) : ForensicAuditResult.t :=
  {| ForensicAuditResult.verification :=
       {| VerificationResult.status := FAILED;
          VerificationResult.checks := [];
          VerificationResult.anomalies := [];
          VerificationResult.review_flags := [] |};
     ForensicAuditResult.duplicate_check := duplicate_result;
     ForensicAuditResult.did_verification := did_result;
     ForensicAuditResult.bundle := None;
     ForensicAuditResult.invoice_hash := Some invoice_hash;
     ForensicAuditResult.po_hash := Some po_hash;
     ForensicAuditResult.pod_hash := Some pod_hash |}.

(** Step 4: the three extractions of the [try] block. *)
Definition extract_all (self : ForensicService.t)
    (invoice purchase_order proof_of_delivery : DocumentInput.t)
    : result (Invoice.t * PurchaseOrder.t * ProofOfDelivery.t) :=
  bind (ForensicService._extract_invoice self invoice) (fun invoice_data =>
  bind (ForensicService._extract_purchase_order self purchase_order) (fun po_data =>
  bind (ForensicService._extract_proof_of_delivery self proof_of_delivery) (fun pod_data =>
  Ok (invoice_data, po_data, pod_data)))).

Definition verify_documents (self : ForensicService.t) (wallet_address : string)
    (invoice purchase_order proof_of_delivery : DocumentInput.t)
    (check_duplicate verify_did : bool) : result ForensicAuditResult.t :=
  bind (hashing.compute_document_hash (DocumentInput.content invoice))
    (fun invoice_hash =>
  bind (hashing.compute_document_hash (DocumentInput.content purchase_order))
    (fun po_hash =>
  bind (hashing.compute_document_hash (DocumentInput.content proof_of_delivery))
    (fun pod_hash =>
  bind (match check_duplicate, ForensicService.xrpl_check_duplicate self with
        | true, Some check => bind (check invoice_hash) (fun r => Ok (Some r))
        | _, _ => Ok None
        end) (fun duplicate_result =>
  if match duplicate_result with
     | Some d => xrpl.DuplicateCheckResult.is_duplicate d
     | None => false
     end
  then Ok (failed_result duplicate_result None invoice_hash po_hash pod_hash)
  else
  bind (match verify_did, ForensicService.did_verify_wallet self with
        | true, Some verify_wallet =>
            bind (verify_wallet wallet_address) (fun r => Ok (Some r))
        | true, None => Ok None
        | false, _ => Ok (Some (did.create_skipped_result wallet_address))
        end) (fun did_result =>
  if match verify_did, ForensicService.did_verify_wallet self, did_result with
     | true, Some _, Some r =>
         negb (did.DIDVerificationResult.is_verified r)
         && negb (did.DIDStatus_eqb (did.DIDVerificationResult.status r) did.NOT_FOUND)
     | _, _, _ => false
     end
  then Ok (failed_result duplicate_result did_result invoice_hash po_hash pod_hash)
  else
  match extract_all self invoice purchase_order proof_of_delivery with
  | Raise _ => Ok (failed_result duplicate_result did_result invoice_hash po_hash pod_hash)
  | Ok (invoice_data, po_data, pod_data) =>
      let bundle :=
        {| DocumentBundle.invoice := invoice_data;
           DocumentBundle.purchase_order := po_data;
           DocumentBundle.proof_of_delivery := pod_data;
           DocumentBundle.invoice_hash := Some invoice_hash;
           DocumentBundle.po_hash := Some po_hash;
           DocumentBundle.pod_hash := Some pod_hash |} in
      let verification :=
        validation.run_full_verification bundle None
          (ForensicService.confidence_threshold self) in
      Ok {| ForensicAuditResult.verification := verification;
            ForensicAuditResult.duplicate_check := duplicate_result;
            ForensicAuditResult.did_verification := did_result;
            ForensicAuditResult.bundle := Some bundle;
            ForensicAuditResult.invoice_hash := Some invoice_hash;
            ForensicAuditResult.po_hash := Some po_hash;
            ForensicAuditResult.pod_hash := Some pod_hash |}
  end))))).

End forensic.

(** ** The column boundaries in the words of the specification

    These definitions do not come from table.py: they state what the
    specification says of the clustering, to be compared with
    [table._detect_column_boundaries]. *)

Module table_spec.
Import py.
Local Open Scope Q_scope.

(** The clusters of the sorted left edges: an edge within the tolerance of
    the start of the current cluster joins it, any other edge starts the
    next cluster. *)
Fixpoint cluster_from (tolerance start : Q) (current : list Q) (edges : list Q)
    : list (list Q) :=
  match edges with
  | [] => [current]
  | edge :: rest =>
      if Qleb (edge - start) tolerance
      then cluster_from tolerance start (current ++ [edge])%list rest
      else current :: cluster_from tolerance edge [edge] rest
  end.

Definition clusters (tolerance : Q) (edges : list Q) : list (list Q) :=
  match edges with
  | [] => []
  | edge :: rest => cluster_from tolerance edge [edge] rest
  end.

Definition cluster_start (c : list Q) : Q := hd 0 c.

Definition total (c : list Q) : Q :=
  match c with
  | [] => 0
  | e :: rest => fold_left Qplus rest e
  end.

(** The centroid of a cluster: the arithmetic mean of its edges. *)
Definition centroid (c : list Q) : Q := total c / inject_Z (Z.of_nat (length c)).

(** The boundaries of the specification: the midpoints between the
    centroids of successive clusters. *)
Definition boundaries_between_centroids (tolerance : Q) (edges : list Q) : list Q :=
  table.midpoints (map centroid (clusters tolerance edges)).





End table_spec.

(** ** Sample documents, used by the examples below *)

Module samples.
Import py datetime models engine.
Local Open Scope Q_scope.

Definition field {T : Type} (v : T) (c : Q) : ExtractedField.t T :=
  {| ExtractedField.value := v; ExtractedField.confidence := c;
     ExtractedField.bounding_box := None; ExtractedField.raw_text := None |}.

Definition day (y m d : Z) : date := {| year := y; month := m; day := d |}.

Definition item (qty price total : Q) : LineItem.t :=
  {| LineItem.description := field "Widgets" 0.9;
     LineItem.quantity := field qty 0.9;
     LineItem.unit_price := field price 0.9;
     LineItem.total := field total 0.9 |}.

Definition invoice (total : Q) (currency : string) (confidence : Q) : Invoice.t :=
  {| Invoice.invoice_number := field "INV-2024-001" 0.9;
     Invoice.total_amount := field total confidence;
     Invoice.currency := field currency 0.9;
     Invoice.invoice_date := field (day 2024 1 5) 0.9;
     Invoice.due_date := field (day 2024 2 4) 0.9;
     Invoice.payee_name := field "Acme Supplies Pte Ltd" 0.9;
     Invoice.payer_name := field "Globex Corp" 0.9;
     Invoice.line_items := [item 200 40 total] |}.

Definition purchase_order (amount : Q) (currency : string) : PurchaseOrder.t :=
  {| PurchaseOrder.po_number := field "PO-2024-001" 0.9;
     PurchaseOrder.authorized_amount := field amount 0.9;
     PurchaseOrder.currency := field currency 0.9;
     PurchaseOrder.po_date := field (day 2024 1 2) 0.9;
     PurchaseOrder.buyer_name := field "Globex" 0.9;
     PurchaseOrder.vendor_name := field "ACME SUPPLIES" 0.9;
     PurchaseOrder.line_items := [] |}.

Definition delivery : ProofOfDelivery.t :=
  {| ProofOfDelivery.delivery_reference := field "DEL-2024-001" 0.9;
     ProofOfDelivery.quantity_delivered := field 200 0.9;
     ProofOfDelivery.delivery_date := field (day 2024 1 4) 0.9;
     ProofOfDelivery.recipient_name := field "Globex" 0.9;
     ProofOfDelivery.recipient_signature := true;
     ProofOfDelivery.po_reference := None |}.

Definition bundle (inv : Invoice.t) (po : PurchaseOrder.t) : DocumentBundle.t :=
  {| DocumentBundle.invoice := inv;
     DocumentBundle.purchase_order := po;
     DocumentBundle.proof_of_delivery := delivery;
     DocumentBundle.invoice_hash := None;
     DocumentBundle.po_hash := None;
     DocumentBundle.pod_hash := None |}.

(** A fragment with its text, confidence and left edge, 0.1 wide on the
    line at height [y]. *)
Definition block (text : string) (confidence x y : Q) : TextBlock.t :=
  {| TextBlock.text := text; TextBlock.confidence := confidence;
     TextBlock.x_min := x; TextBlock.y_min := y;
     TextBlock.x_max := x + 0.1; TextBlock.y_max := y + 0.02;
     TextBlock.page := 0 |}.

(** A header line of three columns. *)
Definition three_columns : list TextBlock.t :=
  [block "Qty" 0.9 0.1 0.1; block "Item" 0.9 0.4 0.1; block "Amount" 0.9 0.7 0.1].

(** Two fragments in the first column and one in the second, on one line. *)
Definition shared_cell_row : list TextBlock.t :=
  [block "Blue" 0.9 0.1 0.1; block "widgets" 0.5 0.12 0.1; block "200" 0.8 0.6 0.1].

(** A scan of one page holding the given texts. *)
Definition scan (texts : list string) : OCRResult.t :=
  {| OCRResult.pages :=
       [{| OCRPage.page_number := 0; OCRPage.width := 1000; OCRPage.height := 1000;
           OCRPage.blocks := map (fun t => block t 0.9 0.1 0.1) texts |}];
     OCRResult.processing_time_ms := 0 |}.

End samples.

(** * Theorems *)

Import py datetime models.

(** ** Comparisons *)

Section Comparisons.
Local Open Scope Q_scope.

Lemma Qltb_lt (x y : Q) : Qltb x y = true <-> x < y.
Proof.
  unfold Qltb. rewrite negb_true_iff.
  split; intros H.
  - apply Qnot_le_lt. intros Hle. apply Qle_bool_iff in Hle. congruence.
  - destruct (Qle_bool y x) eqn:E; [|reflexivity].
    apply Qle_bool_iff in E. exfalso. apply (Qlt_not_le _ _ H E).
Qed.

Lemma Qltb_ge (x y : Q) : Qltb x y = false <-> y <= x.
Proof.
  unfold Qltb. rewrite negb_false_iff. apply Qle_bool_iff.
Qed.



Lemma Qleb_le (x y : Q) : Qleb x y = true <-> x <= y.
Proof. unfold Qleb. apply Qle_bool_iff. Qed.


Lemma in_unit_interval (c : Q) :
  Qleb 0 c && Qleb c 1 = true <-> 0 <= c <= 1.
Proof. rewrite andb_true_iff, !Qleb_le. tauto. Qed.

End Comparisons.

(** ** ExtractedField (models.py) *)

Section ExtractedFieldFacts.
Local Open Scope Q_scope.

Lemma new_ok {T : Type} (v : T) (c : Q) bb raw :
  0 <= c <= 1 ->
  ExtractedField.new v c bb raw
  = Ok {| ExtractedField.value := v; ExtractedField.confidence := c;
          ExtractedField.bounding_box := bb; ExtractedField.raw_text := raw |}.
Proof.
  intros H. unfold ExtractedField.new.
  apply in_unit_interval in H. rewrite H. reflexivity.
Qed.

Lemma new_raises {T : Type} (v : T) (c : Q) bb raw :
  ~ (0 <= c <= 1) ->
  ExtractedField.new v c bb raw = Raise (ValueError "Confidence must be 0-1").
Proof.
  intros H. unfold ExtractedField.new.
  destruct (Qleb 0 c && Qleb c 1) eqn:E; [|reflexivity].
  apply in_unit_interval in E. contradiction.
Qed.

Lemma new_inv {T : Type} (v : T) (c : Q) bb raw f :
  ExtractedField.new v c bb raw = Ok f ->
  0 <= c <= 1 /\
  f = {| ExtractedField.value := v; ExtractedField.confidence := c;
         ExtractedField.bounding_box := bb; ExtractedField.raw_text := raw |}.
Proof.
  unfold ExtractedField.new.
  destruct (Qleb 0 c && Qleb c 1) eqn:E; simpl; [|discriminate].
  intros [= <-]. apply in_unit_interval in E. auto.
Qed.


(** C6: a field that was constructed requires review exactly when its
    confidence is below 0.7, and the constructor raises [ValueError] for a
    confidence outside [0, 1] (and only then). *)
Theorem extracted_field_review_iff_low_confidence :
  forall (T : Type) (v : T) (c : Q) (bb : option BoundingBox.t) (raw : option string),
    (forall f, ExtractedField.new v c bb raw = Ok f ->
       ExtractedField.confidence f = c /\
       (ExtractedField.requires_review f = true <-> ExtractedField.confidence f < 0.7)) /\
    (~ (0 <= c <= 1) ->
       exists msg, ExtractedField.new v c bb raw = Raise (ValueError msg)) /\
    (0 <= c <= 1 -> exists f, ExtractedField.new v c bb raw = Ok f).
Proof.
  intros T v c bb raw. split; [|split].
  - intros f Hf. apply new_inv in Hf as [_ ->]. simpl. split; [reflexivity|].
    unfold ExtractedField.requires_review. simpl. apply Qltb_lt.
  - intros H. eexists. apply new_raises. exact H.
  - intros H. eexists. apply new_ok. exact H.
Qed.

Example field_at_threshold_is_not_reviewed :
  forall f, ExtractedField.new "INV-1" 0.7 None None = Ok f ->
            ExtractedField.requires_review f = false.
Proof. intros f [= <-]. reflexivity. Qed.

Example field_below_threshold_is_reviewed :
  forall f, ExtractedField.new "INV-1" 0.69 None None = Ok f ->
            ExtractedField.requires_review f = true.
Proof. intros f [= <-]. reflexivity. Qed.

Example field_confidence_above_one_raises :
  ExtractedField.new "INV-1" 1.5 None None = Raise (ValueError "Confidence must be 0-1").
Proof. reflexivity. Qed.

End ExtractedFieldFacts.

(** ** The validation engine (validation.py) *)

Section ValidationFacts.
Import validation.
Local Open Scope Q_scope.


Lemma existsb_Exists_bool {A : Type} (p : A -> bool) (l : list A) :
  existsb p l = true <-> (exists x, In x l /\ p x = true).
Proof. apply existsb_exists. Qed.









Example consistent_bundle_passes :
  VerificationResult.status
    (run_full_verification
       (samples.bundle (samples.invoice 8000.00 "SGD" 0.9)
          (samples.purchase_order 8000.00 "SGD")) None 0.7) = PASSED.
Proof. vm_compute. reflexivity. Qed.

Example low_confidence_total_requires_review :
  VerificationResult.status
    (run_full_verification
       (samples.bundle (samples.invoice 8000.00 "SGD" 0.5)
          (samples.purchase_order 8000.00 "SGD")) None 0.7) = REQUIRES_REVIEW.
Proof. vm_compute. reflexivity. Qed.

Example currency_mismatch_fails :
  VerificationResult.status
    (run_full_verification
       (samples.bundle (samples.invoice 8000.00 "SGD" 0.5)
          (samples.purchase_order 8000.00 "USD")) None 0.7) = FAILED.
Proof. vm_compute. reflexivity. Qed.

Example under_billing_cites_variance :
  ValidationCheck.message
    (validate_amount_authorization (samples.invoice 6000.00 "SGD" 0.9)
       (samples.purchase_order 8000.00 "SGD"))
  = msg_amount_mismatch 6000.00 8000.00 (Qabs (6000.00 - 8000.00) / 8000.00).
Proof. reflexivity. Qed.

Example over_billing_cites_exceeds :
  ValidationCheck.message
    (validate_amount_authorization (samples.invoice 9000.00 "SGD" 0.9)
       (samples.purchase_order 8000.00 "SGD"))
  = msg_exceeds_po 9000.00 8000.00.
Proof. reflexivity. Qed.

End ValidationFacts.

(** ** Sorting ([sorted], [list.sort]) *)

Section SortingFacts.
Context {A : Type} (le : A -> A -> bool).
Hypothesis le_total : forall x y, le x y = true \/ le y x = true.
Hypothesis le_trans : forall x y z, le x y = true -> le y z = true -> le x z = true.

Lemma insert_sorted_perm (x : A) (l : list A) :
  Permutation (insert_sorted le x l) (x :: l).
Proof.
  induction l as [|y l IH]; simpl; [reflexivity|].
  destruct (le y x).
  - rewrite IH. apply perm_swap.
  - reflexivity.
Qed.

Lemma insert_sorted_sorted (x : A) (l : list A) :
  StronglySorted (fun a b => le a b = true) l ->
  StronglySorted (fun a b => le a b = true) (insert_sorted le x l).
Proof.
  induction 1 as [|y l Hs IH Hall]; simpl.
  - constructor; constructor.
  - destruct (le y x) eqn:E.
    + constructor; [exact IH|].
      eapply Permutation_Forall; [symmetry; apply insert_sorted_perm|].
      constructor; assumption.
    + assert (Hxy : le x y = true) by (destruct (le_total x y); congruence).
      constructor; [constructor; assumption|].
      constructor; [exact Hxy|].
      eapply List.Forall_impl; [|exact Hall].
      intros z Hz. simpl in Hz. eapply le_trans; eassumption.
Qed.

Lemma fold_insert_perm (l acc : list A) :
  Permutation (fold_left (fun acc x => insert_sorted le x acc) l acc) (acc ++ l).
Proof.
  revert acc. induction l as [|x l IH]; intros acc; simpl.
  - rewrite app_nil_r. reflexivity.
  - rewrite IH. rewrite insert_sorted_perm.
    change (x :: acc ++ l) with ((x :: acc) ++ l).
    rewrite (Permutation_middle acc l x). reflexivity.
Qed.

Lemma fold_insert_sorted (l acc : list A) :
  StronglySorted (fun a b => le a b = true) acc ->
  StronglySorted (fun a b => le a b = true)
    (fold_left (fun acc x => insert_sorted le x acc) l acc).
Proof.
  revert acc. induction l as [|x l IH]; intros acc Hacc; simpl; [exact Hacc|].
  apply IH. apply insert_sorted_sorted. exact Hacc.
Qed.

Lemma sorted_perm (l : list A) : Permutation (sorted le l) l.
Proof. unfold sorted. rewrite fold_insert_perm. reflexivity. Qed.

Lemma sorted_sorted (l : list A) :
  StronglySorted (fun a b => le a b = true) (sorted le l).
Proof. unfold sorted. apply fold_insert_sorted. constructor. Qed.

Hypothesis le_antisym : forall x y, le x y = true -> le y x = true -> x = y.

Lemma strongly_sorted_unique (l1 l2 : list A) :
  StronglySorted (fun a b => le a b = true) l1 ->
  StronglySorted (fun a b => le a b = true) l2 ->
  Permutation l1 l2 -> l1 = l2.
Proof.
  intros H1. revert l2. induction H1 as [|x l1 Hs1 IH Hall1]; intros l2 H2 Hp.
  - apply Permutation_nil in Hp. congruence.
  - destruct H2 as [|y l2 Hs2 Hall2].
    + symmetry in Hp. apply Permutation_nil in Hp. discriminate.
    + assert (Hxy : x = y).
      { assert (Hx : In x (y :: l2)) by (eapply Permutation_in; [exact Hp|left; reflexivity]).
        assert (Hy : In y (x :: l1))
          by (eapply Permutation_in; [symmetry; exact Hp|left; reflexivity]).
        destruct Hx as [Hx|Hx]; [congruence|].
        destruct Hy as [Hy|Hy]; [congruence|].
        rewrite List.Forall_forall in Hall1, Hall2.
        apply le_antisym; [apply Hall1|apply Hall2]; assumption. }
      subst y. f_equal. apply IH; [exact Hs2|].
      eapply Permutation_cons_inv. exact Hp.
Qed.

(** The order of the arguments does not matter to [sorted]. *)
Lemma sorted_perm_eq (l1 l2 : list A) :
  Permutation l1 l2 -> sorted le l1 = sorted le l2.
Proof.
  intros Hp. apply strongly_sorted_unique; try apply sorted_sorted.
  rewrite !sorted_perm. exact Hp.
Qed.

End SortingFacts.

(** ** The order of strings *)

Section StringOrder.

Lemma code_inj (a b : ascii) : code a = code b -> a = b.
Proof.
  unfold code. intros H.
  rewrite <- (ascii_nat_embedding a), <- (ascii_nat_embedding b), H. reflexivity.
Qed.

Lemma str_le_total (s t : string) : str_le s t = true \/ str_le t s = true.
Proof.
  revert t. induction s as [|a s IH]; intros t; simpl; [left; reflexivity|].
  destruct t as [|b t]; simpl; [right; reflexivity|].
  destruct (code a <? code b)%nat eqn:E1; [left; reflexivity|].
  destruct (code b <? code a)%nat eqn:E2; [right; reflexivity|].
  apply IH.
Qed.

Lemma str_le_trans (s t u : string) :
  str_le s t = true -> str_le t u = true -> str_le s u = true.
Proof.
  revert t u. induction s as [|a s IH]; intros t u; simpl; [reflexivity|].
  destruct t as [|b t]; simpl; [discriminate|].
  destruct u as [|c u]; simpl; [intros _ H; exact H|].
  destruct (code a <? code b)%nat eqn:E1; destruct (code b <? code a)%nat eqn:E2;
    destruct (code b <? code c)%nat eqn:E3; destruct (code c <? code b)%nat eqn:E4;
    destruct (code a <? code c)%nat eqn:E5; destruct (code c <? code a)%nat eqn:E6;
    try reflexivity; try discriminate;
    rewrite ?Nat.ltb_lt, ?Nat.ltb_ge in *; try lia;
    try (intros H1 H2; discriminate).
  apply IH.
Qed.

Lemma str_le_antisym (s t : string) :
  str_le s t = true -> str_le t s = true -> s = t.
Proof.
  revert t. induction s as [|a s IH]; intros t; destruct t as [|b t]; simpl;
    try reflexivity; try discriminate.
  destruct (code a <? code b)%nat eqn:E1; destruct (code b <? code a)%nat eqn:E2;
    try discriminate; rewrite ?Nat.ltb_lt, ?Nat.ltb_ge in *; try lia.
  intros H1 H2. f_equal; [apply code_inj; lia|apply IH; assumption].
Qed.

End StringOrder.

(** ** Bundle hashes (hashing.py) *)

Section HashingFacts.
Import hashlib hashing.

Lemma hex_digit_lower (d : Z) :
  (0 <= d < 16)%Z -> is_lower_hex (hex_digit d) = true.
Proof.
  intros H.
  assert (Hd : In d [0; 1; 2; 3; 4; 5; 6; 7; 8; 9; 10; 11; 12; 13; 14; 15]%Z).
  { simpl. lia. }
  simpl in Hd.
  repeat (destruct Hd as [<-|Hd]; [reflexivity|]). contradiction.
Qed.

Lemma hex_word_lower (w : Z) :
  forall_chars is_lower_hex (hex_word w) = true /\ String.length (hex_word w) = 8%nat.
Proof.
  unfold hex_word.
  change (rev (seq 0 8)) with [7; 6; 5; 4; 3; 2; 1; 0]%nat.
  cbn [map string_of_list_ascii forall_chars String.length].
  rewrite !hex_digit_lower by (apply Z.mod_pos_bound; lia).
  split; reflexivity.
Qed.

Lemma forall_chars_app (p : ascii -> bool) (s t : string) :
  forall_chars p (s ++ t) = forall_chars p s && forall_chars p t.
Proof.
  induction s as [|a s IH]; simpl; [reflexivity|].
  rewrite IH, andb_assoc. reflexivity.
Qed.

Lemma string_length_app (s t : string) :
  String.length (s ++ t) = (String.length s + String.length t)%nat.
Proof. induction s as [|a s IH]; simpl; [reflexivity|]. rewrite IH. reflexivity. Qed.

Lemma concat_hex_words (ws : list Z) :
  forall_chars is_lower_hex (String.concat EmptyString (map hex_word ws)) = true /\
  String.length (String.concat EmptyString (map hex_word ws)) = (8 * length ws)%nat.
Proof.
  induction ws as [|w ws [IH1 IH2]]; [split; reflexivity|].
  destruct (hex_word_lower w) as [Hc Hl].
  destruct ws as [|w' ws].
  - cbn [map String.concat length]. rewrite Hc, Hl. split; reflexivity.
  - change (String.concat EmptyString (map hex_word (w :: w' :: ws)))
      with (hex_word w ++ EmptyString
            ++ String.concat EmptyString (map hex_word (w' :: ws))).
    rewrite !forall_chars_app, !string_length_app, Hc, Hl, IH1, IH2.
    split; [reflexivity|]. cbn [length String.length]. lia.
Qed.

Lemma round_length (st : list Z) (kw : Z * Z) :
  length (round st kw) = length st.
Proof.
  unfold round.
  destruct st as [|a [|b [|c [|d [|e [|f [|g [|h [|i st]]]]]]]]]; reflexivity.
Qed.

Lemma fold_round_length (kws : list (Z * Z)) (st : list Z) :
  length (fold_left round kws st) = length st.
Proof.
  revert st. induction kws as [|kw kws IH]; intros st; simpl; [reflexivity|].
  rewrite IH. apply round_length.
Qed.

Lemma compress_length (h block : list Z) :
  length (compress h block) = length h.
Proof.
  unfold compress.
  rewrite List.length_map, List.length_combine, fold_round_length. lia.
Qed.

Lemma sha256_words_length (msg : list Z) : length (sha256_words msg) = 8%nat.
Proof.
  unfold sha256_words.
  generalize (chunks (length (words_of (length (pad msg)) (pad msg)))
                (words_of (length (pad msg)) (pad msg))).
  intros blocks.
  assert (H : forall h, length (fold_left compress blocks h) = length h).
  { induction blocks as [|b blocks IH]; intros h; simpl; [reflexivity|].
    rewrite IH. apply compress_length. }
  rewrite H. reflexivity.
Qed.

(** The digest is 64 lowercase hexadecimal digits. *)
Lemma sha256_hexdigest_lower_hex (data : string) :
  forall_chars is_lower_hex (sha256_hexdigest data) = true /\
  String.length (sha256_hexdigest data) = 64%nat.
Proof.
  unfold sha256_hexdigest.
  destruct (concat_hex_words (sha256_words (bytes_of data))) as [Hc Hl].
  rewrite sha256_words_length in Hl. split; assumption.
Qed.

Lemma validate_format_ok (hashes : list string) :
  (forall h, In h hashes -> startswith h "sha256:" = true) ->
  validate_format hashes = Ok tt.
Proof.
  induction hashes as [|h hashes IH]; intros H; [reflexivity|].
  cbn [validate_format]. rewrite (H h) by (left; reflexivity).
  cbn [negb]. apply IH. intros h' Hin. apply H. right. exact Hin.
Qed.

(** C5: for hashes with the prefix, the bundle hash is "sha256:" followed
    by the lowercase hexadecimal SHA-256 digest of the three hashes sorted
    lexicographically and joined with "|", whatever the order in which the
    three are given; in particular (c, a, b) gives what (a, b, c) gives. *)
Theorem compute_bundle_hash_order_independent :
  forall a b c : string,
    startswith a "sha256:" = true ->
    startswith b "sha256:" = true ->
    startswith c "sha256:" = true ->
    exists (l : list string) (digest : string),
      Permutation l [a; b; c] /\
      StronglySorted (fun s t => str_le s t = true) l /\
      digest = sha256_hexdigest (join "|" l) /\
      String.length digest = 64%nat /\
      forall_chars is_lower_hex digest = true /\
      (forall a' b' c', Permutation [a'; b'; c'] [a; b; c] ->
         compute_bundle_hash a' b' c' = Ok ("sha256:" ++ digest)) /\
      compute_bundle_hash c a b = compute_bundle_hash a b c.
Proof.
  intros a b c Ha Hb Hc.
  exists (sorted str_le [a; b; c]), (sha256_hexdigest (join "|" (sorted str_le [a; b; c]))).
  assert (Hall : forall a' b' c', Permutation [a'; b'; c'] [a; b; c] ->
            compute_bundle_hash a' b' c'
            = Ok ("sha256:" ++ sha256_hexdigest (join "|" (sorted str_le [a; b; c])))).
  { intros a' b' c' Hp. unfold compute_bundle_hash.
    rewrite validate_format_ok.
    - cbn [bind].
      rewrite (sorted_perm_eq str_le str_le_total str_le_trans str_le_antisym _ _ Hp).
      reflexivity.
    - intros h Hin. apply (Permutation_in _ Hp) in Hin.
      destruct Hin as [<-|[<-|[<-|[]]]]; assumption. }
  split; [apply sorted_perm|].
  split; [apply sorted_sorted; [apply str_le_total|apply str_le_trans]|].
  split; [reflexivity|].
  destruct (sha256_hexdigest_lower_hex (join "|" (sorted str_le [a; b; c]))) as [H1 H2].
  split; [exact H2|]. split; [exact H1|]. split; [exact Hall|].
  rewrite (Hall a b c) by reflexivity.
  apply Hall.
  apply (Permutation_cons_append [a; b] c).
Qed.

Lemma compute_bundle_hash_order_independent_witness :
  exists (l : list string) (digest : string),
    Permutation l ["sha256:bb"; "sha256:aa"; "sha256:cc"] /\
    StronglySorted (fun s t => str_le s t = true) l /\
    digest = sha256_hexdigest (join "|" l) /\
    String.length digest = 64%nat /\
    forall_chars is_lower_hex digest = true /\
    (forall a' b' c',
       Permutation [a'; b'; c'] ["sha256:bb"; "sha256:aa"; "sha256:cc"] ->
       compute_bundle_hash a' b' c' = Ok ("sha256:" ++ digest)) /\
    compute_bundle_hash "sha256:cc" "sha256:bb" "sha256:aa"
    = compute_bundle_hash "sha256:bb" "sha256:aa" "sha256:cc".
Proof.
  apply (compute_bundle_hash_order_independent "sha256:bb" "sha256:aa" "sha256:cc");
    reflexivity.
Defined.

Example sha256_abc :
  sha256_hexdigest "abc"
  = "ba7816bf8f01cfea414140de5dae2223b00361a396177a9cb410ff61f20015ad".
Proof. vm_compute. reflexivity. Qed.

Example bundle_hash_sample :
  compute_bundle_hash "sha256:bb" "sha256:aa" "sha256:cc"
  = Ok "sha256:9916afe21d899ffc3c49580e45aa605755feb71d40b4da4f49bf50e6a4625fe0".
Proof. vm_compute. reflexivity. Qed.

Example bundle_hash_rejects_other_prefix :
  compute_bundle_hash "sha256:bb" "md5:aa" "sha256:cc"
  = Raise (ValueError "Invalid hash format: md5:aa").
Proof. reflexivity. Qed.

End HashingFacts.

(** ** Column boundaries (table.py) *)

Section ColumnBoundaries.
Import engine table table_spec.
Local Open Scope Q_scope.
Local Open Scope list_scope.




















Example three_columns_boundaries :
  Forall2 Qeq (_detect_column_boundaries 0.05 samples.three_columns) [0.2; 0.35; 0.55] /\
  Forall2 Qeq
    (boundaries_between_centroids 0.05
       (sorted Qleb (map TextBlock.x_min samples.three_columns))) [0.25; 0.55].
Proof. vm_compute. split; repeat constructor. Qed.

End ColumnBoundaries.

(** ** Table cells (table.py) *)

Section TableCells.
Import engine table.
Local Open Scope Q_scope.
Local Open Scope list_scope.

Lemma by_center_x_total (a b : TextBlock.t) :
  by_center_x a b = true \/ by_center_x b a = true.
Proof.
  unfold by_center_x. rewrite !Qleb_le.
  destruct (Qlt_le_dec (TextBlock.center_x b) (TextBlock.center_x a)) as [H|H];
    [right; apply Qlt_le_weak; exact H|left; exact H].
Qed.

Lemma by_center_x_trans (a b c : TextBlock.t) :
  by_center_x a b = true -> by_center_x b c = true -> by_center_x a c = true.
Proof. unfold by_center_x. rewrite !Qleb_le. apply Qle_trans. Qed.

Lemma strongly_sorted_weaken {A : Type} (R R' : A -> A -> Prop) (l : list A) :
  (forall a b, R a b -> R' a b) -> StronglySorted R l -> StronglySorted R' l.
Proof.
  intros HR. induction 1 as [|x l Hs IH Hall]; constructor; [exact IH|].
  eapply List.Forall_impl; [|exact Hall]. intros b. apply HR.
Qed.

(** Every row that [_group_into_rows] returns reads left to right. *)
Lemma group_into_rows_left_to_right (row_tolerance : Q) (blocks row : list TextBlock.t) :
  In row (_group_into_rows row_tolerance blocks) ->
  StronglySorted (fun a b => TextBlock.center_x a <= TextBlock.center_x b) row.
Proof.
  unfold _group_into_rows. destruct (sorted by_center_y blocks) as [|first rest].
  - intros [].
  - intros Hin. apply in_map_iff in Hin as [row0 [<- _]].
    eapply strongly_sorted_weaken;
      [|apply (sorted_sorted by_center_x by_center_x_total by_center_x_trans)].
    intros a b Hab. apply Qleb_le. exact Hab.
Qed.

(** [min(...)] returns an element of the list that is below all of them. *)
Lemma min_from_spec (l : list Q) :
  forall best : Q,
    In (min_from best l) (best :: l) /\
    forall x, In x (best :: l) -> min_from best l <= x.
Proof.
  induction l as [|y l IH]; intros best; cbn [min_from].
  - split; [left; reflexivity|]. intros x [<-|[]]. apply Qle_refl.
  - destruct (IH (if Qltb y best then y else best)) as [Hin Hle]. split.
    + destruct Hin as [Hin|Hin]; [|right; right; exact Hin].
      rewrite <- Hin. destruct (Qltb y best); [right; left|left]; reflexivity.
    + assert (Hb : (if Qltb y best then y else best) <= best
                   /\ (if Qltb y best then y else best) <= y).
      { destruct (Qltb y best) eqn:E.
        - apply Qltb_lt in E. split; [apply Qlt_le_weak; exact E|apply Qle_refl].
        - apply Qltb_ge in E. split; [apply Qle_refl|exact E]. }
      destruct Hb as [Hb1 Hb2].
      assert (Hm : min_from (if Qltb y best then y else best) l
                   <= (if Qltb y best then y else best))
        by (apply Hle; left; reflexivity).
      intros x [<-|[<-|Hx]].
      * eapply Qle_trans; eassumption.
      * eapply Qle_trans; eassumption.
      * apply Hle. right. exact Hx.
Qed.

Lemma append_empty_r (s : string) : (s ++ EmptyString)%string = s.
Proof.
  induction s as [|a s IH]; [reflexivity|].
  change (String a (s ++ EmptyString) = String a s)%string. rewrite IH. reflexivity.
Qed.

Lemma append_assoc (s t u : string) : ((s ++ t) ++ u)%string = (s ++ t ++ u)%string.
Proof.
  induction s as [|a s IH]; [reflexivity|].
  change (String a ((s ++ t) ++ u) = String a (s ++ t ++ u))%string.
  rewrite IH. reflexivity.
Qed.

Lemma concat_cons (x : string) (l : list string) :
  String.concat EmptyString (x :: l) = (x ++ String.concat EmptyString l)%string.
Proof.
  destruct l as [|y l]; cbn [String.concat]; [rewrite append_empty_r|]; reflexivity.
Qed.

(** The text that the later fragments of a cell add to it. *)
Lemma extend_cell_fold (rest : list TextBlock.t) :
  forall cell : TableCell.t,
    TableCell.text (fold_left extend_cell rest cell)
    = (TableCell.text cell
       ++ String.concat EmptyString
            (map (fun b => " " ++ TextBlock.text b) rest))%string /\
    TableCell.blocks (fold_left extend_cell rest cell) = TableCell.blocks cell ++ rest /\
    TableCell.confidence (fold_left extend_cell rest cell) = TableCell.confidence cell /\
    TableCell.row (fold_left extend_cell rest cell) = TableCell.row cell /\
    TableCell.column (fold_left extend_cell rest cell) = TableCell.column cell.
Proof.
  induction rest as [|b rest IH]; intros cell.
  - cbn [fold_left map String.concat]. rewrite append_empty_r, List.app_nil_r.
    repeat split.
  - cbn [fold_left]. destruct (IH (extend_cell cell b)) as (H1 & H2 & H3 & H4 & H5).
    rewrite H1, H2, H3, H4, H5. cbn [extend_cell TableCell.text TableCell.blocks
      TableCell.confidence TableCell.row TableCell.column].
    rewrite <- List.app_assoc. repeat split.
    cbn [map]. rewrite concat_cons, !append_assoc. reflexivity.
Qed.

Lemma join_space (t : string) (rest : list string) :
  join " " (t :: rest)
  = (t ++ String.concat EmptyString (map (fun r => " " ++ r) rest))%string.
Proof.
  revert t. induction rest as [|r rest IH]; intros t.
  - cbn [join map String.concat]. rewrite append_empty_r. reflexivity.
  - change (join " " (t :: r :: rest)) with (t ++ " " ++ join " " (r :: rest))%string.
    rewrite IH. cbn [map]. rewrite concat_cons, !append_assoc. reflexivity.
Qed.


(** The cell of a column after the blocks of a row have been added: the
    blocks of that column, in the order of the row. *)
Lemma fold_add_block (row_idx : nat) (column_positions : list Q) (col : nat)
    (blocks : list TextBlock.t) :
  forall cells : gmap nat TableCell.t,
    fold_left (add_block row_idx column_positions) blocks cells !! col
    = match cells !! col with
      | Some cell =>
          Some (fold_left extend_cell
                  (List.filter (fun b =>
                             (_get_column_index (TextBlock.center_x b) column_positions
                              =? col)%nat) blocks) cell)
      | None =>
          match List.filter (fun b =>
                          (_get_column_index (TextBlock.center_x b) column_positions
                           =? col)%nat) blocks with
          | [] => None
          | first :: others =>
              Some (fold_left extend_cell others (new_cell row_idx col first))
          end
      end.
Proof.
  induction blocks as [|b blocks IH]; intros cells.
  - cbn. destruct (cells !! col); reflexivity.
  - cbn [fold_left List.filter]. rewrite IH. unfold add_block at 1.
    destruct (Nat.eqb_spec (_get_column_index (TextBlock.center_x b) column_positions) col)
      as [Heq|Hne].
    + rewrite Heq. destruct (cells !! col) as [cell|] eqn:E.
      * rewrite lookup_insert_eq. reflexivity.
      * rewrite lookup_insert_eq. reflexivity.
    + destruct (cells !! _get_column_index (TextBlock.center_x b) column_positions);
        rewrite lookup_insert_ne by exact Hne; reflexivity.
Qed.

Lemma nth_error_enumerate_from {A : Type} (l : list A) :
  forall (s i : nat),
    nth_error (combine (seq s (length l)) l) i
    = option_map (fun x => ((s + i)%nat, x)) (nth_error l i).
Proof.
  induction l as [|x l IH]; intros s i.
  - destruct i; reflexivity.
  - destruct i as [|i]; cbn [length seq combine nth_error option_map].
    + rewrite Nat.add_0_r. reflexivity.
    + rewrite IH. rewrite Nat.add_succ_r. reflexivity.
Qed.

Lemma nth_error_build_table_rows (text_rows : list (list TextBlock.t))
    (column_positions : list Q) (row_idx : nat) (row_blocks : list TextBlock.t) :
  nth_error text_rows row_idx = Some row_blocks ->
  nth_error (_build_table_rows text_rows column_positions) row_idx
  = Some (build_row column_positions row_idx row_blocks).
Proof.
  intros H. unfold _build_table_rows, enumerate.
  rewrite List.nth_error_map, nth_error_enumerate_from, H. reflexivity.
Qed.

(** C9, as the code has it: the text of a cell is the texts of the
    fragments of its (row, column), in the left-to-right order of the row,
    joined by single spaces; its [min_confidence] is the least confidence of
    these fragments, while the field [confidence] stays the confidence of
    the first (leftmost) fragment. *)
Theorem table_cell_text_and_min_confidence :
  forall (row_tolerance : Q) (page_blocks : list TextBlock.t)
         (column_positions : list Q) (row_idx : nat)
         (row_blocks : list TextBlock.t) (col : nat),
    nth_error (_group_into_rows row_tolerance page_blocks) row_idx = Some row_blocks ->
    let fragments :=
      List.filter (fun b => (_get_column_index (TextBlock.center_x b) column_positions
                        =? col)%nat) row_blocks in
    StronglySorted (fun a b => TextBlock.center_x a <= TextBlock.center_x b) row_blocks /\
    exists table_row : TableRow.t,
      nth_error (_build_table_rows (_group_into_rows row_tolerance page_blocks)
                   column_positions) row_idx = Some table_row /\
      TableRow.index table_row = row_idx /\
      match fragments with
      | [] => TableRow.get_cell table_row col = None
      | first :: _ =>
          exists cell : TableCell.t,
            TableRow.get_cell table_row col = Some cell /\
            TableCell.text cell = join " " (map TextBlock.text fragments) /\
            TableCell.blocks cell = fragments /\
            TableCell.row cell = row_idx /\
            TableCell.column cell = col /\
            TableCell.confidence cell = TextBlock.confidence first /\
            In (TableCell.min_confidence cell) (map TextBlock.confidence fragments) /\
            (forall b, In b fragments ->
                       TableCell.min_confidence cell <= TextBlock.confidence b)
      end.
Proof.
  intros row_tolerance page_blocks column_positions row_idx row_blocks col Hrow fragments.
  split.
  { eapply group_into_rows_left_to_right. eapply nth_error_In. exact Hrow. }
  exists (build_row column_positions row_idx row_blocks).
  split; [apply nth_error_build_table_rows; exact Hrow|].
  split; [reflexivity|].
  unfold TableRow.get_cell, build_row. cbn [TableRow.cells].
  rewrite fold_add_block, lookup_empty. fold fragments.
  destruct fragments as [|first others]; [reflexivity|].
  exists (fold_left extend_cell others (new_cell row_idx col first)).
  destruct (extend_cell_fold others (new_cell row_idx col first))
    as (H1 & H2 & H3 & H4 & H5).
  cbn [new_cell TableCell.text TableCell.blocks TableCell.confidence TableCell.row
       TableCell.column] in H1, H2, H3, H4, H5.
  split; [reflexivity|].
  split.
  { rewrite H1. cbn [map]. rewrite join_space, List.map_map. reflexivity. }
  split; [exact H2|]. split; [exact H4|]. split; [exact H5|]. split; [exact H3|].
  unfold TableCell.min_confidence. rewrite H2. cbn [app].
  destruct (min_from_spec (map TextBlock.confidence others) (TextBlock.confidence first))
    as [Hin Hle].
  split; [exact Hin|].
  intros b Hb. apply Hle. change (In (TextBlock.confidence b)
    (map TextBlock.confidence (first :: others))). apply in_map. exact Hb.
Qed.

Lemma table_cell_text_and_min_confidence_witness :
  StronglySorted (fun a b => TextBlock.center_x a <= TextBlock.center_x b)
    samples.shared_cell_row /\
  exists table_row : TableRow.t,
    nth_error (_build_table_rows (_group_into_rows 0.015 samples.shared_cell_row)
                 [0.355]) 0 = Some table_row /\
    TableRow.index table_row = 0%nat /\
    exists cell : TableCell.t,
      TableRow.get_cell table_row 0 = Some cell /\
      TableCell.text cell = "Blue widgets" /\
      TableCell.blocks cell
      = [samples.block "Blue" 0.9 0.1 0.1; samples.block "widgets" 0.5 0.12 0.1] /\
      TableCell.row cell = 0%nat /\
      TableCell.column cell = 0%nat /\
      TableCell.confidence cell = 0.9 /\
      In (TableCell.min_confidence cell) [0.9; 0.5] /\
      (forall b,
         In b [samples.block "Blue" 0.9 0.1 0.1; samples.block "widgets" 0.5 0.12 0.1] ->
         TableCell.min_confidence cell <= TextBlock.confidence b).
Proof.
  exact (table_cell_text_and_min_confidence 0.015 samples.shared_cell_row [0.355] 0
           samples.shared_cell_row 0 eq_refl).
Defined.

(** Two fragments share the first cell of the row: the field [confidence]
    of the cell is that of the first fragment, 0.9, and not the least
    confidence of the two, 0.5. *)
Lemma cell_confidence_is_not_the_minimum :
  exists (table_row : TableRow.t) (cell : TableCell.t),
    _build_table_rows (_group_into_rows ROW_TOLERANCE samples.shared_cell_row)
      (_detect_column_boundaries COLUMN_TOLERANCE samples.shared_cell_row)
    = [table_row] /\
    TableRow.get_cell table_row 0 = Some cell /\
    TableCell.text cell = "Blue widgets" /\
    map TextBlock.confidence (TableCell.blocks cell) = [0.9; 0.5] /\
    TableCell.confidence cell = 0.9 /\
    ~ TableCell.confidence cell == 0.5.
Proof.
  eexists. eexists. split; [reflexivity|].
  split; [vm_compute; reflexivity|].
  repeat split. vm_compute. discriminate.
Qed.

End TableCells.

(** ** Strings and patterns *)

Section StringFacts.

Lemma forall_chars_lstrip (p : ascii -> bool) (s : string) :
  forall_chars p s = true -> forall_chars p (lstrip s) = true.
Proof.
  induction s as [|a s IH]; [reflexivity|]. cbn [lstrip].
  destruct (is_space a); [|auto].
  cbn [forall_chars]. intros H. apply andb_true_iff in H as [_ H]. auto.
Qed.

Lemma forall_chars_rstrip (p : ascii -> bool) (s : string) :
  forall_chars p s = true -> forall_chars p (rstrip s) = true.
Proof.
  induction s as [|a s IH]; [reflexivity|]. cbn [rstrip forall_chars].
  intros H. apply andb_true_iff in H as [Ha Hs]. specialize (IH Hs).
  destruct (rstrip s) as [|b t].
  - destruct (is_space a); [reflexivity|]. cbn [forall_chars]. rewrite Ha. reflexivity.
  - cbn [forall_chars] in *. rewrite Ha, IH. reflexivity.
Qed.

Lemma forall_chars_strip (p : ascii -> bool) (s : string) :
  forall_chars p s = true -> forall_chars p (strip s) = true.
Proof. intros H. apply forall_chars_rstrip, forall_chars_lstrip, H. Qed.

(** Dropping occurrences of a text keeps the characters that stay. *)
Lemma forall_chars_replace_from (p : ascii -> bool) (old : string) (s : string) :
  forall skip : nat,
    forall_chars p s = true ->
    forall_chars p (replace_from old EmptyString skip s) = true.
Proof.
  induction s as [|a s IH]; intros skip H; [reflexivity|].
  cbn [forall_chars] in H. apply andb_true_iff in H as [Ha Hs].
  cbn [replace_from]. destruct skip as [|k]; [|apply IH; exact Hs].
  destruct (startswith (String a s) old).
  - change (EmptyString ++ ?x)%string with x. apply IH. exact Hs.
  - cbn [forall_chars]. rewrite Ha. apply IH. exact Hs.
Qed.

Lemma forall_chars_replace_empty (p : ascii -> bool) (s old : string) :
  old <> EmptyString ->
  forall_chars p s = true -> forall_chars p (replace s old EmptyString) = true.
Proof.
  intros Hold H. unfold replace. destruct old as [|b old]; [congruence|].
  apply forall_chars_replace_from. exact H.
Qed.

Lemma forall_chars_filter (p : ascii -> bool) (s : string) :
  forall_chars p (filter_chars p s) = true.
Proof.
  induction s as [|a s IH]; [reflexivity|]. cbn [filter_chars].
  destruct (p a) eqn:E; [|exact IH]. cbn [forall_chars]. rewrite E, IH. reflexivity.
Qed.

(** [re.sub] of a one-character class by the empty string keeps exactly the
    characters outside the class. *)
Lemma sub_chr_delete (p : ascii -> bool) (s : string) :
  re.sub (re.Chr p) (fun _ => EmptyString) s = filter_chars (fun a => negb (p a)) s.
Proof.
  unfold re.sub.
  enough (H : forall pos,
            re.sub_from (re.Chr p) (fun _ => EmptyString) 0 s pos
            = filter_chars (fun a => negb (p a)) s) by apply H.
  induction s as [|a s IH]; intros pos; [reflexivity|].
  cbn [re.sub_from re.match_here re.run filter_chars].
  destruct (p a); cbn [negb re.end_].
  - replace (pos + (String.length (String a s) - String.length s))%nat
      with (S pos) by (cbn [String.length]; lia).
    replace (S pos - pos - 1)%nat with 0%nat by lia.
    replace (S pos =? pos)%nat with false by (symmetry; apply Nat.eqb_neq; lia).
    change (EmptyString ++ ?x)%string with x. apply IH.
  - rewrite IH. reflexivity.
Qed.

End StringFacts.

(** ** Decimal parsing (decimal.Decimal) *)

Section DecimalFacts.
Import decimal normalize.
Local Open Scope Q_scope.

Lemma span_digits_digits (s : string) :
  forall_chars is_digit (fst (span_digits s)) = true.
Proof.
  induction s as [|a s IH]; [reflexivity|]. cbn [span_digits].
  destruct (is_digit a) eqn:E; [|reflexivity].
  destruct (span_digits s) as [d r]. cbn [fst forall_chars] in *.
  rewrite E, IH. reflexivity.
Qed.

Lemma digits_value_nonneg (s : string) :
  forall acc : Z,
    forall_chars is_digit s = true -> (0 <= acc)%Z -> (0 <= digits_value s acc)%Z.
Proof.
  induction s as [|a s IH]; intros acc H Hacc; [exact Hacc|].
  cbn [forall_chars] in H. apply andb_true_iff in H as [Ha Hs].
  cbn [digits_value]. apply IH; [exact Hs|].
  unfold is_digit, in_range in Ha. apply andb_true_iff in Ha as [Hlo _].
  apply Nat.leb_le in Hlo. lia.
Qed.

(** A number without a sign is not negative. *)
Lemma parse_number_nonneg (body : string) (q : Q) :
  parse_number body = Some q -> 0 <= q.
Proof.
  unfold parse_number.
  pose proof (span_digits_digits body) as Hint.
  destruct (span_digits body) as [int_part rest1]. cbn [fst] in Hint.
  assert (Hgen : forall (has_digits : bool) (frac rest2 : string),
            forall_chars is_digit frac = true ->
            (if has_digits
             then match parse_exponent rest2 with
                  | Some e =>
                      Some (inject_Z (int_of_digits (int_part ++ frac))
                            * Qpower 10 (e - Z.of_nat (String.length frac)))
                  | None => None
                  end
             else None) = Some q -> 0 <= q).
  { intros has_digits frac rest2 Hfrac. destruct has_digits; [|discriminate].
    destruct (parse_exponent rest2) as [e|]; [|discriminate].
    intros [= <-]. apply Qmult_le_0_compat.
    - change 0 with (inject_Z 0). rewrite <- Zle_Qle. unfold int_of_digits.
      apply digits_value_nonneg; [|lia].
      rewrite forall_chars_app, Hint, Hfrac. reflexivity.
    - apply Qpower_0_le. discriminate. }
  destruct rest1 as [|c r]; [apply Hgen; reflexivity|].
  destruct (Ascii.eqb c ".") eqn:Ec.
  - apply Ascii.eqb_eq in Ec. subst c.
    pose proof (span_digits_digits r) as Hfr.
    destruct (span_digits r) as [fr r2]. cbn [fst] in Hfr.
    apply Hgen. exact Hfr.
  - assert (Hc : c <> "."%char) by (apply Ascii.eqb_neq; exact Ec).
    destruct c as [[] [] [] [] [] [] [] []]; try (apply Hgen; reflexivity).
    congruence.
Qed.

Lemma digit_or_point_facts (a : ascii) :
  digit_or_point a = true ->
  lower_ascii a = a /\
  Ascii.eqb a "i" = false /\ Ascii.eqb a "n" = false /\ Ascii.eqb a "s" = false /\
  a <> "-"%char /\ a <> "+"%char.
Proof.
  destruct a as [[] [] [] [] [] [] [] []]; vm_compute; intros H;
    try discriminate H; repeat split; discriminate.
Qed.

Lemma split_sign_unsigned (s : string) :
  forall_chars digit_or_point s = true -> split_sign s = (false, s).
Proof.
  destruct s as [|a r]; [reflexivity|]. cbn [forall_chars].
  intros H. apply andb_true_iff in H as [Ha _].
  destruct (digit_or_point_facts a Ha) as (_ & _ & _ & _ & Hm & Hp).
  destruct a as [[] [] [] [] [] [] [] []]; try reflexivity; congruence.
Qed.

(** [Decimal(s)] for a text of digits and points: a finite decimal that is
    not negative, or [InvalidOperation]. *)
Lemma of_string_digits_and_points (s : string) :
  forall_chars digit_or_point s = true ->
  (exists q, of_string s = Ok (Finite q) /\ 0 <= q) \/ of_string s = Raise InvalidOperation.
Proof.
  intros H. unfold of_string.
  assert (Hs : forall_chars digit_or_point (replace (strip s) "_" EmptyString) = true).
  { apply forall_chars_replace_empty; [discriminate|]. apply forall_chars_strip, H. }
  rewrite (split_sign_unsigned _ Hs).
  destruct (replace (strip s) "_" EmptyString) as [|a r] eqn:E.
  - right. reflexivity.
  - cbn [forall_chars] in Hs. apply andb_true_iff in Hs as [Ha Hr].
    destruct (digit_or_point_facts a Ha) as (Hl & Hi & Hn & Hsn & _ & _).
    cbn [lower]. rewrite Hl.
    assert (E1 : String.eqb (String a (lower r)) "inf" = false).
    { cbn [String.eqb]. rewrite Hi. reflexivity. }
    assert (E2 : String.eqb (String a (lower r)) "infinity" = false).
    { cbn [String.eqb]. rewrite Hi. reflexivity. }
    assert (E3 : is_nan_text (String a (lower r)) = false).
    { unfold is_nan_text. cbn [startswith]. rewrite Hn, Hsn. reflexivity. }
    rewrite E1, E2, E3. cbn [orb].
    destruct (parse_number (String a r)) as [q|] eqn:Ep; [|right; reflexivity].
    left. exists q. split; [reflexivity|]. eapply parse_number_nonneg. exact Ep.
Qed.


Lemma lt_only_invalid_operation (a b : Decimal) (e : exn) :
  lt a b = Raise e -> e = InvalidOperation.
Proof.
  destruct a, b; cbn; try discriminate; intros [= <-]; reflexivity.
Qed.

End DecimalFacts.

(** ** The field normalizer (normalize.py) *)

Section NormalizerFacts.
Import decimal normalize _strptime.
Local Open Scope Q_scope.

Lemma filter_chars_ext (p q : ascii -> bool) (s : string) :
  (forall a, p a = q a) -> filter_chars p s = filter_chars q s.
Proof.
  intros H. induction s as [|a s IH]; [reflexivity|].
  cbn [filter_chars]. rewrite H, IH. reflexivity.
Qed.

(** After the last cleaning step only digits and points are left. *)
Lemma clean_amount_digits_and_points (text : string) :
  forall_chars digit_or_point (clean_amount text) = true.
Proof.
  unfold clean_amount, not_numeric. rewrite sub_chr_delete.
  rewrite (filter_chars_ext _ digit_or_point) by (intros a; apply negb_involutive).
  apply forall_chars_filter.
Qed.

(** The [try] block of [normalize_amount] on a text of digits and points. *)
Lemma parse_amount_cases (cleaned : string) :
  forall_chars digit_or_point cleaned = true ->
  (of_string cleaned = Raise InvalidOperation /\
   parse_amount cleaned = Ok (Finite 0, ["Parse error"]))
  \/ (exists q, of_string cleaned = Ok (Finite q) /\ 0 <= q /\
        parse_amount cleaned
        = Ok (Finite q,
              if Qltb 1000000000 q then ["Unusually large amount"] else [])).
Proof.
  intros H. unfold parse_amount.
  destruct (of_string_digits_and_points cleaned H) as [[q [Hq Hpos]]|Hr].
  - right. exists q. split; [exact Hq|]. split; [exact Hpos|].
    rewrite Hq. cbn [bind try_except lt gt].
    assert (Hn : Qltb q 0 = false) by (apply Qltb_ge; exact Hpos).
    rewrite Hn. cbn [bind]. destruct (Qltb 1000000000 q); reflexivity.
  - left. split; [exact Hr|]. rewrite Hr. reflexivity.
Qed.

(** C10: the value that [normalize_amount] returns is never negative: the
    cleaned text holds only digits and points, so the value is a finite
    decimal at least 0, and the list of soft errors never holds "Negative
    amount detected".  A field is returned for every confidence within
    [0, 1]. *)
Theorem normalize_amount_never_negative :
  forall (text : string) (confidence : Q) (bounding_box : option BoundingBox.t),
    forall_chars digit_or_point (clean_amount text) = true /\
    (forall f, normalize_amount text confidence bounding_box = Ok f ->
       exists q, ExtractedField.value f = Finite q /\ 0 <= q) /\
    (0 <= confidence <= 1 ->
       exists f, normalize_amount text confidence bounding_box = Ok f) /\
    ~ In "Negative amount detected" (normalize_amount_errors text).
Proof.
  intros text confidence bounding_box.
  pose proof (clean_amount_digits_and_points text) as Hc.
  split; [exact Hc|].
  unfold normalize_amount, normalize_amount_errors.
  destruct (parse_amount_cases _ Hc) as [[_ Hp]|[q [_ [Hpos Hp]]]]; rewrite Hp.
  - split; [|split].
    + cbn [bind]. intros f Hf. apply new_inv in Hf as [_ ->].
      exists 0. split; [reflexivity|]. apply Qle_refl.
    + cbn [bind]. intros Hconf. eexists. apply new_ok. exact Hconf.
    + intros [H|[]]. discriminate.
  - split; [|split].
    + cbn [bind]. intros f Hf. apply new_inv in Hf as [_ ->].
      exists q. split; [reflexivity|exact Hpos].
    + cbn [bind]. intros Hconf. eexists. apply new_ok. exact Hconf.
    + destruct (Qltb 1000000000 q); [intros [H|[]]; discriminate|intros []].
Qed.

Example amount_with_minus_sign_is_positive :
  forall f, normalize_amount "-5.00" 0.9 None = Ok f ->
            ExtractedField.value f = Finite 5.00.
Proof. intros f [= <-]. reflexivity. Qed.


Lemma new_date_only_value_error (y m d : Z) (e : exn) :
  new_date y m d = Raise e -> exists msg, e = ValueError msg.
Proof.
  unfold new_date. destruct (_ && _)%bool; [discriminate|]. intros [= <-]. eauto.
Qed.

Lemma strptime_only_value_error (data_string : string) (fmt : format) (e : exn) :
  strptime data_string fmt = Raise e -> exists msg, e = ValueError msg.
Proof.
  unfold strptime. destruct (re.match_ _ _) as [found|]; [|intros [= <-]; eauto].
  destruct (negb _); [intros [= <-]; eauto|]. apply new_date_only_value_error.
Qed.



Lemma try_formats_all_fail (formats : list format) (cleaned : string) (confidence : Q)
    (bounding_box : option BoundingBox.t) (raw_text : string) :
  (forall fmt, In fmt formats -> is_ok (strptime cleaned fmt) = false) ->
  try_formats formats cleaned confidence bounding_box raw_text = None.
Proof.
  induction formats as [|fmt formats IH]; intros H; [reflexivity|].
  cbn [try_formats].
  destruct (strptime cleaned fmt) as [parsed|e] eqn:E.
  - specialize (H fmt (or_introl eq_refl)). rewrite E in H. discriminate.
  - destruct (strptime_only_value_error _ _ _ E) as [msg ->]. cbn [bind].
    apply IH. intros fmt' Hin. apply H. right. exact Hin.
Qed.






Example unparseable_date_is_sentinel :
  normalize_date (samples.day 2026 11 4) "no date here" 0.9 None
  = Ok {| ExtractedField.value := samples.day 2026 11 4;
          ExtractedField.confidence := 0.0;
          ExtractedField.bounding_box := None;
          ExtractedField.raw_text := Some "no date here" |}.
Proof. vm_compute. reflexivity. Qed.

Example date_with_confidence_out_of_range_is_sentinel :
  normalize_date (samples.day 2026 11 4) "2024-01-15" 1.5 None
  = Ok {| ExtractedField.value := samples.day 2026 11 4;
          ExtractedField.confidence := 0.0;
          ExtractedField.bounding_box := None;
          ExtractedField.raw_text := Some "2024-01-15" |}.
Proof. vm_compute. reflexivity. Qed.

(** C4, as the code has it: a date that no explicit format parses and that
    the loose day/month/year pattern does (day then month first, month then
    day otherwise) comes back with 0.8 times the confidence given. *)
Theorem normalize_date_fallback_confidence :
  forall (today : date) (text : string) (confidence : Q)
         (bounding_box : option BoundingBox.t) (date_match : re.Match) (d : date),
    0 <= confidence <= 1 ->
    (forall fmt, In fmt DATE_FORMATS ->
       is_ok (strptime (_fix_ocr_errors (strip text)) fmt) = false) ->
    re.search loose_date (_fix_ocr_errors (strip text)) = Some date_match ->
    loose_date_value date_match = Ok d ->
    (exists f,
       normalize_date today text confidence bounding_box = Ok f /\
       ExtractedField.value f = d /\
       ExtractedField.confidence f = confidence * 0.8 /\
       ExtractedField.raw_text f = Some text) /\
    (let day_first := group_int date_match 1 in
     let month_second := group_int date_match 2 in
     let y := group_int date_match 3 in
     let year := if (y <? 100)%Z then (y + 2000)%Z else y in
     d = {| year := year; month := month_second; day := day_first |}
     \/ (is_ok (new_date year month_second day_first) = false /\
         d = {| year := year; month := day_first; day := month_second |})).
Proof.
  intros today text confidence bounding_box date_match d Hc Hfmt Hsearch Hd. split.
  - unfold normalize_date.
    rewrite (try_formats_all_fail _ _ _ _ _ Hfmt), Hsearch, Hd. cbn [bind].
    assert (Hc' : 0 <= confidence * 0.8 <= 1).
    { destruct Hc as [H0 H1]. split; lra. }
    rewrite (new_ok _ _ _ _ Hc'). eexists. repeat split.
  - cbv zeta. unfold loose_date_value, try_except in Hd.
    destruct (new_date _ (group_int date_match 2) (group_int date_match 1))
      as [d1|e1] eqn:E1.
    + left. injection Hd as <-. unfold new_date in E1.
      destruct (_ && _)%bool; [|discriminate]. injection E1 as <-. reflexivity.
    + right. split; [reflexivity|].
      destruct (new_date_only_value_error _ _ _ _ E1) as [msg ->].
      unfold new_date in Hd. destruct (_ && _)%bool; [|discriminate].
      injection Hd as <-. reflexivity.
Qed.

Lemma no_explicit_format_parses_dotted_date :
  forall fmt, In fmt DATE_FORMATS ->
              is_ok (strptime (_fix_ocr_errors (strip "15.01.2024")) fmt) = false.
Proof.
  intros fmt Hin. cbn [DATE_FORMATS In] in Hin.
  repeat (destruct Hin as [<-|Hin]; [vm_compute; reflexivity|]). contradiction.
Qed.

Lemma normalize_date_fallback_confidence_witness :
  (exists f,
     normalize_date (samples.day 2026 11 4) "15.01.2024" 1 None = Ok f /\
     ExtractedField.value f = samples.day 2024 1 15 /\
     ExtractedField.confidence f = 1 * 0.8 /\
     ExtractedField.raw_text f = Some "15.01.2024") /\
  (samples.day 2024 1 15 = samples.day 2024 1 15
   \/ (is_ok (new_date 2024 1 15) = false
       /\ samples.day 2024 1 15 = samples.day 2024 15 1)).
Proof.
  refine (normalize_date_fallback_confidence (samples.day 2026 11 4) "15.01.2024" 1 None
            {| re.start := 0; re.end_ := 10; re.text := "15.01.2024";
               re.groups := [(3%nat, "2024"); (2%nat, "01"); (1%nat, "15")] |}
            (samples.day 2024 1 15) _ no_explicit_format_parses_dotted_date _ _).
  - split; discriminate.
  - vm_compute. reflexivity.
  - vm_compute. reflexivity.
Defined.

(** The fallback gives 0.8 of the confidence, not half of it. *)
Lemma fallback_confidence_is_not_half :
  forallb (fun fmt => negb (is_ok (strptime (_fix_ocr_errors (strip "15.01.2024")) fmt)))
    DATE_FORMATS = true /\
  normalize_date (samples.day 2026 11 4) "15.01.2024" 1 None
  = Ok {| ExtractedField.value := samples.day 2024 1 15;
          ExtractedField.confidence := 1 * 0.8;
          ExtractedField.bounding_box := None;
          ExtractedField.raw_text := Some "15.01.2024" |} /\
  ~ 1 * 0.8 == 1 * 0.5.
Proof.
  split; [vm_compute; reflexivity|]. split; [vm_compute; reflexivity|]. discriminate.
Qed.

End NormalizerFacts.

(** ** The pattern matcher (re) *)

Section RegexFacts.
Import re re_language.
Local Open Scope list_scope.

(** What the matcher returns comes from a match of the pattern, handed to
    the continuation. *)
Lemma run_sound {R : Type} (r : regex) :
  forall (s : string) (c : captures) (k : string -> captures -> option R) (x : R),
    run r s c k = Some x ->
    exists s' n, Matches r s s' n /\ k s' (n ++ c) = Some x.
Proof.
  induction r as [|p|r1 IH1 r2 IH2|r1 IH1 r2 IH2|r1 IH1|g r1 IH1]; intros s c k x H.
  - exists s, []. split; [constructor|exact H].
  - cbn [run] in H. destruct s as [|a s]; [discriminate|].
    destruct (p a) eqn:E; [|discriminate].
    exists s, []. split; [constructor; exact E|exact H].
  - cbn [run] in H. apply IH1 in H as [s1 [n1 [M1 H]]].
    apply IH2 in H as [s2 [n2 [M2 H]]].
    exists s2, (n2 ++ n1). split; [econstructor; eassumption|].
    rewrite <- List.app_assoc. exact H.
  - cbn [run] in H. destruct (run r1 s c k) as [y|] eqn:E.
    + injection H as ->. apply IH1 in E as [s' [n [M E]]].
      exists s', n. split; [apply MAltL; exact M|exact E].
    + apply IH2 in H as [s' [n [M H]]].
      exists s', n. split; [apply MAltR; exact M|exact H].
  - cbn [run] in H. revert H. generalize (String.length s) at 1. intros fuel.
    revert s c x. induction fuel as [|fuel IHf]; intros s c x H.
    + exists s, []. split; [constructor|exact H].
    + match type of H with
      | match ?e with _ => _ end = _ => destruct e as [y|] eqn:E
      end.
      * injection H as ->. apply IH1 in E as [s1 [n1 [M1 E]]].
        destruct (String.length s1 <? String.length s)%nat eqn:Hlt; [|discriminate].
        apply IHf in E as [s2 [n2 [M2 E]]].
        exists s2, (n2 ++ n1). split.
        -- eapply MStarS; [exact M1|apply Nat.ltb_lt; exact Hlt|exact M2].
        -- rewrite <- List.app_assoc. exact E.
      * exists s, []. split; [constructor|exact H].
  - cbn [run] in H. apply IH1 in H as [s' [n [M H]]].
    exists s', ((g, take (String.length s - String.length s') s) :: n).
    split; [constructor; exact M|exact H].
Qed.

(** A match after which the continuation succeeds makes the matcher
    succeed. *)
Lemma run_complete {R : Type} (r : regex) :
  forall (s s' : string) (n : captures),
    Matches r s s' n ->
    forall k : string -> captures -> option R,
      (forall c', k s' c' <> None) -> forall c, run r s c k <> None.
Proof.
  induction r as [|p|r1 IH1 r2 IH2|r1 IH1 r2 IH2|r1 IH1|g r1 IH1]; intros s s' n M.
  - inversion M; subst. intros k Hk c. apply Hk.
  - inversion M; subst. intros k Hk c. cbn [run].
    match goal with E : p _ = true |- _ => rewrite E end. apply Hk.
  - inversion M; subst. intros k Hk c. cbn [run].
    eapply IH1; [eassumption|]. intros c'. eapply IH2; eassumption.
  - intros k Hk c. cbn [run]. destruct (run r1 s c k) eqn:E; [discriminate|].
    inversion M; subst.
    + exfalso. eapply IH1; eassumption.
    + eapply IH2; eassumption.
  - intros k Hk c. cbn [run].
    assert (Hfuel : (String.length s <= String.length s)%nat) by lia.
    revert Hfuel. generalize (String.length s) at 2 3. intros fuel Hfuel.
    revert fuel c Hfuel. remember (Star r1) as r0 eqn:Er.
    induction M as [| | | | |r s|r s s1 s2 n1 n2 M1 _ Hlt M2 IHM|]; try discriminate Er;
      injection Er as ->; intros fuel c Hfuel.
    + destruct fuel as [|fuel]; [apply Hk|].
      match goal with
      | |- match ?e with _ => _ end <> _ => destruct e
      end; [discriminate|apply Hk].
    + destruct fuel as [|fuel]; [lia|].
      match goal with
      | |- match ?e with _ => _ end <> _ => destruct e eqn:E
      end; [discriminate|].
      exfalso. revert E. eapply IH1; [exact M1|].
      intros c'. pose proof Hlt as Hb. apply Nat.ltb_lt in Hb. rewrite Hb.
      apply IHM; [reflexivity|exact Hk|lia].
  - inversion M; subst. intros k Hk c. cbn [run].
    eapply IH1; [eassumption|]. intros c'. apply Hk.
Qed.




(** The text of a match is a prefix of the subject, made of characters of
    the classes of the pattern. *)
Lemma matches_prefix (r : regex) (s s' : string) (n : captures) :
  Matches r s s' n ->
  exists u, s = (u ++ s')%string /\
            forall P, chars_in P r -> forall_chars P u = true.
Proof.
  induction 1 as [s|p a s E|r1 r2 s s1 s2 n1 n2 _ IH1 _ IH2|r1 r2 s s' n _ IH
                  |r1 r2 s s' n _ IH|r s|r s s1 s2 n1 n2 _ IH1 _ _ IH2|g r s s' n _ IH].
  - exists EmptyString. split; reflexivity.
  - exists (String a EmptyString). split; [reflexivity|].
    intros P HP. cbn [forall_chars chars_in] in *. rewrite (HP a E). reflexivity.
  - destruct IH1 as [u1 [-> H1]]. destruct IH2 as [u2 [-> H2]].
    exists (u1 ++ u2)%string. split; [symmetry; apply append_assoc|].
    intros P [HP1 HP2]. rewrite forall_chars_app, (H1 P HP1), (H2 P HP2). reflexivity.
  - destruct IH as [u [-> H]]. exists u. split; [reflexivity|].
    intros P [HP _]. apply H, HP.
  - destruct IH as [u [-> H]]. exists u. split; [reflexivity|].
    intros P [_ HP]. apply H, HP.
  - exists EmptyString. split; reflexivity.
  - destruct IH1 as [u1 [-> H1]]. destruct IH2 as [u2 [-> H2]].
    exists (u1 ++ u2)%string. split; [symmetry; apply append_assoc|].
    intros P HP. rewrite forall_chars_app, (H1 P HP), (H2 P HP). reflexivity.
  - destruct IH as [u [-> H]]. exists u. split; [reflexivity|exact H].
Qed.




(** A match object comes from a match of the pattern at the head of the
    subject. *)
Lemma match_here_sound (r : regex) (s : string) (pos : nat) (m : Match) :
  match_here r s pos = Some m ->
  exists s' n,
    Matches r s s' n /\
    m = {| start := pos; end_ := (pos + (String.length s - String.length s'))%nat;
           text := take (String.length s - String.length s') s; groups := n |}.
Proof.
  unfold match_here. intros H. apply run_sound in H as [s' [n [M H]]].
  exists s', n. split; [exact M|].
  rewrite List.app_nil_r in H. injection H as <-. reflexivity.
Qed.

Lemma match_here_complete (r : regex) (s s' : string) (n : captures) (pos : nat) :
  Matches r s s' n -> match_here r s pos <> None.
Proof.
  intros M. unfold match_here. eapply run_complete; [exact M|]. discriminate.
Qed.


End RegexFacts.

(** ** The text of an amount and its value *)

Section AmountParsing.
Import decimal normalize extractor.
Local Open Scope Q_scope.


Lemma filter_chars_id (f : ascii -> bool) (s : string) :
  forall_chars f s = true -> filter_chars f s = s.
Proof.
  induction s as [|a s IH]; [reflexivity|]. cbn [forall_chars filter_chars].
  intros H. apply andb_true_iff in H as [Ha Hs]. rewrite Ha, (IH Hs). reflexivity.
Qed.


Lemma forall_chars_impl (P Q : ascii -> bool) (s : string) :
  (forall a, P a = true -> Q a = true) ->
  forall_chars P s = true -> forall_chars Q s = true.
Proof.
  intros HPQ. induction s as [|a s IH]; [reflexivity|]. cbn [forall_chars].
  intros H. apply andb_true_iff in H as [Ha Hs]. rewrite (HPQ a Ha), (IH Hs). reflexivity.
Qed.

Lemma forall_chars_and (P Q : ascii -> bool) (s : string) :
  forall_chars P s = true -> forall_chars Q s = true ->
  forall_chars (fun a => P a && Q a) s = true.
Proof.
  induction s as [|a s IH]; [reflexivity|]. cbn [forall_chars].
  intros H1 H2. apply andb_true_iff in H1 as [Pa Ps]. apply andb_true_iff in H2 as [Qa Qs].
  rewrite Pa, Qa, (IH Ps Qs). reflexivity.
Qed.

















End AmountParsing.


(** ** Amount extraction (extractor.py) *)

Section ExtractorFacts.
Import decimal engine extractor.
Local Open Scope Q_scope.

































Example unlabeled_amount_is_the_largest :
  extract_amount (samples.scan ["Invoice 12"; "Sum $50.00 and 70 USD"]) ["total"] false
  = Ok {| ExtractedField.value := Finite 70; ExtractedField.confidence := 0.6;
          ExtractedField.bounding_box := None; ExtractedField.raw_text := Some "70" |}.
Proof. vm_compute. reflexivity. Qed.

End ExtractorFacts.

(** ** Document hashes (hashing.py) and the integrity check (storage.py) *)

Section DocumentHashes.
Import hashlib hashing.

Lemma startswith_app (p s : string) : startswith (p ++ s) p = true.
Proof.
  induction p as [|a p IH]; [destruct s; reflexivity|].
  change (startswith (String a (p ++ s)) (String a p) = true).
  cbn [startswith]. rewrite Ascii.eqb_refl, IH. reflexivity.
Qed.

Lemma compute_document_hash_ok (content : string) :
  content <> EmptyString ->
  compute_document_hash content = Ok ("sha256:" ++ sha256_hexdigest content).
Proof. destruct content; [congruence|reflexivity]. Qed.

Lemma prefixed_digest_length (data : string) :
  String.length ("sha256:" ++ sha256_hexdigest data) = 71%nat.
Proof.
  rewrite string_length_app.
  destruct (sha256_hexdigest_lower_hex data) as [_ ->]. reflexivity.
Qed.

(** X1: checking a document against the hash computed from it succeeds,
    and no other expected hash is accepted for it. *)
Theorem verify_hash_accepts_exactly_the_document_hash :
  forall content : string,
    content <> EmptyString ->
    exists h,
      compute_document_hash content = Ok h /\
      verify_hash content h = Ok true /\
      forall expected_hash, verify_hash content expected_hash = Ok true <-> expected_hash = h.
Proof.
  intros content Hne. exists ("sha256:" ++ sha256_hexdigest content)%string.
  pose proof (compute_document_hash_ok content Hne) as Hh.
  split; [exact Hh|].
  assert (Hself : verify_hash content ("sha256:" ++ sha256_hexdigest content) = Ok true).
  { unfold verify_hash. rewrite startswith_app, Hh. cbn [negb bind].
    rewrite String.eqb_refl. reflexivity. }
  split; [exact Hself|]. intros expected_hash. split.
  - unfold verify_hash. destruct (startswith expected_hash "sha256:"); [|discriminate].
    rewrite Hh. cbn [negb bind].
    remember ("sha256:" ++ sha256_hexdigest content)%string as actual eqn:Ea.
    destruct (String.eqb_spec actual expected_hash) as [E|_]; [|discriminate].
    intros _. symmetry. exact E.
  - intros ->. exact Hself.
Qed.

Lemma verify_hash_accepts_exactly_the_document_hash_witness :
  exists h,
    compute_document_hash "invoice" = Ok h /\
    verify_hash "invoice" h = Ok true /\
    forall expected_hash, verify_hash "invoice" expected_hash = Ok true <-> expected_hash = h.
Proof.
  apply (verify_hash_accepts_exactly_the_document_hash "invoice"). discriminate.
Defined.

(** X2: [verify_hash] tests the prefix first: an expected hash without
    "sha256:" raises [ValueError] whatever the content; with the prefix, an
    empty content raises the [ValueError] of [compute_document_hash] rather
    than giving [False]; any other content gives a boolean. *)
Theorem verify_hash_error_cases :
  forall content expected_hash : string,
    (startswith expected_hash "sha256:" = false ->
       exists msg, verify_hash content expected_hash = Raise (ValueError msg)) /\
    (startswith expected_hash "sha256:" = true -> content = EmptyString ->
       verify_hash content expected_hash = Raise (ValueError "Cannot hash empty content")) /\
    (startswith expected_hash "sha256:" = true -> content <> EmptyString ->
       verify_hash content expected_hash
       = Ok (String.eqb ("sha256:" ++ sha256_hexdigest content) expected_hash)).
Proof.
  intros content expected_hash. unfold verify_hash. split; [|split].
  - intros ->. eexists. reflexivity.
  - intros -> ->. reflexivity.
  - intros -> Hne. rewrite (compute_document_hash_ok content Hne). reflexivity.
Qed.

(** X3: the hash of a document is "sha256:" followed by 64 lowercase
    hexadecimal digits, so the hashes of three documents are always accepted
    by [compute_bundle_hash], whose result has the same form. *)
Theorem document_hashes_combine_into_bundle_hash :
  forall invoice po pod : string,
    invoice <> EmptyString -> po <> EmptyString -> pod <> EmptyString ->
    exists invoice_hash po_hash pod_hash bundle_hash digest,
      compute_document_hash invoice = Ok invoice_hash /\
      compute_document_hash po = Ok po_hash /\
      compute_document_hash pod = Ok pod_hash /\
      (forall h, In h [invoice_hash; po_hash; pod_hash] ->
         startswith h "sha256:" = true /\ String.length h = 71%nat /\
         forall_chars is_lower_hex (drop 7 h) = true) /\
      compute_bundle_hash invoice_hash po_hash pod_hash = Ok bundle_hash /\
      bundle_hash = ("sha256:" ++ digest)%string /\
      String.length digest = 64%nat /\
      forall_chars is_lower_hex digest = true.
Proof.
  intros invoice po pod Hi Hp Hd.
  set (hash_of := fun content => ("sha256:" ++ sha256_hexdigest content)%string).
  assert (Hform : forall content,
            startswith (hash_of content) "sha256:" = true /\
            String.length (hash_of content) = 71%nat /\
            forall_chars is_lower_hex (drop 7 (hash_of content)) = true).
  { intros content. split; [apply startswith_app|]. split; [apply prefixed_digest_length|].
    change (drop 7 (hash_of content)) with (sha256_hexdigest content).
    apply sha256_hexdigest_lower_hex. }
  exists (hash_of invoice), (hash_of po), (hash_of pod).
  eexists. eexists.
  split; [apply compute_document_hash_ok, Hi|].
  split; [apply compute_document_hash_ok, Hp|].
  split; [apply compute_document_hash_ok, Hd|].
  split.
  { intros h [<-|[<-|[<-|[]]]]; apply Hform. }
  unfold compute_bundle_hash. rewrite validate_format_ok.
  - cbn [bind]. split; [reflexivity|]. split; [reflexivity|].
    split; apply sha256_hexdigest_lower_hex.
  - intros h [<-|[<-|[<-|[]]]]; apply Hform.
Qed.

Lemma document_hashes_combine_into_bundle_hash_witness :
  exists invoice_hash po_hash pod_hash bundle_hash digest,
    compute_document_hash "invoice" = Ok invoice_hash /\
    compute_document_hash "order" = Ok po_hash /\
    compute_document_hash "delivery" = Ok pod_hash /\
    (forall h, In h [invoice_hash; po_hash; pod_hash] ->
       startswith h "sha256:" = true /\ String.length h = 71%nat /\
       forall_chars is_lower_hex (drop 7 h) = true) /\
    compute_bundle_hash invoice_hash po_hash pod_hash = Ok bundle_hash /\
    bundle_hash = ("sha256:" ++ digest)%string /\
    String.length digest = 64%nat /\
    forall_chars is_lower_hex digest = true.
Proof.
  apply (document_hashes_combine_into_bundle_hash "invoice" "order" "delivery");
    discriminate.
Defined.

(** X4: [compute_bundle_hash] returns a hash exactly when the three
    arguments carry the prefix "sha256:"; otherwise it raises [ValueError]
    naming the first argument without it, in the order invoice, purchase
    order, proof of delivery. *)
Theorem compute_bundle_hash_names_first_bad_hash :
  forall invoice_hash po_hash pod_hash : string,
    let ok h := startswith h "sha256:" in
    (is_ok (compute_bundle_hash invoice_hash po_hash pod_hash) = true
     <-> ok invoice_hash = true /\ ok po_hash = true /\ ok pod_hash = true) /\
    (ok invoice_hash = false ->
       compute_bundle_hash invoice_hash po_hash pod_hash
       = Raise (ValueError ("Invalid hash format: " ++ invoice_hash))) /\
    (ok invoice_hash = true -> ok po_hash = false ->
       compute_bundle_hash invoice_hash po_hash pod_hash
       = Raise (ValueError ("Invalid hash format: " ++ po_hash))) /\
    (ok invoice_hash = true -> ok po_hash = true -> ok pod_hash = false ->
       compute_bundle_hash invoice_hash po_hash pod_hash
       = Raise (ValueError ("Invalid hash format: " ++ pod_hash))).
Proof.
  intros invoice_hash po_hash pod_hash ok. unfold ok, compute_bundle_hash.
  cbn [validate_format].
  destruct (startswith invoice_hash "sha256:"), (startswith po_hash "sha256:"),
    (startswith pod_hash "sha256:"); cbn [negb bind is_ok];
    repeat split; intros; try discriminate; try reflexivity; try tauto;
    repeat match goal with H : _ /\ _ |- _ => destruct H end; discriminate.
Qed.

(** X5: [get_document] hands back the retrieved content when no hash, or
    an empty one, is expected, and when the content has the expected hash;
    with any other expected hash that carries the prefix it raises
    [ValueError] "Document integrity check failed". *)
Theorem get_document_checks_integrity :
  forall content expected_hash : string,
    content <> EmptyString ->
    storage.get_document (Ok content) None = Ok content /\
    storage.get_document (Ok content) (Some EmptyString) = Ok content /\
    (compute_document_hash content = Ok expected_hash ->
       storage.get_document (Ok content) (Some expected_hash) = Ok content) /\
    (startswith expected_hash "sha256:" = true ->
     compute_document_hash content <> Ok expected_hash ->
       storage.get_document (Ok content) (Some expected_hash)
       = Raise (ValueError "Document integrity check failed")) /\
    (forall e, storage.get_document (Raise e) (Some expected_hash) = Raise e).
Proof.
  intros content expected_hash Hne.
  pose proof (compute_document_hash_ok content Hne) as Hh.
  split; [reflexivity|]. split; [reflexivity|]. split; [|split].
  - rewrite Hh. intros [= <-]. unfold storage.get_document. cbn [bind is_empty].
    unfold verify_hash. rewrite startswith_app, Hh. cbn [negb bind].
    rewrite String.eqb_refl. reflexivity.
  - intros Hp Hdiff. unfold storage.get_document. cbn [bind].
    destruct expected_hash as [|a r]; [discriminate Hp|]. cbn [is_empty].
    unfold verify_hash. rewrite Hp, Hh. cbn [negb bind].
    destruct (String.eqb_spec ("sha256:" ++ sha256_hexdigest content) (String a r))
      as [E|_]; [|reflexivity].
    exfalso. apply Hdiff. rewrite Hh, E. reflexivity.
  - reflexivity.
Qed.

Lemma get_document_checks_integrity_witness :
  storage.get_document (Ok "invoice") None = Ok "invoice" /\
  storage.get_document (Ok "invoice") (Some EmptyString) = Ok "invoice" /\
  (compute_document_hash "invoice" = Ok "sha256:00" ->
     storage.get_document (Ok "invoice") (Some "sha256:00") = Ok "invoice") /\
  (startswith "sha256:00" "sha256:" = true ->
   compute_document_hash "invoice" <> Ok "sha256:00" ->
     storage.get_document (Ok "invoice") (Some "sha256:00")
     = Raise (ValueError "Document integrity check failed")) /\
  (forall e, storage.get_document (Raise e) (Some "sha256:00") = Raise e).
Proof.
  apply (get_document_checks_integrity "invoice" "sha256:00"). discriminate.
Defined.

End DocumentHashes.

(** ** Dates (datetime.date) *)

Section DateFacts.
Local Open Scope Z_scope.

Ltac count_days :=
  unfold days_before_month;
  repeat match goal with
         | |- context [Z.to_nat ?e] =>
             let v := eval vm_compute in (Z.to_nat e) in change (Z.to_nat e) with v
         end;
  cbv [days_before_month_aux];
  repeat match goal with
         | |- context [Z.of_nat ?e] =>
             let v := eval vm_compute in (Z.of_nat e) in change (Z.of_nat e) with v
         end;
  cbv [days_in_month].

(** A day of the calendar: what [date(y, m, d)] accepts. *)
Lemma new_date_ok_iff (y m d : Z) :
  is_ok (new_date y m d) = true
  <-> 1 <= y <= 9999 /\ 1 <= m <= 12 /\ 1 <= d <= days_in_month y m.
Proof.
  unfold new_date.
  destruct ((1 <=? y) && (y <=? 9999) && (1 <=? m) && (m <=? 12)
            && (1 <=? d) && (d <=? days_in_month y m)) eqn:E; cbn [is_ok].
  - repeat (apply andb_true_iff in E as [E ?]).
    repeat match goal with H : (_ <=? _) = true |- _ => apply Z.leb_le in H end.
    apply Z.leb_le in E. split; [intros _; lia|reflexivity].
  - split; [discriminate|]. intros (Hy & Hm & Hd). exfalso.
    repeat (apply andb_false_iff in E as [E|E]);
      apply Z.leb_gt in E; lia.
Qed.

Lemma days_before_year_succ (y : Z) :
  days_before_year (y + 1)
  = days_before_year y + 365 + (if is_leap y then 1 else 0).
Proof.
  unfold days_before_year, is_leap. cbv zeta.
  replace (y + 1 - 1) with y by lia.
  destruct (y mod 4 =? 0) eqn:E4; destruct (y mod 100 =? 0) eqn:E100;
    destruct (y mod 400 =? 0) eqn:E400; cbn [andb orb negb];
    rewrite ?Z.eqb_eq, ?Z.eqb_neq in *;
    Z.div_mod_to_equations; lia.
Qed.

Lemma days_before_year_mono (y y' : Z) :
  y <= y' -> days_before_year y <= days_before_year y'.
Proof.
  intros H. replace y' with (y + Z.of_nat (Z.to_nat (y' - y))) by lia.
  induction (Z.to_nat (y' - y)) as [|n IH]; [rewrite Z.add_0_r; lia|].
  replace (y + Z.of_nat (S n)) with (y + Z.of_nat n + 1) by lia.
  rewrite days_before_year_succ. destruct (is_leap _); lia.
Qed.

(** The days of a year before a month and the length of a year. *)
Lemma day_of_year_bounds (y m d : Z) :
  1 <= m <= 12 -> 1 <= d <= days_in_month y m ->
  1 <= days_before_month y m + d <= 365 + (if is_leap y then 1 else 0).
Proof.
  intros Hm Hd.
  assert (Hcases : m = 1 \/ m = 2 \/ m = 3 \/ m = 4 \/ m = 5 \/ m = 6 \/ m = 7 \/ m = 8
                   \/ m = 9 \/ m = 10 \/ m = 11 \/ m = 12) by lia.
  repeat (destruct Hcases as [Hcases|Hcases]); subst m;
    revert Hd; count_days; destruct (is_leap y); lia.
Qed.

Lemma days_before_month_mono (y m m' : Z) :
  1 <= m -> m < m' -> m' <= 12 ->
  days_before_month y m + days_in_month y m <= days_before_month y m'.
Proof.
  intros H1 H2 H3.
  assert (Hm : m = 1 \/ m = 2 \/ m = 3 \/ m = 4 \/ m = 5 \/ m = 6 \/ m = 7 \/ m = 8
               \/ m = 9 \/ m = 10 \/ m = 11) by lia.
  assert (Hm' : m' = 2 \/ m' = 3 \/ m' = 4 \/ m' = 5 \/ m' = 6 \/ m' = 7 \/ m' = 8
                \/ m' = 9 \/ m' = 10 \/ m' = 11 \/ m' = 12) by lia.
  repeat (destruct Hm as [Hm|Hm]); repeat (destruct Hm' as [Hm'|Hm']);
    subst m m'; try lia; count_days; destruct (is_leap y); lia.
Qed.

(** For days of the calendar the order of dates is the order of their day
    numbers. *)
Lemma date_ltb_toordinal (a b : date) :
  valid_date a -> valid_date b ->
  (date_ltb a b = true <-> toordinal a < toordinal b).
Proof.
  unfold valid_date. rewrite !new_date_ok_iff.
  intros (Hya & Hma & Hda) (Hyb & Hmb & Hdb).
  assert (Hlt : forall a b : date,
            1 <= month a <= 12 -> 1 <= day a <= days_in_month (year a) (month a) ->
            1 <= month b <= 12 -> 1 <= day b <= days_in_month (year b) (month b) ->
            date_ltb a b = true -> toordinal a < toordinal b).
  { clear. intros a b Hma Hda Hmb Hdb. unfold date_ltb, toordinal.
    pose proof (day_of_year_bounds _ _ _ Hma Hda) as Ba.
    pose proof (day_of_year_bounds _ _ _ Hmb Hdb) as Bb.
    rewrite orb_true_iff, andb_true_iff, orb_true_iff, andb_true_iff.
    rewrite !Z.ltb_lt, !Z.eqb_eq.
    intros [Hy|[Hy [Hm|[Hm Hd]]]].
    - pose proof (days_before_year_mono (year a + 1) (year b) ltac:(lia)) as Hmono.
      rewrite days_before_year_succ in Hmono. lia.
    - rewrite <- Hy in *.
      pose proof (days_before_month_mono (year a) (month a) (month b)
                    ltac:(lia) Hm ltac:(lia)). lia.
    - rewrite <- Hy, <- Hm in *. lia. }
  split; [apply Hlt; assumption|].
  intros Hord. destruct (date_ltb a b) eqn:E; [reflexivity|exfalso].
  destruct (date_ltb b a) eqn:E'.
  - apply Hlt in E'; try assumption. lia.
  - assert (a = b).
    { unfold date_ltb in E, E'.
      rewrite orb_false_iff, andb_false_iff, orb_false_iff, andb_false_iff in E, E'.
      rewrite !Z.ltb_ge, !Z.eqb_neq in E, E'.
      destruct a as [ya ma da], b as [yb mb db]. cbn [year month day] in *.
      assert (ya = yb) by lia. subst yb.
      assert (ma = mb) by lia. subst mb.
      assert (da = db) by lia. subst db. reflexivity. }
    subst b. lia.
Qed.

End DateFacts.

(** ** The validation rules (validation.py) *)

Section ValidationRules.
Import validation.
Local Open Scope Q_scope.
Local Open Scope list_scope.









Lemma date_later (a b : date) :
  valid_date a -> valid_date b ->
  (date_gtb a b = true <-> (toordinal b < toordinal a)%Z).
Proof. intros Ha Hb. unfold date_gtb. apply date_ltb_toordinal; assumption. Qed.

(** X8: for days of the calendar the date rule passes exactly when the
    purchase order is not after the delivery and the delivery is not after
    the invoice, counted in days; documents of the same day pass.  When both
    orders are broken the message holds both errors, joined by "; ". *)
Theorem validate_date_sequence_rule :
  forall (po : PurchaseOrder.t) (pod : ProofOfDelivery.t) (invoice : Invoice.t),
    let po_date := ExtractedField.value (PurchaseOrder.po_date po) in
    let pod_date := ExtractedField.value (ProofOfDelivery.delivery_date pod) in
    let invoice_date := ExtractedField.value (Invoice.invoice_date invoice) in
    let check := validate_date_sequence po pod invoice in
    valid_date po_date -> valid_date pod_date -> valid_date invoice_date ->
    (ValidationCheck.passed check = true
     <-> (toordinal po_date <= toordinal pod_date <= toordinal invoice_date)%Z) /\
    (po_date = pod_date -> pod_date = invoice_date -> ValidationCheck.passed check = true) /\
    ((toordinal pod_date < toordinal po_date)%Z ->
     (toordinal invoice_date < toordinal pod_date)%Z ->
     ValidationCheck.message check
     = [Lit "PO date ("; FDate po_date; Lit ") is after delivery date (";
        FDate pod_date; Lit ")"; Lit "; ";
        Lit "Delivery date ("; FDate pod_date; Lit ") is after invoice date (";
        FDate invoice_date; Lit ")"]).
Proof.
  intros po pod invoice po_date pod_date invoice_date check Hpo Hpod Hinv.
  pose proof (date_later po_date pod_date Hpo Hpod) as H1.
  pose proof (date_later pod_date invoice_date Hpod Hinv) as H2.
  unfold check, validate_date_sequence. fold po_date pod_date invoice_date.
  destruct (date_gtb po_date pod_date) eqn:E1;
    destruct (date_gtb pod_date invoice_date) eqn:E2;
    cbn [ValidationCheck.passed ValidationCheck.message length app Nat.eqb join_messages].
  - assert (toordinal pod_date < toordinal po_date)%Z by (apply H1; reflexivity).
    assert (toordinal invoice_date < toordinal pod_date)%Z by (apply H2; reflexivity).
    split; [split; [discriminate|lia]|]. split; [intros -> ->; lia|reflexivity].
  - assert (toordinal pod_date < toordinal po_date)%Z by (apply H1; reflexivity).
    split; [split; [discriminate|lia]|]. split; [intros -> ->; lia|].
    intros _ Hlt. apply H2 in Hlt. discriminate.
  - assert (toordinal invoice_date < toordinal pod_date)%Z by (apply H2; reflexivity).
    split; [split; [discriminate|lia]|]. split; [intros -> ->; lia|].
    intros Hlt _. apply H1 in Hlt. discriminate.
  - split; [|split; [reflexivity|]].
    + split; [intros _|reflexivity].
      destruct (Z.le_gt_cases (toordinal po_date) (toordinal pod_date)) as [L1|G1];
        [|apply H1 in G1; discriminate].
      destruct (Z.le_gt_cases (toordinal pod_date) (toordinal invoice_date)) as [L2|G2];
        [lia|apply H2 in G2; discriminate].
    + intros Hlt _. apply H1 in Hlt. discriminate.
Qed.

Lemma validate_date_sequence_rule_witness :
  (ValidationCheck.passed
     (validate_date_sequence (samples.purchase_order 8000 "SGD") samples.delivery
        (samples.invoice 8000 "SGD" 0.9)) = true
   <-> (toordinal (samples.day 2024 1 2) <= toordinal (samples.day 2024 1 4)
        <= toordinal (samples.day 2024 1 5))%Z) /\
  (samples.day 2024 1 2 = samples.day 2024 1 4 ->
   samples.day 2024 1 4 = samples.day 2024 1 5 ->
   ValidationCheck.passed
     (validate_date_sequence (samples.purchase_order 8000 "SGD") samples.delivery
        (samples.invoice 8000 "SGD" 0.9)) = true) /\
  ((toordinal (samples.day 2024 1 4) < toordinal (samples.day 2024 1 2))%Z ->
   (toordinal (samples.day 2024 1 5) < toordinal (samples.day 2024 1 4))%Z ->
   ValidationCheck.message
     (validate_date_sequence (samples.purchase_order 8000 "SGD") samples.delivery
        (samples.invoice 8000 "SGD" 0.9))
   = [Lit "PO date ("; FDate (samples.day 2024 1 2); Lit ") is after delivery date (";
      FDate (samples.day 2024 1 4); Lit ")"; Lit "; ";
      Lit "Delivery date ("; FDate (samples.day 2024 1 4);
      Lit ") is after invoice date ("; FDate (samples.day 2024 1 5); Lit ")"]).
Proof.
  apply (validate_date_sequence_rule (samples.purchase_order 8000 "SGD") samples.delivery
           (samples.invoice 8000 "SGD" 0.9)); reflexivity.
Defined.














Lemma in_flag_if {T : Type} (f : ExtractedField.t T) (threshold : Q) (path p : string) :
  In p (flag_if f threshold path) <-> p = path /\ ExtractedField.confidence f < threshold.
Proof.
  unfold flag_if. destruct (Qltb _ _) eqn:E.
  - apply Qltb_lt in E. split; [intros [<-|[]]; auto|intros [-> _]; left; reflexivity].
  - apply Qltb_ge in E. split; [intros []|intros [_ H]; lra].
Qed.

(** X12: the review flags.  Only six fields can be flagged, each exactly
    when its confidence is below the threshold; a higher threshold keeps
    every flag of a lower one; and at the threshold 0.7 no flag is raised
    exactly when none of the six fields has [requires_review]. *)
Theorem collect_review_flags_rule :
  forall (bundle : DocumentBundle.t) (confidence_threshold : Q),
    let invoice := DocumentBundle.invoice bundle in
    let po := DocumentBundle.purchase_order bundle in
    let pod := DocumentBundle.proof_of_delivery bundle in
    let flags := collect_review_flags bundle confidence_threshold in
    let below {T : Type} (f : ExtractedField.t T) :=
      ExtractedField.confidence f < confidence_threshold in
    (forall p, In p flags <->
       (p = "invoice.total_amount"%string /\ below (Invoice.total_amount invoice))
       \/ (p = "invoice.invoice_number"%string /\ below (Invoice.invoice_number invoice))
       \/ (p = "purchase_order.authorized_amount"%string
           /\ below (PurchaseOrder.authorized_amount po))
       \/ (p = "purchase_order.po_number"%string /\ below (PurchaseOrder.po_number po))
       \/ (p = "proof_of_delivery.quantity_delivered"%string
           /\ below (ProofOfDelivery.quantity_delivered pod))
       \/ (p = "proof_of_delivery.delivery_date"%string
           /\ below (ProofOfDelivery.delivery_date pod))) /\
    (length flags <= 6)%nat /\
    (forall higher p, confidence_threshold <= higher ->
       In p flags -> In p (collect_review_flags bundle higher)) /\
    (collect_review_flags bundle 0.7 = [] <->
       ExtractedField.requires_review (Invoice.total_amount invoice) = false /\
       ExtractedField.requires_review (Invoice.invoice_number invoice) = false /\
       ExtractedField.requires_review (PurchaseOrder.authorized_amount po) = false /\
       ExtractedField.requires_review (PurchaseOrder.po_number po) = false /\
       ExtractedField.requires_review (ProofOfDelivery.quantity_delivered pod) = false /\
       ExtractedField.requires_review (ProofOfDelivery.delivery_date pod) = false).
Proof.
  intros bundle confidence_threshold invoice po pod flags below.
  assert (Hin : forall threshold p,
            In p (collect_review_flags bundle threshold) <->
            (p = "invoice.total_amount"%string
             /\ ExtractedField.confidence (Invoice.total_amount invoice) < threshold)
            \/ (p = "invoice.invoice_number"%string
                /\ ExtractedField.confidence (Invoice.invoice_number invoice) < threshold)
            \/ (p = "purchase_order.authorized_amount"%string
                /\ ExtractedField.confidence (PurchaseOrder.authorized_amount po)
                   < threshold)
            \/ (p = "purchase_order.po_number"%string
                /\ ExtractedField.confidence (PurchaseOrder.po_number po) < threshold)
            \/ (p = "proof_of_delivery.quantity_delivered"%string
                /\ ExtractedField.confidence (ProofOfDelivery.quantity_delivered pod)
                   < threshold)
            \/ (p = "proof_of_delivery.delivery_date"%string
                /\ ExtractedField.confidence (ProofOfDelivery.delivery_date pod)
                   < threshold)).
  { intros threshold p. unfold collect_review_flags. fold invoice po pod.
    rewrite !in_app_iff, !in_flag_if. tauto. }
  split; [apply Hin|]. split; [|split].
  - unfold flags, collect_review_flags, flag_if. rewrite !List.length_app.
    repeat match goal with |- context [if ?b then _ else _] => destruct b end;
      cbn [length]; lia.
  - intros higher p Hle Hp. apply Hin. apply Hin in Hp.
    assert (Hmono : forall c, c < confidence_threshold -> c < higher)
      by (intros c Hc; eapply Qlt_le_trans; eassumption).
    pose proof (Hmono (ExtractedField.confidence (Invoice.total_amount invoice))).
    pose proof (Hmono (ExtractedField.confidence (Invoice.invoice_number invoice))).
    pose proof (Hmono (ExtractedField.confidence (PurchaseOrder.authorized_amount po))).
    pose proof (Hmono (ExtractedField.confidence (PurchaseOrder.po_number po))).
    pose proof (Hmono (ExtractedField.confidence (ProofOfDelivery.quantity_delivered pod))).
    pose proof (Hmono (ExtractedField.confidence (ProofOfDelivery.delivery_date pod))).
    clear Hmono Hin. tauto.
  - unfold collect_review_flags, flag_if, ExtractedField.requires_review.
    fold invoice po pod.
    repeat match goal with |- context [Qltb ?x 0.7] => destruct (Qltb x 0.7) end;
      cbn [app]; split; intros H; try discriminate H; try reflexivity;
      try (repeat split; reflexivity);
      repeat match goal with H : _ /\ _ |- _ => destruct H end; discriminate.
Qed.

(** X13: a bounding box is built exactly for coordinates ordered within
    [0, 1]; otherwise the constructor raises [ValueError], and the
    horizontal pair is tested first. *)
Theorem bounding_box_coordinates_are_checked :
  forall (x_min y_min x_max y_max : Q) (page : Z),
    let x_ok := 0 <= x_min /\ x_min <= x_max /\ x_max <= 1 in
    let y_ok := 0 <= y_min /\ y_min <= y_max /\ y_max <= 1 in
    (x_ok /\ y_ok ->
       BoundingBox.new x_min y_min x_max y_max page
       = Ok {| BoundingBox.x_min := x_min; BoundingBox.y_min := y_min;
               BoundingBox.x_max := x_max; BoundingBox.y_max := y_max;
               BoundingBox.page := page |}) /\
    (~ x_ok ->
       exists msg,
         BoundingBox.new x_min y_min x_max y_max page = Raise (ValueError msg) /\
         startswith msg "Invalid x coordinates" = true) /\
    (x_ok -> ~ y_ok ->
       exists msg,
         BoundingBox.new x_min y_min x_max y_max page = Raise (ValueError msg) /\
         startswith msg "Invalid y coordinates" = true) /\
    (forall box, BoundingBox.new x_min y_min x_max y_max page = Ok box ->
       0 <= BoundingBox.x_min box /\ BoundingBox.x_min box <= BoundingBox.x_max box /\
       BoundingBox.x_max box <= 1 /\
       0 <= BoundingBox.y_min box /\ BoundingBox.y_min box <= BoundingBox.y_max box /\
       BoundingBox.y_max box <= 1).
Proof.
  intros x_min y_min x_max y_max page x_ok y_ok.
  assert (Hx : Qleb 0 x_min && Qleb x_min x_max && Qleb x_max 1 = true <-> x_ok).
  { unfold x_ok. rewrite !andb_true_iff, !Qleb_le. tauto. }
  assert (Hy : Qleb 0 y_min && Qleb y_min y_max && Qleb y_max 1 = true <-> y_ok).
  { unfold y_ok. rewrite !andb_true_iff, !Qleb_le. tauto. }
  unfold BoundingBox.new.
  destruct (Qleb 0 x_min && Qleb x_min x_max && Qleb x_max 1) eqn:Ex;
    destruct (Qleb 0 y_min && Qleb y_min y_max && Qleb y_max 1) eqn:Ey; cbn [negb].
  - assert (Hxo : x_ok) by (apply Hx; reflexivity).
    assert (Hyo : y_ok) by (apply Hy; reflexivity).
    split; [reflexivity|]. split; [tauto|]. split; [tauto|].
    intros box [= <-]. cbn. unfold x_ok, y_ok in *. tauto.
  - assert (Hxo : x_ok) by (apply Hx; reflexivity).
    assert (Hyo : ~ y_ok) by (intros Hc; apply Hy in Hc; discriminate).
    split; [tauto|]. split; [tauto|].
    split; [intros _ _; eexists; split; reflexivity|]. discriminate.
  - assert (Hxo : ~ x_ok) by (intros Hc; apply Hx in Hc; discriminate).
    split; [tauto|]. split; [intros _; eexists; split; reflexivity|].
    split; [tauto|]. discriminate.
  - assert (Hxo : ~ x_ok) by (intros Hc; apply Hx in Hc; discriminate).
    split; [tauto|]. split; [intros _; eexists; split; reflexivity|].
    split; [tauto|]. discriminate.
Qed.

End ValidationRules.

(** ** Repairs of the normalizer (normalize.py) *)

Section OcrRepairs.
Import decimal normalize.
Local Open Scope Q_scope.

Lemma map_chars_app (f : ascii -> ascii) (s t : string) :
  map_chars f (s ++ t)%string = (map_chars f s ++ map_chars f t)%string.
Proof.
  induction s as [|a s IH]; [reflexivity|].
  change (String (f a) (map_chars f (s ++ t)%string)
          = String (f a) (map_chars f s ++ map_chars f t)%string).
  rewrite IH. reflexivity.
Qed.

Lemma map_chars_compose (f g : ascii -> ascii) (s : string) :
  map_chars f (map_chars g s) = map_chars (fun a => f (g a)) s.
Proof.
  induction s as [|a s IH]; [reflexivity|]. cbn [map_chars]. rewrite IH. reflexivity.
Qed.

Lemma map_chars_ext (f g : ascii -> ascii) (s : string) :
  (forall a, f a = g a) -> map_chars f s = map_chars g s.
Proof.
  intros H. induction s as [|a s IH]; [reflexivity|].
  cbn [map_chars]. rewrite H, IH. reflexivity.
Qed.

Lemma map_chars_length (f : ascii -> ascii) (s : string) :
  String.length (map_chars f s) = String.length s.
Proof.
  induction s as [|a s IH]; [reflexivity|]. cbn [map_chars String.length].
  rewrite IH. reflexivity.
Qed.

Lemma take_drop (n : nat) (s : string) : (take n s ++ drop n s)%string = s.
Proof.
  revert s. induction n as [|n IH]; intros s; [destruct s; reflexivity|].
  destruct s as [|a s]; [reflexivity|].
  change (String a (take n s ++ drop n s)%string = String a s).
  rewrite IH. reflexivity.
Qed.

(** Replacing one character by another maps it everywhere. *)
Lemma replace_one_char (s : string) (c d : ascii) :
  replace s (String c EmptyString) (String d EmptyString)
  = map_chars (fun a => if Ascii.eqb a c then d else a) s.
Proof.
  unfold replace.
  induction s as [|a s IH]; [reflexivity|].
  cbn [replace_from map_chars String.length Nat.sub].
  change (startswith (String a s) (String c EmptyString))
    with (Ascii.eqb a c && startswith s EmptyString).
  replace (startswith s EmptyString) with true by (destruct s; reflexivity).
  rewrite andb_true_r. destruct (Ascii.eqb a c).
  - change (String d (replace_from (String c EmptyString) (String d EmptyString) 0 s)
            = String d (map_chars (fun a0 => if Ascii.eqb a0 c then d else a0) s)).
    rewrite IH. reflexivity.
  - rewrite IH. reflexivity.
Qed.

Lemma fix_numeric_section_map (m : re.Match) :
  fix_numeric_section m = map_chars fix_char (re.text m).
Proof.
  unfold fix_numeric_section, OCR_CHAR_FIXES. cbn [fold_left fst snd].
  rewrite !replace_one_char, !map_chars_compose.
  apply map_chars_ext. intros a. reflexivity.
Qed.

Lemma fix_char_table (a : ascii) :
  fix_char a =
  match a with
  | "S" | "s" => "5"
  | "O" | "o" => "0"
  | "l" | "I" => "1"
  | "B" => "8"
  | "Z" => "2"
  | "g" => "9"
  | "G" => "6"
  | _ => a
  end%char.
Proof. destruct a as [[] [] [] [] [] [] [] []]; vm_compute; reflexivity. Qed.

Lemma fix_char_outside (a : ascii) : numeric_char a = false -> fix_char a = a.
Proof.
  destruct a as [[] [] [] [] [] [] [] []]; vm_compute; intros H;
    try discriminate H; reflexivity.
Qed.

Lemma fix_char_fixed (a : ascii) : fix_char (fix_char a) = fix_char a.
Proof. destruct a as [[] [] [] [] [] [] [] []]; vm_compute; reflexivity. Qed.

Lemma numeric_section_match (s : string) (pos : nat) (m : re.Match) :
  re.match_here numeric_section s pos = Some m ->
  exists n, re.end_ m = (pos + S n)%nat /\ re.text m = take (S n) s.
Proof.
  intros H. apply match_here_sound in H as [s' [c [M ->]]].
  unfold numeric_section, re.Plus in M. inversion M as [| |? ? ? s1 ? ? ? M1 M2| | | | |]; subst.
  inversion M1; subst.
  apply matches_prefix in M2 as [u [-> _]].
  exists (String.length u). cbn [re.end_ re.text String.length].
  rewrite string_length_app.
  replace (S (String.length u + String.length s') - String.length s')%nat
    with (S (String.length u)) by lia.
  split; reflexivity.
Qed.

Lemma numeric_section_none (a : ascii) (s : string) (pos : nat) :
  re.match_here numeric_section (String a s) pos = None -> numeric_char a = false.
Proof.
  intros H. destruct (numeric_char a) eqn:E; [|reflexivity].
  exfalso. revert H. eapply match_here_complete.
  unfold numeric_section, re.Plus.
  eapply re_language.MCat; [apply re_language.MChr; exact E|apply re_language.MStar0].
Qed.

Lemma sub_numeric_sections (s : string) :
  forall skip pos : nat,
    re.sub_from numeric_section fix_numeric_section skip s pos
    = map_chars fix_char (drop skip s).
Proof.
  induction s as [|a s IH]; intros skip pos.
  - destruct skip; [|reflexivity]. cbn [re.sub_from drop map_chars].
    destruct (re.match_here numeric_section EmptyString pos) as [m|] eqn:E; [|reflexivity].
    apply numeric_section_match in E as [n [_ E]].
    rewrite fix_numeric_section_map, E. reflexivity.
  - destruct skip as [|k]; [|cbn [re.sub_from drop]; apply IH].
    cbn [re.sub_from drop].
    destruct (re.match_here numeric_section (String a s) pos) as [m|] eqn:E.
    + apply numeric_section_match in E as [n [He Ht]].
      rewrite fix_numeric_section_map, Ht, He, IH.
      replace (pos + S n =? pos)%nat with false by (symmetry; apply Nat.eqb_neq; lia).
      replace (pos + S n - pos - 1)%nat with n by lia.
      rewrite <- map_chars_app.
      change (take (S n) (String a s) ++ drop n s)%string
        with (String a (take n s ++ drop n s)%string).
      rewrite take_drop. reflexivity.
    + apply numeric_section_none in E. cbn [map_chars].
      rewrite (fix_char_outside a E), IH. reflexivity.
Qed.

(** X14: [_fix_ocr_errors] rewrites every S, s, O, o, l, I, B, Z, g and G of
    the text, wherever it stands, into its digit and changes nothing else:
    each of the ten letters is by itself a section of the pattern. The
    length of the text is kept, and a second repair changes nothing. *)
Theorem fix_ocr_errors_maps_every_letter :
  forall text : string,
    _fix_ocr_errors text = map_chars fix_char text /\
    (forall a : ascii,
       fix_char a =
       match a with
       | "S" | "s" => "5"
       | "O" | "o" => "0"
       | "l" | "I" => "1"
       | "B" => "8"
       | "Z" => "2"
       | "g" => "9"
       | "G" => "6"
       | _ => a
       end%char) /\
    String.length (_fix_ocr_errors text) = String.length text /\
    _fix_ocr_errors (_fix_ocr_errors text) = _fix_ocr_errors text /\
    _fix_ocr_errors "Sold to: Bob Gill, ZIP 10001" = "501d t0: 80b 6i11, 21P 10001".
Proof.
  intros text.
  assert (E : forall t, _fix_ocr_errors t = map_chars fix_char t).
  { intros t. unfold _fix_ocr_errors, re.sub. apply sub_numeric_sections. }
  split; [apply E|]. split; [exact fix_char_table|]. split; [|split].
  - rewrite E. apply map_chars_length.
  - rewrite !E, map_chars_compose. apply map_chars_ext, fix_char_fixed.
  - vm_compute. reflexivity.
Qed.



Lemma split_ws_from_words (P : ascii -> bool) (s : string) :
  forall cur : string,
    forall_chars (fun a => P a && negb (is_space a)) cur = true ->
    forall_chars P s = true ->
    Forall (fun w => w <> EmptyString /\
                     forall_chars (fun a => P a && negb (is_space a)) w = true)
           (split_ws_from cur s).
Proof.
  induction s as [|a s IH]; intros cur Hcur Hs.
  - cbn [split_ws_from]. destruct cur; constructor; [|constructor].
    split; [discriminate|exact Hcur].
  - cbn [split_ws_from forall_chars] in *. apply andb_true_iff in Hs as [Ha Hs].
    destruct (is_space a) eqn:E.
    + apply Forall_app. split; [|apply IH; [reflexivity|exact Hs]].
      destruct cur; constructor; [|constructor]. split; [discriminate|exact Hcur].
    + apply IH; [|exact Hs]. rewrite forall_chars_app, Hcur. cbn [forall_chars].
      rewrite Ha, E. reflexivity.
Qed.

Lemma concat_split_ws (s : string) :
  forall cur : string,
    String.concat EmptyString (split_ws_from cur s)
    = (cur ++ filter_chars (fun a => negb (is_space a)) s)%string.
Proof.
  induction s as [|a s IH]; intros cur.
  - cbn [split_ws_from filter_chars]. rewrite append_empty_r. destruct cur; reflexivity.
  - cbn [split_ws_from filter_chars]. destruct (is_space a); cbn [negb].
    + destruct cur as [|c cur].
      * cbn [List.app]. rewrite IH. reflexivity.
      * change (String.concat EmptyString
                  (String c cur :: split_ws_from EmptyString s)
                = (String c cur
                   ++ filter_chars (fun a0 => negb (is_space a0)) s)%string).
        rewrite concat_cons, IH. reflexivity.
    + rewrite IH, append_assoc. reflexivity.
Qed.

Lemma split_ws_from_word (w rest : string) :
  forall cur : string,
    forall_chars (fun a => negb (is_space a)) w = true ->
    split_ws_from cur (w ++ rest) = split_ws_from (cur ++ w) rest.
Proof.
  induction w as [|a w IH]; intros cur H.
  - rewrite append_empty_r. reflexivity.
  - cbn [forall_chars] in H. apply andb_true_iff in H as [Ha Hw].
    change (String a w ++ rest)%string with (String a (w ++ rest)%string).
    cbn [split_ws_from]. apply negb_true_iff in Ha. rewrite Ha.
    rewrite (IH _ Hw), append_assoc. reflexivity.
Qed.

(** Splitting the words joined by single blanks gives the words back. *)
Lemma split_ws_join (words : list string) :
  Forall (fun w => w <> EmptyString /\
                   forall_chars (fun a => negb (is_space a)) w = true) words ->
  split_ws (join " " words) = words.
Proof.
  unfold split_ws. induction words as [|w ws IH]; intros H; [reflexivity|].
  inversion H as [|? ? [Hne Hw] Hws]; subst.
  destruct ws as [|w2 ws].
  - cbn [join]. rewrite <- (append_empty_r w) at 1.
    rewrite (split_ws_from_word _ _ _ Hw). cbn [split_ws_from].
    destruct w; [contradiction|reflexivity].
  - change (join " " (w :: w2 :: ws)) with (w ++ String " " (join " " (w2 :: ws)))%string.
    rewrite (split_ws_from_word _ _ _ Hw).
    change (EmptyString ++ w)%string with w.
    cbn [split_ws_from]. change (is_space " ") with true. cbv iota.
    rewrite (IH Hws). destruct w; [contradiction|reflexivity].
Qed.

Lemma forall_chars_join (P : ascii -> bool) (words : list string) :
  P " "%char = true ->
  Forall (fun w => forall_chars P w = true) words ->
  forall_chars P (join " " words) = true.
Proof.
  intros Hsp. induction words as [|w ws IH]; intros H; [reflexivity|].
  inversion H as [|? ? Hw Hws]; subst. destruct ws as [|w2 ws]; [exact Hw|].
  change (join " " (w :: w2 :: ws)) with (w ++ String " " (join " " (w2 :: ws)))%string.
  rewrite forall_chars_app, Hw. cbn [forall_chars]. rewrite Hsp, (IH Hws). reflexivity.
Qed.

Lemma filter_chars_filter (p q : ascii -> bool) (s : string) :
  filter_chars p (filter_chars q s) = filter_chars (fun a => q a && p a) s.
Proof.
  induction s as [|a s IH]; [reflexivity|]. cbn [filter_chars].
  destruct (q a); cbn [andb filter_chars]; [destruct (p a)|]; rewrite IH; reflexivity.
Qed.

Lemma visible_char (a : ascii) :
  negb (control_char a) && negb (is_space a)
  = negb (control_char a) && negb (Ascii.eqb a " ").
Proof. destruct a as [[] [] [] [] [] [] [] []]; vm_compute; reflexivity. Qed.

(** X16: for an ASCII text and a confidence within [0, 1],
    [normalize_string] returns words joined by single blanks: every word is
    non-empty and holds no control character and no blank, and the words put
    together are the characters of the text other than control characters
    (tabs and line ends among them) and blanks, in their order. Normalizing
    the value again gives the same value. *)
Theorem normalize_string_is_words_joined_by_blanks :
  forall (text : string) (confidence : Q) (bounding_box : option BoundingBox.t),
    forall_chars (fun a => (code a <? 128)%nat) text = true ->
    0 <= confidence <= 1 ->
    exists words : list string,
      normalize_string text confidence bounding_box
      = Ok {| ExtractedField.value := join " " words;
              ExtractedField.confidence := confidence;
              ExtractedField.bounding_box := bounding_box;
              ExtractedField.raw_text := Some text |} /\
      Forall (fun w => w <> EmptyString /\
                       forall_chars (fun a => negb (control_char a)
                                              && negb (Ascii.eqb a " ")) w = true) words /\
      String.concat EmptyString words
      = filter_chars (fun a => negb (control_char a) && negb (Ascii.eqb a " ")) text /\
      normalize_string (join " " words) confidence bounding_box
      = Ok {| ExtractedField.value := join " " words;
              ExtractedField.confidence := confidence;
              ExtractedField.bounding_box := bounding_box;
              ExtractedField.raw_text := Some (join " " words) |}.
Proof.
  intros text confidence bounding_box _ Hc.
  unfold normalize_string. rewrite !sub_chr_delete.
  set (cleaned := filter_chars (fun a => negb (control_char a)) text).
  exists (split_ws cleaned).
  assert (Hw : Forall (fun w => w <> EmptyString /\
                 forall_chars (fun a => negb (control_char a) && negb (is_space a)) w = true)
                 (split_ws cleaned)).
  { apply (split_ws_from_words (fun a => negb (control_char a))); [reflexivity|].
    apply forall_chars_filter. }
  split; [apply new_ok; exact Hc|]. split; [|split].
  - eapply List.Forall_impl; [|exact Hw]. intros w [Hne H]. split; [exact Hne|].
    eapply forall_chars_impl; [|exact H]. intros a Ha. rewrite <- visible_char. exact Ha.
  - unfold split_ws. rewrite concat_split_ws. subst cleaned.
    change (EmptyString ++ ?x)%string with x.
    rewrite filter_chars_filter. apply filter_chars_ext, visible_char.
  - rewrite sub_chr_delete, filter_chars_id.
    + rewrite split_ws_join; [apply new_ok; exact Hc|].
      eapply List.Forall_impl; [|exact Hw]. intros w [Hne H]. split; [exact Hne|].
      eapply forall_chars_impl; [|exact H]. intros a Ha.
      apply andb_true_iff in Ha as [_ Ha]. exact Ha.
    + apply forall_chars_join; [reflexivity|].
      eapply List.Forall_impl; [|exact Hw]. intros w [_ H].
      eapply forall_chars_impl; [|exact H]. intros a Ha.
      apply andb_true_iff in Ha as [Ha _]. exact Ha.
Qed.

Lemma normalize_string_is_words_joined_by_blanks_witness :
  exists words : list string,
    normalize_string "  Acme   Trading Co. " 0.9 None
    = Ok {| ExtractedField.value := join " " words;
            ExtractedField.confidence := 0.9;
            ExtractedField.bounding_box := None;
            ExtractedField.raw_text := Some "  Acme   Trading Co. " |} /\
    Forall (fun w => w <> EmptyString /\
                     forall_chars (fun a => negb (control_char a)
                                            && negb (Ascii.eqb a " ")) w = true) words /\
    String.concat EmptyString words
    = filter_chars (fun a => negb (control_char a) && negb (Ascii.eqb a " "))
        "  Acme   Trading Co. " /\
    normalize_string (join " " words) 0.9 None
    = Ok {| ExtractedField.value := join " " words;
            ExtractedField.confidence := 0.9;
            ExtractedField.bounding_box := None;
            ExtractedField.raw_text := Some (join " " words) |}.
Proof.
  apply (normalize_string_is_words_joined_by_blanks "  Acme   Trading Co. " 0.9 None).
  - reflexivity.
  - split; discriminate.
Defined.

End OcrRepairs.

(** ** Rows and column indexes of a table (table.py) *)

Section TableRows.
Import engine table.
Local Open Scope Q_scope.
Local Open Scope list_scope.

Local Abbreviation anchored tol row :=
  (exists a cur,
      row = a :: cur /\
      forall b, In b cur ->
                TextBlock.center_y a <= TextBlock.center_y b /\
                TextBlock.center_y b - TextBlock.center_y a <= tol).

Lemma by_center_y_total (a b : TextBlock.t) :
  by_center_y a b = true \/ by_center_y b a = true.
Proof.
  unfold by_center_y. rewrite !Qleb_le.
  destruct (Qlt_le_dec (TextBlock.center_y b) (TextBlock.center_y a)) as [H|H];
    [right; apply Qlt_le_weak; exact H|left; exact H].
Qed.

Lemma by_center_y_trans (a b c : TextBlock.t) :
  by_center_y a b = true -> by_center_y b c = true -> by_center_y a c = true.
Proof. unfold by_center_y. rewrite !Qleb_le. apply Qle_trans. Qed.

(** The loop of [_group_into_rows] over blocks in the order of their
    centres: the rows closed so far and the open row hold the blocks seen,
    in their order, and every row lies within the tolerance below its first
    block. *)
Lemma row_fold_invariant (tol : Q) (rest : list TextBlock.t) :
  forall (st : row_state) (a : TextBlock.t) (cur : list TextBlock.t),
    current_row st = a :: cur ->
    current_y st = TextBlock.center_y a ->
    (forall b, In b cur ->
               TextBlock.center_y a <= TextBlock.center_y b /\
               TextBlock.center_y b - TextBlock.center_y a <= tol) ->
    Forall (fun row => anchored tol row) (rows st) ->
    StronglySorted (fun x y => TextBlock.center_y x <= TextBlock.center_y y) rest ->
    (forall b, In b rest -> TextBlock.center_y a <= TextBlock.center_y b) ->
    List.concat (rows (fold_left (row_step tol) rest st))
      ++ current_row (fold_left (row_step tol) rest st)
    = List.concat (rows st) ++ current_row st ++ rest /\
    Forall (fun row => anchored tol row) (rows (fold_left (row_step tol) rest st)) /\
    anchored tol (current_row (fold_left (row_step tol) rest st)).
Proof.
  induction rest as [|block rest IH]; intros st a cur Hrow Hy Hcur Hrows Hsorted Hge.
  - cbn [fold_left]. rewrite List.app_nil_r. split; [reflexivity|].
    split; [exact Hrows|]. exists a, cur. split; [exact Hrow|exact Hcur].
  - cbn [fold_left]. inversion Hsorted as [|? ? Hs Hall]; subst.
    destruct (Qleb (Qabs (TextBlock.center_y block - current_y st)) tol) eqn:E.
    + replace (row_step tol st block)
        with {| rows := rows st; current_row := current_row st ++ [block];
                current_y := current_y st |}
        by (unfold row_step; rewrite E; reflexivity).
      edestruct (IH {| rows := rows st; current_row := current_row st ++ [block];
                       current_y := current_y st |} a (cur ++ [block]))
        as (H1 & H2 & H3).
      * cbn [current_row]. rewrite Hrow. reflexivity.
      * exact Hy.
      * intros b Hb. apply in_app_or in Hb as [Hb|[<-|[]]]; [apply Hcur; exact Hb|].
        split; [apply Hge; left; reflexivity|].
        apply Qleb_le in E. rewrite Hy in E.
        eapply Qle_trans; [apply Qle_Qabs|exact E].
      * exact Hrows.
      * exact Hs.
      * intros b Hb. apply Hge. right. exact Hb.
      * cbn [rows current_row] in H1. rewrite H1, <- !List.app_assoc.
        split; [reflexivity|]. split; [exact H2|exact H3].
    + replace (row_step tol st block)
        with {| rows := rows st ++ [current_row st]; current_row := [block];
                current_y := TextBlock.center_y block |}
        by (unfold row_step; rewrite E; reflexivity).
      edestruct (IH {| rows := rows st ++ [current_row st]; current_row := [block];
                       current_y := TextBlock.center_y block |} block [])
        as (H1 & H2 & H3).
      * reflexivity.
      * reflexivity.
      * intros b [].
      * cbn [rows]. apply List.Forall_app. split; [exact Hrows|].
        constructor; [|constructor]. exists a, cur. split; [exact Hrow|exact Hcur].
      * exact Hs.
      * intros b Hb. eapply List.Forall_forall in Hall; [exact Hall|exact Hb].
      * cbn [rows current_row] in H1. rewrite H1, List.concat_app.
        cbn [List.concat]. rewrite List.app_nil_r, <- !List.app_assoc.
        split; [reflexivity|]. split; [exact H2|exact H3].
Qed.




Lemma column_index_from_succ (x : Q) (boundaries : list Q) :
  forall i : nat,
    column_index_from (S i) x boundaries = S (column_index_from i x boundaries).
Proof.
  induction boundaries as [|b rest IH]; intros i; [reflexivity|].
  cbn [column_index_from]. destruct (Qltb x b); [reflexivity|apply IH].
Qed.

(** X18: [_get_column_index] is the number of the first boundary that lies
    above the position, and the number of boundaries when none does: every
    boundary before it is at most the position, the index is never more than
    the number of boundaries (so it is below [num_columns]), and a position
    further right never gets a smaller index. *)
Theorem get_column_index_is_first_boundary_above :
  forall (x_position : Q) (boundaries : list Q),
    (_get_column_index x_position boundaries <= length boundaries)%nat /\
    (forall j b, (j < _get_column_index x_position boundaries)%nat ->
                 nth_error boundaries j = Some b -> b <= x_position) /\
    (forall b, nth_error boundaries (_get_column_index x_position boundaries) = Some b ->
               x_position < b) /\
    (forall x', x_position <= x' ->
                (_get_column_index x_position boundaries
                 <= _get_column_index x' boundaries)%nat).
Proof.
  intros x boundaries. unfold _get_column_index.
  induction boundaries as [|b rest IH].
  - cbn. split; [lia|]. split; [intros j b Hj; lia|]. split; [discriminate|]. intros; lia.
  - destruct IH as (H1 & H2 & H3 & H4). cbn [column_index_from length].
    destruct (Qltb x b) eqn:E.
    + split; [lia|]. split; [intros j c Hj; lia|]. split.
      * cbn [nth_error]. intros c [= <-]. apply Qltb_lt. exact E.
      * intros; lia.
    + rewrite column_index_from_succ. apply Qltb_ge in E.
      split; [lia|]. split; [|split].
      * intros [|j] c Hj; cbn [nth_error].
        -- intros [= <-]. exact E.
        -- apply H2. lia.
      * cbn [nth_error]. exact H3.
      * intros x' Hx. replace (Qltb x' b) with false.
        -- rewrite column_index_from_succ. apply le_n_S, H4, Hx.
        -- symmetry. apply Qltb_ge. eapply Qle_trans; [exact E|exact Hx].
Qed.

End TableRows.

(** ** Pages, regions and blocks (engine.py, normalize.py) *)

Section BlockFacts.
Import decimal engine normalize.
Local Open Scope Q_scope.
Local Open Scope list_scope.












End BlockFacts.

(** ** The audit of a bundle (forensic.py) *)

Section ForensicFacts.
Import hashlib hashing forensic.

(** What [verify_documents] returns: a failed result without bundle, or
    the verification of the bundle it built, after a duplicate check that
    found nothing and a DID check that was skipped, absent, verified or
    found no DID. *)
Lemma verify_documents_inv (self : ForensicService.t) (wallet_address : string)
    (invoice purchase_order proof_of_delivery : DocumentInput.t)
    (check_duplicate verify_did : bool) (r : ForensicAuditResult.t) :
  verify_documents self wallet_address invoice purchase_order proof_of_delivery
    check_duplicate verify_did = Ok r ->
  let invoice_hash := "sha256:" ++ sha256_hexdigest (DocumentInput.content invoice) in
  let po_hash := "sha256:" ++ sha256_hexdigest (DocumentInput.content purchase_order) in
  let pod_hash := "sha256:" ++ sha256_hexdigest (DocumentInput.content proof_of_delivery) in
  ForensicAuditResult.invoice_hash r = Some invoice_hash /\
  ForensicAuditResult.po_hash r = Some po_hash /\
  ForensicAuditResult.pod_hash r = Some pod_hash /\
  ((VerificationResult.status (ForensicAuditResult.verification r) = FAILED /\
    VerificationResult.checks (ForensicAuditResult.verification r) = [] /\
    ForensicAuditResult.bundle r = None /\
    (verify_did = false ->
     ForensicAuditResult.did_verification r = None \/
     ForensicAuditResult.did_verification r
     = Some (did.create_skipped_result wallet_address)))
   \/
   (exists invoice_data po_data pod_data,
      let bundle :=
        {| DocumentBundle.invoice := invoice_data;
           DocumentBundle.purchase_order := po_data;
           DocumentBundle.proof_of_delivery := pod_data;
           DocumentBundle.invoice_hash := Some invoice_hash;
           DocumentBundle.po_hash := Some po_hash;
           DocumentBundle.pod_hash := Some pod_hash |} in
      ForensicService._extract_invoice self invoice = Ok invoice_data /\
      ForensicService._extract_purchase_order self purchase_order = Ok po_data /\
      ForensicService._extract_proof_of_delivery self proof_of_delivery = Ok pod_data /\
      ForensicAuditResult.bundle r = Some bundle /\
      ForensicAuditResult.verification r
      = validation.run_full_verification bundle None
          (ForensicService.confidence_threshold self) /\
      (forall d, ForensicAuditResult.duplicate_check r = Some d ->
                 xrpl.DuplicateCheckResult.is_duplicate d = false) /\
      (if verify_did
       then forall d, ForensicAuditResult.did_verification r = Some d ->
                      did.DIDVerificationResult.status d = did.VERIFIED \/
                      did.DIDVerificationResult.status d = did.NOT_FOUND
       else ForensicAuditResult.did_verification r
            = Some (did.create_skipped_result wallet_address)))).
Proof.
  unfold verify_documents, compute_document_hash.
  destruct (DocumentInput.content invoice) as [|a1 c1] eqn:E1; [discriminate|].
  destruct (DocumentInput.content purchase_order) as [|a2 c2] eqn:E2; [discriminate|].
  destruct (DocumentInput.content proof_of_delivery) as [|a3 c3] eqn:E3; [discriminate|].
  cbn [bind].
  set (ih := "sha256:" ++ sha256_hexdigest (String a1 c1)).
  set (ph := "sha256:" ++ sha256_hexdigest (String a2 c2)).
  set (dh := "sha256:" ++ sha256_hexdigest (String a3 c3)).
  intros H.
  assert (Hfail : forall (P : Prop) dup didr,
            (verify_did = false ->
             didr = None \/ didr = Some (did.create_skipped_result wallet_address)) ->
            r = failed_result dup didr ih ph dh ->
            ForensicAuditResult.invoice_hash r = Some ih /\
            ForensicAuditResult.po_hash r = Some ph /\
            ForensicAuditResult.pod_hash r = Some dh /\
            ((VerificationResult.status (ForensicAuditResult.verification r) = FAILED /\
              VerificationResult.checks (ForensicAuditResult.verification r) = [] /\
              ForensicAuditResult.bundle r = None /\
              (verify_did = false ->
               ForensicAuditResult.did_verification r = None \/
               ForensicAuditResult.did_verification r
               = Some (did.create_skipped_result wallet_address))) \/ P)).
  { intros P dup didr Hd ->. repeat split. left. repeat split. exact Hd. }
  revert H.
  destruct (match check_duplicate, ForensicService.xrpl_check_duplicate self with
            | true, Some check => bind (check ih) (fun r0 => Ok (Some r0))
            | _, _ => Ok None
            end) as [dup|e] eqn:Edup; [|discriminate].
  cbn [bind].
  destruct (match dup with
            | Some d => xrpl.DuplicateCheckResult.is_duplicate d
            | None => false
            end) eqn:Eisdup.
  { intros [= <-]. eapply Hfail; [|reflexivity]. intros _. left. reflexivity. }
  destruct (match verify_did, ForensicService.did_verify_wallet self with
            | true, Some verify_wallet =>
                bind (verify_wallet wallet_address) (fun r0 => Ok (Some r0))
            | true, None => Ok None
            | false, _ => Ok (Some (did.create_skipped_result wallet_address))
            end) as [didr|e] eqn:Edid; [|discriminate].
  cbn [bind].
  assert (Hskip : verify_did = false ->
                  didr = Some (did.create_skipped_result wallet_address)).
  { intros ->. injection Edid as <-. reflexivity. }
  destruct (match verify_did, ForensicService.did_verify_wallet self, didr with
            | true, Some _, Some r0 =>
                negb (did.DIDVerificationResult.is_verified r0)
                && negb (did.DIDStatus_eqb (did.DIDVerificationResult.status r0)
                           did.NOT_FOUND)
            | _, _, _ => false
            end) eqn:Efail.
  { intros [= <-]. eapply Hfail; [|reflexivity]. intros Hv. right. apply Hskip, Hv. }
  unfold extract_all.
  destruct (ForensicService._extract_invoice self invoice) as [i|e] eqn:Ei; cbn [bind];
    [|intros [= <-]; eapply Hfail; [|reflexivity]; intros Hv; right; apply Hskip, Hv].
  destruct (ForensicService._extract_purchase_order self purchase_order) as [p|e] eqn:Ep;
    cbn [bind];
    [|intros [= <-]; eapply Hfail; [|reflexivity]; intros Hv; right; apply Hskip, Hv].
  destruct (ForensicService._extract_proof_of_delivery self proof_of_delivery)
    as [d|e] eqn:Ed; cbn [bind];
    [|intros [= <-]; eapply Hfail; [|reflexivity]; intros Hv; right; apply Hskip, Hv].
  intros [= <-]. cbn [ForensicAuditResult.invoice_hash ForensicAuditResult.po_hash
    ForensicAuditResult.pod_hash ForensicAuditResult.verification
    ForensicAuditResult.bundle ForensicAuditResult.duplicate_check
    ForensicAuditResult.did_verification].
  split; [reflexivity|]. split; [reflexivity|]. split; [reflexivity|].
  right. exists i, p, d. cbv zeta.
  split; [reflexivity|]. split; [reflexivity|]. split; [reflexivity|].
  split; [reflexivity|]. split; [reflexivity|]. split.
  - intros d0 ->. exact Eisdup.
  - destruct verify_did.
    + intros d0 ->. destruct (ForensicService.did_verify_wallet self); [|discriminate].
      unfold did.DIDVerificationResult.is_verified in Efail.
      destruct (did.DIDVerificationResult.status d0); cbn in Efail;
        try discriminate; auto.
    + apply Hskip. reflexivity.
Qed.

Lemma status_is_spec (s expected : VerificationStatus) :
  status_is s expected = true <-> s = expected.
Proof. destruct s, expected; cbn; split; congruence. Qed.

(** X22: [verify_documents] raises [ValueError] when a document is empty.
    A result it returns records the hash of each of the three documents.
    It carries no bundle exactly when its verification is FAILED with no
    check at all, and such a result can never be minted; this is what a
    duplicate invoice gives, and what a DID status other than VERIFIED,
    NOT_FOUND and SKIPPED gives. A result with a bundle holds the
    verification of that bundle by [run_full_verification], and the bundle
    holds the three hashes. *)
Theorem verify_documents_outcomes :
  forall (self : ForensicService.t) (wallet_address : string)
         (invoice purchase_order proof_of_delivery : DocumentInput.t)
         (check_duplicate verify_did : bool),
    let audit :=
      verify_documents self wallet_address invoice purchase_order proof_of_delivery
        check_duplicate verify_did in
    (DocumentInput.content invoice = EmptyString \/
     DocumentInput.content purchase_order = EmptyString \/
     DocumentInput.content proof_of_delivery = EmptyString ->
     audit = Raise (ValueError "Cannot hash empty content")) /\
    (forall r, audit = Ok r ->
       ForensicAuditResult.invoice_hash r
       = Some ("sha256:" ++ sha256_hexdigest (DocumentInput.content invoice)) /\
       ForensicAuditResult.po_hash r
       = Some ("sha256:" ++ sha256_hexdigest (DocumentInput.content purchase_order)) /\
       ForensicAuditResult.pod_hash r
       = Some ("sha256:" ++ sha256_hexdigest (DocumentInput.content proof_of_delivery)) /\
       (ForensicAuditResult.bundle r = None ->
          VerificationResult.status (ForensicAuditResult.verification r) = FAILED /\
          VerificationResult.checks (ForensicAuditResult.verification r) = [] /\
          ForensicAuditResult.can_mint r = false) /\
       (forall d, ForensicAuditResult.duplicate_check r = Some d ->
                  xrpl.DuplicateCheckResult.is_duplicate d = true ->
                  ForensicAuditResult.bundle r = None) /\
       (forall d, ForensicAuditResult.did_verification r = Some d ->
                  did.DIDVerificationResult.status d <> did.VERIFIED ->
                  did.DIDVerificationResult.status d <> did.NOT_FOUND ->
                  did.DIDVerificationResult.status d <> did.SKIPPED ->
                  ForensicAuditResult.bundle r = None) /\
       (forall b, ForensicAuditResult.bundle r = Some b ->
          ForensicAuditResult.verification r
          = validation.run_full_verification b None
              (ForensicService.confidence_threshold self) /\
          DocumentBundle.invoice_hash b = ForensicAuditResult.invoice_hash r /\
          DocumentBundle.po_hash b = ForensicAuditResult.po_hash r /\
          DocumentBundle.pod_hash b = ForensicAuditResult.pod_hash r /\
          ForensicService._extract_invoice self invoice = Ok (DocumentBundle.invoice b) /\
          ForensicService._extract_purchase_order self purchase_order
          = Ok (DocumentBundle.purchase_order b) /\
          ForensicService._extract_proof_of_delivery self proof_of_delivery
          = Ok (DocumentBundle.proof_of_delivery b))).
Proof.
  intros self wallet_address invoice purchase_order proof_of_delivery
    check_duplicate verify_did audit.
  split.
  - unfold audit, verify_documents, compute_document_hash.
    intros [H|[H|H]]; rewrite H.
    + reflexivity.
    + destruct (DocumentInput.content invoice); reflexivity.
    + destruct (DocumentInput.content invoice); [reflexivity|].
      destruct (DocumentInput.content purchase_order); reflexivity.
  - intros r Hr. apply verify_documents_inv in Hr.
    destruct Hr as (H1 & H2 & H3 & Hcase).
    split; [exact H1|]. split; [exact H2|]. split; [exact H3|].
    destruct Hcase as [(Hst & Hch & Hb & _)|(i & p & d & Hi & Hp & Hd & Hb & Hv & Hdup & Hdid)].
    + split; [|split; [|split]].
      * intros _. split; [exact Hst|]. split; [exact Hch|].
        unfold ForensicAuditResult.can_mint, ForensicAuditResult.passed.
        rewrite Hst. reflexivity.
      * intros; exact Hb.
      * intros; exact Hb.
      * intros b Hb'. rewrite Hb in Hb'. discriminate.
    + split; [|split; [|split]].
      * intros Hb'. rewrite Hb in Hb'. discriminate.
      * intros d0 Hd0 Hdup0. rewrite (Hdup d0 Hd0) in Hdup0. discriminate.
      * intros d0 Hd0 N1 N2 N3. exfalso. destruct verify_did.
        -- destruct (Hdid d0 Hd0); contradiction.
        -- rewrite Hdid in Hd0. injection Hd0 as <-. apply N3. reflexivity.
      * intros b Hb'. rewrite Hb in Hb'. injection Hb' as <-.
        cbn [DocumentBundle.invoice_hash DocumentBundle.po_hash DocumentBundle.pod_hash
             DocumentBundle.invoice DocumentBundle.purchase_order
             DocumentBundle.proof_of_delivery].
        rewrite H1, H2, H3. repeat split; assumption.
Qed.

(** X23: a result of [verify_documents] has [passed] exactly when the
    verification of the bundle is PASSED and the DID check, if it left a
    result, found the DID verified. So an audit run with [verify_did]
    off never has [passed], and neither has one whose wallet has no DID;
    such results can be minted only when the verification is
    REQUIRES_REVIEW. [can_mint] holds exactly for [passed] or
    REQUIRES_REVIEW, and never for FAILED. *)
Theorem audit_passes_only_with_verified_did :
  forall (self : ForensicService.t) (wallet_address : string)
         (invoice purchase_order proof_of_delivery : DocumentInput.t)
         (check_duplicate verify_did : bool) (r : ForensicAuditResult.t),
    verify_documents self wallet_address invoice purchase_order proof_of_delivery
      check_duplicate verify_did = Ok r ->
    let status := VerificationResult.status (ForensicAuditResult.verification r) in
    (ForensicAuditResult.passed r = true <->
     status = PASSED /\
     forall d, ForensicAuditResult.did_verification r = Some d ->
               did.DIDVerificationResult.status d = did.VERIFIED) /\
    (verify_did = false -> ForensicAuditResult.passed r = false) /\
    (forall d, ForensicAuditResult.did_verification r = Some d ->
               did.DIDVerificationResult.status d = did.NOT_FOUND ->
               ForensicAuditResult.passed r = false) /\
    (ForensicAuditResult.can_mint r = true <->
     ForensicAuditResult.passed r = true \/ status = REQUIRES_REVIEW) /\
    (status = FAILED -> ForensicAuditResult.can_mint r = false) /\
    (status = REQUIRES_REVIEW -> ForensicAuditResult.can_mint r = true).
Proof.
  intros self wallet_address invoice purchase_order proof_of_delivery
    check_duplicate verify_did r Hr status.
  apply verify_documents_inv in Hr. destruct Hr as (_ & _ & _ & Hcase).
  assert (Hdup : status = PASSED ->
                 match ForensicAuditResult.duplicate_check r with
                 | Some d => xrpl.DuplicateCheckResult.is_duplicate d
                 | None => false
                 end = false).
  { intros Hs. destruct Hcase as [(Hst & _)|(i & p & d & _ & _ & _ & _ & _ & Hd & _)].
    - unfold status in Hs. rewrite Hst in Hs. discriminate.
    - destruct (ForensicAuditResult.duplicate_check r) as [d0|]; [|reflexivity].
      apply Hd. reflexivity. }
  assert (Hpassed : ForensicAuditResult.passed r = true <->
                    status = PASSED /\
                    forall d, ForensicAuditResult.did_verification r = Some d ->
                              did.DIDVerificationResult.status d = did.VERIFIED).
  { unfold ForensicAuditResult.passed. fold status.
    destruct (status_is status PASSED) eqn:Es; cbn [negb].
    - apply status_is_spec in Es. rewrite (Hdup Es).
      destruct (ForensicAuditResult.did_verification r) as [d0|].
      + unfold did.DIDVerificationResult.is_verified.
        destruct (did.DIDVerificationResult.status d0) eqn:E0; cbn; split;
          try discriminate;
          try (intros _; split; [exact Es|intros ? [= <-]; exact E0]);
          try (intros _; reflexivity);
          intros [_ H]; specialize (H d0 eq_refl); rewrite E0 in H; discriminate.
      + split; [intros _; split; [exact Es|discriminate]|reflexivity].
    - split; [discriminate|]. intros [Hs _]. apply status_is_spec in Hs.
      rewrite Hs in Es. discriminate. }
  split; [exact Hpassed|]. split; [|split; [|split; [|split]]].
  - intros Hv. apply not_true_is_false. intros Ep.
    apply Hpassed in Ep as [Hs Hd].
    destruct Hcase as [(Hst & _)|(i & p & d & _ & _ & _ & _ & _ & _ & Hdid)].
    + unfold status in Hs. rewrite Hst in Hs. discriminate.
    + rewrite Hv in Hdid. specialize (Hd _ Hdid). discriminate.
  - intros d0 Hd0 Hnf. apply not_true_is_false. intros Ep.
    apply Hpassed in Ep as [_ Hd]. specialize (Hd _ Hd0). rewrite Hnf in Hd. discriminate.
  - unfold ForensicAuditResult.can_mint. fold status.
    rewrite orb_true_iff, status_is_spec. reflexivity.
  - intros Hs. unfold ForensicAuditResult.can_mint, ForensicAuditResult.passed.
    fold status. rewrite Hs. reflexivity.
  - intros Hs. unfold ForensicAuditResult.can_mint. fold status. rewrite Hs.
    apply orb_true_r.
Qed.

Lemma audit_passes_only_with_verified_did_witness :
  ForensicAuditResult.passed
    (failed_result (Some (xrpl.check_duplicate EmptyString))
       (Some (did.create_skipped_result "rWallet"))
       ("sha256:" ++ sha256_hexdigest "abc") ("sha256:" ++ sha256_hexdigest "abc")
       ("sha256:" ++ sha256_hexdigest "abc")) = false.
Proof.
  exact (proj1 (proj2
    (audit_passes_only_with_verified_did
       {| ForensicService.xrpl_check_duplicate :=
            Some (fun h => Ok (xrpl.check_duplicate h));
          ForensicService.did_verify_wallet := None;
          ForensicService.confidence_threshold := 0.7%Q;
          ForensicService._extract_invoice := fun _ => Raise (ValueError "no model");
          ForensicService._extract_purchase_order :=
            fun _ => Raise (ValueError "no model");
          ForensicService._extract_proof_of_delivery :=
            fun _ => Raise (ValueError "no model") |}
       "rWallet"
       {| DocumentInput.content := "abc"; DocumentInput.filename := "invoice.pdf";
          DocumentInput.document_type := INVOICE |}
       {| DocumentInput.content := "abc"; DocumentInput.filename := "po.pdf";
          DocumentInput.document_type := PURCHASE_ORDER |}
       {| DocumentInput.content := "abc"; DocumentInput.filename := "pod.pdf";
          DocumentInput.document_type := PROOF_OF_DELIVERY |}
       true false
       (failed_result (Some (xrpl.check_duplicate EmptyString))
          (Some (did.create_skipped_result "rWallet"))
          ("sha256:" ++ sha256_hexdigest "abc") ("sha256:" ++ sha256_hexdigest "abc")
          ("sha256:" ++ sha256_hexdigest "abc"))
       eq_refl)) eq_refl).
Defined.

End ForensicFacts.

(** ** Reference numbers and quantities (extractor.py) *)

Section ReferenceExtraction.
Import decimal engine re re_language extractor.
Local Open Scope Q_scope.
Local Open Scope list_scope.
















(** The labels whose first occurrence lies within 100 characters of the
    start of a match. *)
Local Abbreviation labels_near full_text labels m :=
  (List.filter
     (fun label =>
        negb (Z.eqb (find (lower full_text) (lower label)) (-1))
        && near (find (lower full_text) (lower label)) m)
     labels).











(** With the default labels, "invoice" and "inv" are found at the same
    place, so a number that follows the word has the highest confidence. *)
Example invoice_number_after_its_label :
  extract_invoice_number
    {| OCRResult.pages :=
         [{| OCRPage.page_number := 0; OCRPage.width := 100; OCRPage.height := 100;
             OCRPage.blocks := [samples.block "Invoice No: 00000003" 0.9 0.1 0.1] |}];
       OCRResult.processing_time_ms := 0 |} None
  = Ok {| ExtractedField.value := "00000003"; ExtractedField.confidence := 0.98;
          ExtractedField.bounding_box := None;
          ExtractedField.raw_text := Some "00000003" |}.
Proof. vm_compute. reflexivity. Qed.

(** The fourth pattern takes what follows the word "Invoice" and stands
    before the fifth in the list, so for "Invoice Number: ABC-123" the word
    "Number" is returned, not the number after it. *)
Example invoice_number_reads_the_label :
  extract_invoice_number
    {| OCRResult.pages :=
         [{| OCRPage.page_number := 0; OCRPage.width := 100; OCRPage.height := 100;
             OCRPage.blocks := [samples.block "Invoice Number: ABC-123" 0.9 0.1 0.1] |}];
       OCRResult.processing_time_ms := 0 |} None
  = Ok {| ExtractedField.value := "Number"; ExtractedField.confidence := 0.98;
          ExtractedField.bounding_box := None;
          ExtractedField.raw_text := Some "Number" |}.
Proof. vm_compute. reflexivity. Qed.

End ReferenceExtraction.

(** ** Party names (validation.py) *)

Section PartyNames.
Import validation.
Local Open Scope list_scope.




End PartyNames.

(** ** Detected tables (table.py) *)

Section DetectedTables.
Import engine table.
Local Open Scope Q_scope.
Local Open Scope list_scope.

(** No row of [_group_into_rows] is empty, and there is a row when there is
    a block. *)
Lemma group_into_rows_not_empty (row_tolerance : Q) (blocks : list TextBlock.t) :
  (forall row, In row (_group_into_rows row_tolerance blocks) -> row <> []) /\
  (blocks <> [] -> _group_into_rows row_tolerance blocks <> []).
Proof.
  unfold _group_into_rows.
  pose proof (sorted_perm by_center_y blocks) as Hperm.
  pose proof (sorted_sorted by_center_y by_center_y_total by_center_y_trans blocks) as Hs.
  destruct (sorted by_center_y blocks) as [|first rest] eqn:Es.
  - apply Permutation_nil in Hperm. subst blocks. split; [intros row []|congruence].
  - inversion Hs as [|? ? Hs' Hall]; subst.
    edestruct (row_fold_invariant row_tolerance rest
                 {| rows := []; current_row := [first];
                    current_y := TextBlock.center_y first |} first [])
      as (_ & H2 & H3).
    + reflexivity.
    + reflexivity.
    + intros b [].
    + constructor.
    + eapply strongly_sorted_weaken; [|exact Hs']. intros a b Hab.
      apply Qleb_le. exact Hab.
    + intros b Hb. eapply List.Forall_forall in Hall; [|exact Hb].
      apply Qleb_le. exact Hall.
    + set (st := fold_left (row_step row_tolerance) rest _) in *.
      destruct H3 as [a [cur [Hrow _]]]. rewrite Hrow. rewrite <- Hrow. split.
      * intros row Hin. apply in_map_iff in Hin as [row0 [<- Hin]].
        assert (Hne : row0 <> []).
        { apply in_app_or in Hin as [Hin|[<-|[]]]; [|rewrite Hrow; discriminate].
          eapply List.Forall_forall in H2; [|exact Hin].
          destruct H2 as [a0 [cur0 [-> _]]]. discriminate. }
        intros Hnil. pose proof (sorted_perm by_center_x row0) as Hp.
        rewrite Hnil in Hp. apply Permutation_nil in Hp. contradiction.
      * intros _ Hnil. apply (f_equal (@length _)) in Hnil.
        rewrite List.length_map, List.length_app in Hnil. cbn [length] in Hnil. lia.
Qed.

Lemma nodup_snoc {A : Type} (l : list A) (x : A) :
  List.NoDup l -> ~ In x l -> List.NoDup (l ++ [x]).
Proof.
  induction 1 as [|y l Hy Hnd IH]; intros Hx.
  - cbn [app]. constructor; [intros []|constructor].
  - cbn [app]. constructor.
    + intros Hin. apply in_app_or in Hin as [Hin|[<-|[]]]; [contradiction|].
      apply Hx. left. reflexivity.
    + apply IH. intros Hin. apply Hx. right. exact Hin.
Qed.

Lemma insertion_order_fold (column_positions : list Q) (blocks : list TextBlock.t) :
  forall order : list nat,
    List.NoDup order ->
    let order' :=
      fold_left
        (fun order block =>
           let col_idx :=
             _get_column_index (TextBlock.center_x block) column_positions in
           if existsb (Nat.eqb col_idx) order then order else order ++ [col_idx])
        blocks order in
    List.NoDup order' /\
    forall col, In col order' <->
                In col order \/
                exists b, In b blocks /\
                          _get_column_index (TextBlock.center_x b) column_positions = col.
Proof.
  induction blocks as [|block blocks IH]; intros order Hnd; cbn [fold_left].
  - split; [exact Hnd|]. intros col. split; [auto|]. intros [H|[b [[] _]]]. exact H.
  - set (c := _get_column_index (TextBlock.center_x block) column_positions).
    destruct (existsb (Nat.eqb c) order) eqn:E.
    + destruct (IH order Hnd) as [H1 H2]. split; [exact H1|].
      intros col. rewrite H2. split.
      * intros [H|[b [Hb Hc]]]; [left; exact H|right; exists b; split; [right|]; assumption].
      * intros [H|[b [[<-|Hb] Hc]]]; [left; exact H| |right; exists b; auto].
        left. apply existsb_exists in E as [c' [Hc' E]]. apply Nat.eqb_eq in E.
        subst c'. fold c in Hc. subst col. exact Hc'.
    + assert (Hnot : ~ In c order).
      { intros Hin. assert (existsb (Nat.eqb c) order = true).
        { apply existsb_exists. exists c. split; [exact Hin|apply Nat.eqb_refl]. }
        congruence. }
      destruct (IH (order ++ [c])) as [H1 H2].
      { apply nodup_snoc; assumption. }
      split; [exact H1|]. intros col. rewrite H2, in_app_iff. cbn [In]. split.
      * intros [[H|[<-|[]]]|[b [Hb Hc]]].
        -- left. exact H.
        -- right. exists block. split; [left; reflexivity|reflexivity].
        -- right. exists b. split; [right; exact Hb|exact Hc].
      * intros [H|[b [[<-|Hb] Hc]]].
        -- left. left. exact H.
        -- left. right. left. exact Hc.
        -- right. exists b. auto.
Qed.

Lemma insertion_order_spec (column_positions : list Q) (blocks : list TextBlock.t) :
  List.NoDup (insertion_order column_positions blocks) /\
  forall col, In col (insertion_order column_positions blocks) <->
              exists b, In b blocks /\
                        _get_column_index (TextBlock.center_x b) column_positions = col.
Proof.
  destruct (insertion_order_fold column_positions blocks [] (List.NoDup_nil _)) as [Hnd Hin].
  split; [exact Hnd|]. intros col. unfold insertion_order. rewrite (Hin col).
  split; [intros [[]|H]; exact H|auto].
Qed.

Lemma build_row_key (column_positions : list Q) (row_idx : nat)
    (blocks : list TextBlock.t) (col : nat) :
  TableRow.get_cell (build_row column_positions row_idx blocks) col <> None <->
  exists b, In b blocks /\
            _get_column_index (TextBlock.center_x b) column_positions = col.
Proof.
  unfold TableRow.get_cell, build_row. cbn [TableRow.cells].
  rewrite fold_add_block, lookup_empty.
  destruct (List.filter _ blocks) as [|b0 others] eqn:E.
  - split; [congruence|]. intros [b [Hb Hc]].
    assert (Hin : In b (List.filter
                          (fun b => (_get_column_index (TextBlock.center_x b)
                                       column_positions =? col)%nat) blocks)).
    { apply List.filter_In. split; [exact Hb|apply Nat.eqb_eq; exact Hc]. }
    rewrite E in Hin. destruct Hin.
  - split; [|discriminate]. intros _.
    assert (Hin : In b0 (List.filter
                           (fun b => (_get_column_index (TextBlock.center_x b)
                                        column_positions =? col)%nat) blocks))
      by (rewrite E; left; reflexivity).
    apply List.filter_In in Hin as [Hb Hc]. apply Nat.eqb_eq in Hc. eauto.
Qed.

Lemma max_among_spec (l : list Q) :
  forall best : Q, forall x, In x (best :: l) -> x <= max_among best l.
Proof.
  induction l as [|y l IH]; intros best x; cbn [max_among].
  - intros [<-|[]]. apply Qle_refl.
  - assert (Hb : best <= (if Qltb best y then y else best)
                 /\ y <= (if Qltb best y then y else best)).
    { destruct (Qltb best y) eqn:E.
      - apply Qltb_lt in E. split; [apply Qlt_le_weak; exact E|apply Qle_refl].
      - apply Qltb_ge in E. split; [apply Qle_refl|exact E]. }
    destruct Hb as [Hb1 Hb2].
    assert (Hm : (if Qltb best y then y else best)
                 <= max_among (if Qltb best y then y else best) l)
      by (apply IH; left; reflexivity).
    intros [<-|[<-|Hx]].
    + eapply Qle_trans; eassumption.
    + eapply Qle_trans; eassumption.
    + apply IH. right. exact Hx.
Qed.

Lemma items_keys (column_positions : list Q) (row_idx : nat) (blocks : list TextBlock.t) :
  let row := build_row column_positions row_idx blocks in
  List.NoDup (map fst (items column_positions row blocks)) /\
  forall col cell,
    In (col, cell) (items column_positions row blocks) <->
    TableRow.get_cell row col = Some cell.
Proof.
  intros row. unfold items.
  destruct (insertion_order_spec column_positions blocks) as [Hnd Hin].
  assert (Hkey : forall col, In col (insertion_order column_positions blocks) <->
                             TableRow.get_cell row col <> None).
  { intros col. rewrite Hin. unfold row. rewrite build_row_key. reflexivity. }
  clear Hin. split.
  - revert Hnd. generalize (insertion_order column_positions blocks) as order.
    induction order as [|c order IH]; intros Hnd; [constructor|].
    inversion Hnd as [|? ? Hc Hnd']; subst. cbn [flat_map].
    destruct (TableRow.cells row !! c) as [cell|]; [|apply IH, Hnd'].
    cbn [app map fst]. constructor; [|apply IH, Hnd'].
    intros Hin. apply in_map_iff in Hin as [[c' cell'] [E Hin]]. cbn [fst] in E. subst c'.
    apply in_flat_map in Hin as [c'' [Hc'' Hin]].
    destruct (TableRow.cells row !! c''); [|destruct Hin].
    destruct Hin as [[= <- _]|[]]. contradiction.
  - intros col cell. rewrite in_flat_map. split.
    + intros [c [_ H]]. unfold TableRow.get_cell.
      destruct (TableRow.cells row !! c) as [cell'|] eqn:E; [|destruct H].
      destruct H as [[= <- <-]|[]]. exact E.
    + intros H. exists col. split.
      * apply Hkey. rewrite H. discriminate.
      * unfold TableRow.get_cell in H. rewrite H. left. reflexivity.
Qed.

(** The two outcomes of [_detect_tables_on_page]. *)
Lemma detect_tables_on_page_shape (row_tolerance column_tolerance : Q) (min_rows : Z)
    (blocks : list TextBlock.t) (page : Z) :
  (blocks = [] \/
   (Z.of_nat (length (_group_into_rows row_tolerance blocks)) < min_rows)%Z ->
   _detect_tables_on_page row_tolerance column_tolerance min_rows blocks page = []) /\
  (blocks <> [] ->
   (min_rows <= Z.of_nat (length (_group_into_rows row_tolerance blocks)))%Z ->
   exists table,
     _detect_tables_on_page row_tolerance column_tolerance min_rows blocks page = [table] /\
     DetectedTable.page table = page).
Proof.
  unfold _detect_tables_on_page. split.
  - intros [->|H]; [reflexivity|]. destruct blocks as [|first others]; [reflexivity|].
    apply Z.ltb_lt in H. rewrite H. reflexivity.
  - intros Hne Hmin. destruct blocks as [|first others]; [contradiction|].
    replace (Z.of_nat (length (_group_into_rows row_tolerance (first :: others)))
             <? min_rows)%Z with false by (symmetry; apply Z.ltb_ge; exact Hmin).
    destruct (group_into_rows_not_empty row_tolerance (first :: others)) as [_ Hsome].
    destruct (_group_into_rows row_tolerance (first :: others)) as [|first_blocks more];
      [exfalso; apply Hsome; congruence|].
    unfold _build_table_rows, enumerate. cbn [length seq combine map].
    eexists. split; reflexivity.
Qed.

(** X27: [_detect_tables_on_page] returns no table for a page without
    blocks or with fewer rows than [min_rows], and otherwise exactly one
    table: its rows are the rows of the page cut into cells at the detected
    column boundaries, and its bounds enclose every block. The header
    names have one entry for each cell of the first row, whatever that row
    reads; so the names are never empty and [iter_data_rows] always leaves
    the first row out. A name is the canonical name of the first pattern
    group found in the cell text, lowered and stripped, or else that text. *)
Theorem detect_tables_on_page_builds_one_table :
  forall (row_tolerance column_tolerance : Q) (min_rows : Z)
         (blocks : list TextBlock.t) (page : Z),
    let rows := _group_into_rows row_tolerance blocks in
    let boundaries := _detect_column_boundaries column_tolerance blocks in
    let tables :=
      _detect_tables_on_page row_tolerance column_tolerance min_rows blocks page in
    (blocks = [] \/ (Z.of_nat (length rows) < min_rows)%Z -> tables = []) /\
    (blocks <> [] -> (min_rows <= Z.of_nat (length rows))%Z ->
     exists (table : DetectedTable.t) (first_row : TableRow.t)
            (data_rows : list TableRow.t),
       tables = [table] /\
       DetectedTable.page table = page /\
       DetectedTable.column_positions table = boundaries /\
       DetectedTable.rows table = _build_table_rows rows boundaries /\
       DetectedTable.rows table = first_row :: data_rows /\
       DetectedTable.num_rows table = length rows /\
       (forall b, In b blocks ->
          DetectedTable.x_min table <= TextBlock.x_min b /\
          DetectedTable.y_min table <= TextBlock.y_min b /\
          TextBlock.x_max b <= DetectedTable.x_max table /\
          TextBlock.y_max b <= DetectedTable.y_max table) /\
       List.NoDup (map fst (DetectedTable.column_names table)) /\
       (forall col name,
          In (col, name) (DetectedTable.column_names table) <->
          exists cell,
            TableRow.get_cell first_row col = Some cell /\
            name = header_name (strip (lower (TableCell.text cell)))) /\
       DetectedTable.column_names table <> [] /\
       DetectedTable.iter_data_rows table = data_rows).
Proof.
  intros row_tolerance column_tolerance min_rows blocks page rows boundaries tables.
  unfold tables, _detect_tables_on_page. fold rows. fold boundaries. split.
  - intros [->|H]; [reflexivity|]. destruct blocks as [|first others]; [reflexivity|].
    apply Z.ltb_lt in H. rewrite H. reflexivity.
  - intros Hne Hmin. destruct blocks as [|first others]; [contradiction|].
    replace (Z.of_nat (length rows) <? min_rows)%Z with false
      by (symmetry; apply Z.ltb_ge; exact Hmin).
    destruct (group_into_rows_not_empty row_tolerance (first :: others)) as [Hrow Hsome].
    fold rows in Hrow, Hsome.
    destruct rows as [|first_blocks more] eqn:Er; [exfalso; apply Hsome; congruence|].
    assert (Hfb : first_blocks <> []) by (apply Hrow; left; reflexivity).
    unfold _build_table_rows, enumerate. cbn [length seq combine map].
    set (first_row := build_row boundaries 0 first_blocks).
    set (data_rows := map _ (combine (seq 1 (length more)) more)).
    destruct (items_keys boundaries 0 first_blocks) as [Hnd Hitems].
    fold first_row in Hnd, Hitems.
    eexists. exists first_row, data_rows. split; [reflexivity|].
    cbn [DetectedTable.page DetectedTable.column_positions DetectedTable.rows
         DetectedTable.column_names DetectedTable.x_min DetectedTable.y_min
         DetectedTable.x_max DetectedTable.y_max].
    unfold DetectedTable.num_rows, DetectedTable.iter_data_rows.
    cbn [DetectedTable.rows DetectedTable.column_names].
    split; [reflexivity|]. split; [reflexivity|]. split; [reflexivity|].
    split; [reflexivity|]. split.
    { unfold data_rows. cbn [length]. rewrite List.length_map, List.length_combine,
        List.length_seq. lia. }
    split.
    { intros b Hb.
      assert (Hx : In (TextBlock.x_min b)
                     (TextBlock.x_min first :: map TextBlock.x_min others))
        by (apply (in_map TextBlock.x_min _ _ Hb)).
      assert (Hy : In (TextBlock.y_min b)
                     (TextBlock.y_min first :: map TextBlock.y_min others))
        by (apply (in_map TextBlock.y_min _ _ Hb)).
      assert (Hx' : In (TextBlock.x_max b)
                      (TextBlock.x_max first :: map TextBlock.x_max others))
        by (apply (in_map TextBlock.x_max _ _ Hb)).
      assert (Hy' : In (TextBlock.y_max b)
                      (TextBlock.y_max first :: map TextBlock.y_max others))
        by (apply (in_map TextBlock.y_max _ _ Hb)).
      split; [apply min_from_spec; exact Hx|]. split; [apply min_from_spec; exact Hy|].
      split; [apply max_among_spec; exact Hx'|apply max_among_spec; exact Hy']. }
    assert (Hnames : forall col name,
              In (col, name) (_detect_header (items boundaries first_row first_blocks)
                                boundaries) <->
              exists cell,
                TableRow.get_cell first_row col = Some cell /\
                name = header_name (strip (lower (TableCell.text cell)))).
    { intros col name. unfold _detect_header. rewrite in_map_iff. split.
      - intros [[c cell] [[= <- <-] Hin]]. exists cell. split; [|reflexivity].
        apply Hitems. exact Hin.
      - intros [cell [Hc ->]]. exists (col, cell). split; [reflexivity|].
        apply Hitems. exact Hc. }
    split.
    { unfold _detect_header. rewrite List.map_map. cbn [fst]. exact Hnd. }
    split; [exact Hnames|].
    assert (Hnonempty : _detect_header (items boundaries first_row first_blocks)
                          boundaries <> []).
    { destruct first_blocks as [|b0 bs]; [contradiction|].
      assert (Hk : TableRow.get_cell first_row
                     (_get_column_index (TextBlock.center_x b0) boundaries) <> None).
      { apply build_row_key. exists b0. split; [left; reflexivity|reflexivity]. }
      destruct (TableRow.get_cell first_row
                  (_get_column_index (TextBlock.center_x b0) boundaries))
        as [cell|] eqn:Ec; [|contradiction].
      intros Hnil.
      assert (Hin : In (_get_column_index (TextBlock.center_x b0) boundaries,
                        header_name (strip (lower (TableCell.text cell))))
                      (_detect_header (items boundaries first_row (b0 :: bs)) boundaries)).
      { apply Hnames. exists cell. split; [exact Ec|reflexivity]. }
      rewrite Hnil in Hin. destruct Hin. }
    split; [exact Hnonempty|].
    destruct (_detect_header _ _); [contradiction|reflexivity].
Qed.

(** X28: [detect_tables] gives the tables of the pages in the order of
    the pages, at most one for a page, each under the number of its page;
    [get_column_by_name] answers with the first named column whose name
    contains the name asked for, the case ignored, and with nothing when
    there is none. *)
Theorem detect_tables_one_table_per_page :
  forall (row_tolerance column_tolerance : Q) (min_rows : Z) (ocr_result : OCRResult.t),
    let tables := detect_tables row_tolerance column_tolerance min_rows ocr_result in
    (length tables <= length (OCRResult.pages ocr_result))%nat /\
    map DetectedTable.page tables
    = map OCRPage.page_number
        (List.filter
           (fun p =>
              negb (match OCRPage.blocks p with [] => true | _ => false end)
              && negb (Z.of_nat (length (_group_into_rows row_tolerance (OCRPage.blocks p)))
                       <? min_rows)%Z)
           (OCRResult.pages ocr_result)) /\
    (forall table name,
       match DetectedTable.get_column_by_name table name with
       | Some col =>
           exists before col_name after,
             DetectedTable.column_names table = before ++ (col, col_name) :: after /\
             contains (lower col_name) (lower name) = true /\
             forall item, In item before ->
                          contains (lower (snd item)) (lower name) = false
       | None =>
           forall item, In item (DetectedTable.column_names table) ->
                        contains (lower (snd item)) (lower name) = false
       end).
Proof.
  intros row_tolerance column_tolerance min_rows ocr_result tables.
  unfold tables, detect_tables.
  assert (Hpage : forall p,
            let found :=
              _detect_tables_on_page row_tolerance column_tolerance min_rows
                (OCRPage.blocks p) (OCRPage.page_number p) in
            (length found <= 1)%nat /\
            map DetectedTable.page found
            = if negb (match OCRPage.blocks p with [] => true | _ => false end)
                 && negb (Z.of_nat (length (_group_into_rows row_tolerance
                                              (OCRPage.blocks p))) <? min_rows)%Z
              then [OCRPage.page_number p] else []).
  { intros p. cbv zeta.
    generalize (OCRPage.blocks p) (OCRPage.page_number p). intros blocks page.
    destruct (detect_tables_on_page_shape row_tolerance column_tolerance min_rows
                blocks page) as [H1 H2].
    destruct blocks as [|b bs].
    - split; [cbn; lia|reflexivity].
    - destruct (Z.ltb_spec (Z.of_nat (length (_group_into_rows row_tolerance (b :: bs))))
                  min_rows) as [Hlt|Hge].
      + rewrite (H1 (or_intror Hlt)). split; [cbn; lia|reflexivity].
      + destruct (H2 ltac:(discriminate) Hge) as [table [Ht Hp]].
        rewrite Ht. cbn [map length negb andb]. rewrite Hp.
        split; [lia|reflexivity]. }
  split; [|split].
  - induction (OCRResult.pages ocr_result) as [|p pages IH]; [reflexivity|].
    cbn [flat_map length]. rewrite List.length_app.
    destruct (Hpage p) as [Hp _]. lia.
  - induction (OCRResult.pages ocr_result) as [|p pages IH]; [reflexivity|].
    cbn [flat_map List.filter]. rewrite List.map_app, IH.
    destruct (Hpage p) as [_ ->].
    destruct (negb _ && negb _); reflexivity.
  - intros table name. unfold DetectedTable.get_column_by_name.
    induction (DetectedTable.column_names table) as [|[c n] names IH].
    + cbn [List.find]. intros item [].
    + cbn [List.find snd]. destruct (contains (lower n) (lower name)) eqn:E.
      * exists [], n, names. split; [reflexivity|]. split; [exact E|intros item []].
      * destruct (List.find _ names) as [[c' n']|].
        -- destruct IH as [before [col_name [after (H1 & H2 & H3)]]].
           exists ((c, n) :: before), col_name, after. rewrite H1.
           split; [reflexivity|]. split; [exact H2|].
           intros item [<-|Hi]; [exact E|apply H3, Hi].
        -- intros item [<-|Hi]; [exact E|apply IH, Hi].
Qed.

End DetectedTables.

(** ** Order of the column boundaries (table.py) *)

Section BoundaryOrder.
Import engine table table_spec.
Local Open Scope Q_scope.
Local Open Scope list_scope.















End BoundaryOrder.

(** ** Hashing a file (hashing.py) *)

Section FileHashes.
Import hashlib hashing.

Lemma drop_length (n : nat) (s : string) :
  (String.length (drop n s) <= String.length s)%nat.
Proof.
  revert s. induction n as [|n IH]; intros s; [destruct s; cbn; lia|].
  destruct s as [|a s]; [cbn; lia|]. cbn [drop String.length].
  specialize (IH s). lia.
Qed.

(** With enough fuel the loop feeds the whole file, chunk after chunk. *)
Lemma feed_chunks_all (fuel : nat) :
  forall hasher f : string,
    (String.length f < fuel)%nat -> feed_chunks fuel hasher f = (hasher ++ f)%string.
Proof.
  assert (Hpos : exists n, chunk_size = S n).
  { exists (pred chunk_size). unfold chunk_size. lia. }
  destruct Hpos as [n Hn].
  induction fuel as [|fuel IH]; intros hasher f Hlen; [lia|].
  cbn [feed_chunks]. rewrite Hn. destruct f as [|a f].
  - cbn [take]. rewrite append_empty_r. reflexivity.
  - cbn [take drop]. rewrite IH.
    + rewrite append_assoc.
      change (String a (take n f) ++ drop n f)%string
        with (String a (take n f ++ drop n f)%string).
      rewrite take_drop. reflexivity.
    + pose proof (drop_length n f). cbn [String.length] in Hlen. lia.
Qed.

(** X30: for a file that exists [compute_file_hash] gives the prefixed
    SHA-256 digest of its whole content, whatever the size; for a content
    that is not empty this is the hash [compute_document_hash] gives, which
    [verify_hash] accepts. An empty file has a hash, while
    [compute_document_hash] raises for empty content. A missing file gives
    [FileNotFoundError]. *)
Theorem compute_file_hash_is_the_document_hash :
  forall (file_path content : string),
    compute_file_hash file_path None
    = inl (FileNotFoundError ("File not found: " ++ file_path)) /\
    compute_file_hash file_path (Some content)
    = inr ("sha256:" ++ sha256_hexdigest content) /\
    (content <> EmptyString ->
     compute_document_hash content = Ok ("sha256:" ++ sha256_hexdigest content) /\
     verify_hash content ("sha256:" ++ sha256_hexdigest content) = Ok true) /\
    compute_document_hash EmptyString = Raise (ValueError "Cannot hash empty content") /\
    compute_file_hash file_path (Some EmptyString)
    = inr "sha256:e3b0c44298fc1c149afbf4c8996fb92427ae41e4649b934ca495991b7852b855".
Proof.
  intros file_path content. split; [reflexivity|]. split; [|split; [|split]].
  - unfold compute_file_hash. rewrite feed_chunks_all by lia. reflexivity.
  - intros Hne.
    assert (E : compute_document_hash content = Ok ("sha256:" ++ sha256_hexdigest content)).
    { destruct content; [contradiction|reflexivity]. }
    split; [exact E|]. unfold verify_hash.
    rewrite (startswith_app "sha256:" (sha256_hexdigest content)), E.
    cbn [negb bind]. rewrite String.eqb_refl. reflexivity.
  - reflexivity.
  - vm_compute. reflexivity.
Qed.

End FileHashes.
